(** * OCR-QCM desktop assistant: a shallow embedding of its core

    The development models the parts of [app_ctk.py], [llm_client.py],
    [ocr.py] and [config.py] that carry a contract: the prompt store and
    its JSON file, the provider catalogue, the completion client, the
    capture pipeline and the fan-out of an answer to its sinks.

    Python values are modelled as the interpreter has them: a [str] is a
    sequence of code points, a [bytes] a sequence of bytes, a [dict] an
    association list in insertion order with unique keys, an exception a
    class with a message.  Effects are explicit: every operation that
    touches the outside returns its result together with the new state. *)

From Stdlib Require Import ZArith NArith Lia DecimalNat.
From Stdlib.Strings Require Import Byte.
From stdpp Require Import base option list sorting strings gmap.

Local Open Scope N_scope.

(** ** Python primitives *)

(** A Python [str] is a sequence of code points. *)
Abbreviation str := (list N) (only parsing).

(** A [bytes] object. *)
Abbreviation bytes := (list Byte.byte) (only parsing).

Inductive exc_class :=
| ValueError | KeyError | IndexError | TypeError | RuntimeError | OSError
| UnicodeError | JSONDecodeError | RecursionError | TclError
| VendorError.

(** An exception instance; [str(e)] is [exn_msg]. *)
Record exn := Exn { exn_class : exc_class; exn_msg : str }.

Inductive result (A : Type) :=
| Ok (a : A)
| Raise (e : exn).
Arguments Ok {A} a.
Arguments Raise {A} e.

Global Instance result_ret : MRet result := fun A a => Ok a.
Global Instance result_bind : MBind result := fun A B k r =>
  match r with Ok a => k a | Raise e => Raise e end.

Definition is_ok {A} (r : result A) : bool :=
  match r with Ok _ => true | Raise _ => false end.

(** *** UTF-8, as Python's strict codec implements it *)

Definition byte_of_N (n : N) : Byte.byte :=
  match Byte.of_N n with Some b => b | None => Byte.x00 end.

Definition is_surrogate (c : N) : bool := (0xD800 <=? c) && (c <=? 0xDFFF).

(** A code point the UTF-8 codec accepts: a Unicode scalar value. *)
Definition is_scalar (c : N) : bool := (c <=? 0x10FFFF) && negb (is_surrogate c).

(** [str.encode("utf-8")] for one code point: lone surrogates are refused. *)
Definition utf8_encode_char (c : N) : option bytes :=
  if c <? 0x80 then Some [byte_of_N c]
  else if c <? 0x800 then
    Some [byte_of_N (0xC0 + c / 64); byte_of_N (0x80 + c mod 64)]
  else if c <? 0x10000 then
    if is_surrogate c then None
    else Some [byte_of_N (0xE0 + c / 4096);
               byte_of_N (0x80 + (c / 64) mod 64);
               byte_of_N (0x80 + c mod 64)]
  else if c <=? 0x10FFFF then
    Some [byte_of_N (0xF0 + c / 262144);
          byte_of_N (0x80 + (c / 4096) mod 64);
          byte_of_N (0x80 + (c / 64) mod 64);
          byte_of_N (0x80 + c mod 64)]
  else None.

Fixpoint utf8_encode (s : str) : option bytes :=
  match s with
  | [] => Some []
  | c :: r =>
      match utf8_encode_char c, utf8_encode r with
      | Some b, Some br => Some (b ++ br)
      | _, _ => None
      end
  end.

Definition is_cont (b : N) : bool := (0x80 <=? b) && (b <=? 0xBF).

(** [bytes.decode("utf-8")], strict: overlong forms, surrogates, code points
    above U+10FFFF, stray continuation bytes and truncated sequences are
    errors. *)
Fixpoint utf8_decode (bs : bytes) : option str :=
  match bs with
  | [] => Some []
  | b0 :: r0 =>
      let n0 := Byte.to_N b0 in
      if n0 <? 0x80 then cons n0 <$> utf8_decode r0
      else if n0 <? 0xC0 then None
      else
        match r0 with
        | [] => None
        | b1 :: r1 =>
            let n1 := Byte.to_N b1 in
            if negb (is_cont n1) then None
            else if n0 <? 0xE0 then
              let c := (n0 - 0xC0) * 64 + (n1 - 0x80) in
              if c <? 0x80 then None else cons c <$> utf8_decode r1
            else
              match r1 with
              | [] => None
              | b2 :: r2 =>
                  let n2 := Byte.to_N b2 in
                  if negb (is_cont n2) then None
                  else if n0 <? 0xF0 then
                    let c := (n0 - 0xE0) * 4096 + (n1 - 0x80) * 64 + (n2 - 0x80) in
                    if (c <? 0x800) || is_surrogate c then None
                    else cons c <$> utf8_decode r2
                  else
                    match r2 with
                    | [] => None
                    | b3 :: r3 =>
                        let n3 := Byte.to_N b3 in
                        if negb (is_cont n3) then None
                        else if n0 <? 0xF8 then
                          let c := (n0 - 0xF0) * 262144 + (n1 - 0x80) * 4096
                                   + (n2 - 0x80) * 64 + (n3 - 0x80) in
                          if (c <? 0x10000) || (0x10FFFF <? c) then None
                          else cons c <$> utf8_decode r3
                        else None
                    end
              end
        end
  end.

(** A literal of the source files, read as the interpreter reads the
    UTF-8 source text. *)
Definition py (s : string) : str :=
  default [] (utf8_decode (String.list_byte_of_string s)).

(** [Py_UNICODE_ISSPACE]: what [str.strip()] removes. *)
Definition isspace (c : N) : bool :=
  ((0x09 <=? c) && (c <=? 0x0D)) || ((0x1C <=? c) && (c <=? 0x20))
  || (c =? 0x85) || (c =? 0xA0) || (c =? 0x1680)
  || ((0x2000 <=? c) && (c <=? 0x200A))
  || (c =? 0x2028) || (c =? 0x2029) || (c =? 0x202F) || (c =? 0x205F)
  || (c =? 0x3000).

Fixpoint lstrip (s : str) : str :=
  match s with
  | c :: r => if isspace c then lstrip r else s
  | [] => []
  end.

Definition rstrip (s : str) : str := reverse (lstrip (reverse s)).

Definition strip (s : str) : str := rstrip (lstrip s).

(** Truth value of a [str]. *)
Definition truthy (s : str) : bool :=
  match s with [] => false | _ => true end.

(** [str(i)] for a non-negative [int]. *)
Fixpoint digits_of_uint (d : Decimal.uint) : str :=
  match d with
  | Decimal.Nil => []
  | Decimal.D0 r => 0x30 :: digits_of_uint r
  | Decimal.D1 r => 0x31 :: digits_of_uint r
  | Decimal.D2 r => 0x32 :: digits_of_uint r
  | Decimal.D3 r => 0x33 :: digits_of_uint r
  | Decimal.D4 r => 0x34 :: digits_of_uint r
  | Decimal.D5 r => 0x35 :: digits_of_uint r
  | Decimal.D6 r => 0x36 :: digits_of_uint r
  | Decimal.D7 r => 0x37 :: digits_of_uint r
  | Decimal.D8 r => 0x38 :: digits_of_uint r
  | Decimal.D9 r => 0x39 :: digits_of_uint r
  end.

Definition str_of_nat (n : nat) : str := digits_of_uint (Nat.to_uint n).

Definition str_of_Z (z : Z) : str :=
  match z with
  | Z.neg p => 0x2D :: str_of_nat (Pos.to_nat p)
  | _ => str_of_nat (Z.to_nat z)
  end.

(** Comparison of two [str]: lexicographic on code points. *)
Fixpoint str_leb (a b : str) : bool :=
  match a, b with
  | [], _ => true
  | _ :: _, [] => false
  | x :: a', y :: b' => (x <? y) || ((x =? y) && str_leb a' b')
  end.

Definition str_le (a b : str) : Prop := str_leb a b = true.

(** *** [dict]: insertion-ordered, keys unique *)

Abbreviation dict V := (list (list N * V)) (only parsing).

Section dict.
Context {V : Type}.

Fixpoint dict_get (k : str) (d : dict V) : option V :=
  match d with
  | [] => None
  | (k', v) :: r => if decide (k = k') then Some v else dict_get k r
  end.

(** [k in d] *)
Definition dict_contains (k : str) (d : dict V) : bool :=
  match dict_get k d with Some _ => true | None => false end.

(** [d[k] = v]: an existing key keeps its position, a new key goes last. *)
Fixpoint dict_set (k : str) (v : V) (d : dict V) : dict V :=
  match d with
  | [] => [(k, v)]
  | (k', v') :: r =>
      if decide (k = k') then (k', v) :: r else (k', v') :: dict_set k v r
  end.

(** [del d[k]] for a key that is present. *)
Fixpoint dict_del (k : str) (d : dict V) : dict V :=
  match d with
  | [] => []
  | (k', v') :: r => if decide (k = k') then r else (k', v') :: dict_del k r
  end.

(** [d.update(e)], also [dict(pairs)] from the empty dict. *)
Definition dict_update (d e : dict V) : dict V :=
  foldl (fun acc kv => dict_set kv.1 kv.2 acc) d e.

Definition dict_keys (d : dict V) : list str := d.*1.

End dict.

(** *** The interpreter and platform, where they are not modelled

    Floating point numbers, the Unicode database, the rendering of a
    replacement field that goes beyond a plain name, and the platform's
    limits are taken as they come. *)
Class Runtime := {
  (** the type [float] *)
  pyfloat : Type;
  (** [float(s)] on a JSON number or constant *)
  float_of_literal : str -> pyfloat;
  (** [float.__repr__] *)
  float_repr : pyfloat -> str;
  (** [sys.get_int_max_str_digits()], 0 for no limit *)
  int_max_str_digits : nat;
  (** nested calls left before [RecursionError] *)
  recursion_limit : nat;
  (** [PY_SSIZE_T_MAX] *)
  ssize_t_max : N;
  (** [Py_UNICODE_TODECIMAL] outside ASCII *)
  unicode_todecimal : N -> option N;
  (** [os.linesep == "\r\n"] *)
  linesep_crlf : bool;
  (** [repr(s)] of a [str]: the quotes, and the escapes of what the
      Unicode database does not hold printable *)
  str_repr : str -> str;
  (** a replacement field on a [str] with attribute or index lookups, a
      conversion or a format specification: the lookups, the conversion
      character, the specification and the argument *)
  format_str_field : str -> option N -> str -> str -> result str;
  (** what a Tk text widget shows for a value that is not a [str] *)
  tk_string_of : forall {V : Type}, V -> str
}.

Section objects.
Context `{Runtime}.

(** The values [json.load] produces and [json.dump] accepts. *)
#[warnings="-register-all"]
Inductive pyobj :=
| PyNone
| PyBool (b : bool)
| PyInt (z : Z)
| PyFloat (f : pyfloat)
| PyStr (s : str)
| PyList (l : list pyobj)
| PyDict (d : list (list N * pyobj)).

(** [isinstance(o, dict)] *)
Definition isinstance_dict (o : pyobj) : bool :=
  match o with PyDict _ => true | _ => false end.

End objects.

(** ** [llm_client.py] *)

Definition LBRACE : N := 0x7B.
Definition RBRACE : N := 0x7D.
Definition LBRACKET : N := 0x5B.
Definition RBRACKET : N := 0x5D.
Definition COLON : N := 0x3A.
Definition BANG : N := 0x21.
Definition DOT : N := 0x2E.
Definition NEWLINE : N := 0x0A.

Section format.
Context `{Runtime}.

(** [parse_field], the field name: up to [}], [:] or [!]; a [[] hides
    everything up to its []]. *)
Fixpoint scan_field_name (in_bracket : bool) (acc s : str)
  : result (str * N * str) :=
  match s with
  | [] => Raise (Exn ValueError (py "expected '}' before end of string"))
  | c :: r =>
      if in_bracket then scan_field_name (negb (c =? RBRACKET)) (acc ++ [c]) r
      else if c =? LBRACE then
        Raise (Exn ValueError (py "unexpected '{' in field name"))
      else if c =? LBRACKET then scan_field_name true (acc ++ [c]) r
      else if (c =? RBRACE) || (c =? COLON) || (c =? BANG) then Ok (acc, c, r)
      else scan_field_name false (acc ++ [c]) r
  end.

(** [parse_field], the format specification: up to the matching [}]. *)
Fixpoint scan_format_spec (count : nat) (acc s : str) : result (str * str) :=
  match s with
  | [] => Raise (Exn ValueError (py "unmatched '{' in format spec"))
  | c :: r =>
      if c =? LBRACE then scan_format_spec (S count) (acc ++ [c]) r
      else if c =? RBRACE then
        match count with
        | S (S n) => scan_format_spec (S n) (acc ++ [c]) r
        | _ => Ok (acc, r)
        end
      else scan_format_spec count (acc ++ [c]) r
  end.

(** [parse_field]: name, conversion, specification and what follows the
    field. *)
Definition parse_field (s : str) : result (str * option N * str * str) :=
  '(name, c, r) ← scan_field_name false [] s;
  if c =? RBRACE then Ok (name, None, [], r)
  else if c =? BANG then
    match r with
    | [] => Raise (Exn ValueError
              (py "end of string while looking for conversion specifier"))
    | conv :: r1 =>
        match r1 with
        | [] => Raise (Exn ValueError (py "unmatched '{' in format spec"))
        | c1 :: r2 =>
            if c1 =? RBRACE then Ok (name, Some conv, [], r2)
            else if c1 =? COLON then
              '(spec, r3) ← scan_format_spec 1 [] r2;
              Ok (name, Some conv, spec, r3)
            else Raise (Exn ValueError
                   (py "expected ':' after conversion specifier"))
        end
    end
  else
    '(spec, r1) ← scan_format_spec 1 [] r;
    Ok (name, None, spec, r1).

(** [field_name_split]: the part of the name before the first [.] or [[]. *)
Fixpoint field_name_split (name : str) : str * str :=
  match name with
  | [] => ([], [])
  | c :: r =>
      if (c =? DOT) || (c =? LBRACKET) then ([], name)
      else let '(a, b) := field_name_split r in (c :: a, b)
  end.

(** [Py_UNICODE_TODECIMAL] *)
Definition todecimal (c : N) : option N :=
  if c <? 0x80 then
    if (0x30 <=? c) && (c <=? 0x39) then Some (c - 0x30) else None
  else unicode_todecimal c.

(** [get_integer]: [None] when the name is not a number. *)
Fixpoint get_integer_from (acc : N) (s : str) : result (option N) :=
  match s with
  | [] => Ok (Some acc)
  | c :: r =>
      match todecimal c with
      | None => Ok None
      | Some d =>
          if (ssize_t_max - d) / 10 <? acc then
            Raise (Exn ValueError (py "Too many decimal digits in format string"))
          else get_integer_from (acc * 10 + d) r
      end
  end.

Definition get_integer (s : str) : result (option N) :=
  match s with [] => Ok None | _ => get_integer_from 0 s end.

(** [output_markup] for the call [template.format(text=text)]: there are
    no positional arguments and one keyword.  A name that is empty or a
    number is an index into the positional arguments, the empty name of
    the first field being index 0 (the field that raises is the first
    that is rendered); any other name is looked up among the keywords, and
    the [KeyError] of a name that is not there holds the name, so its
    [str] is the [repr] of the name. *)
Definition render_field (text name : str) (conv : option N) (spec : str)
  : result str :=
  let '(first, rest) := field_name_split name in
  idx ← get_integer first;
  if bool_decide (first = []) || bool_decide (idx <> None) then
    Raise (Exn IndexError
      (py "Replacement index " ++ str_of_Z (Z.of_N (default 0 idx))
       ++ py " out of range for positional args tuple"))
  else if bool_decide (first = py "text") then
    match rest, conv, spec with
    | [], None, [] => Ok text
    | _, _, _ => format_str_field rest conv spec text
    end
  else Raise (Exn KeyError (str_repr first)).

Definition is_brace (c : N) : bool := (c =? LBRACE) || (c =? RBRACE).

(** The literal text up to the next brace, and what starts at that brace. *)
Fixpoint split_literal (s : str) : str * str :=
  match s with
  | [] => ([], [])
  | c :: r =>
      if is_brace c then ([], s)
      else let '(a, b) := split_literal r in (c :: a, b)
  end.

(** [do_markup]: one round is one [MarkupIterator_next] followed by the
    rendering of its field.  Each round consumes input, so [fuel] rounds
    are enough for [fuel] code points. *)
Fixpoint do_markup (fuel : nat) (text s : str) : result str :=
  match s with
  | [] => Ok []
  | _ :: _ =>
      match fuel with
      | O => Raise (Exn RecursionError [])
      | S fuel' =>
          let '(literal, r) := split_literal s in
          match r with
          | [] => Ok literal
          | c :: r1 =>
              match r1 with
              | [] =>
                  if c =? RBRACE then
                    Raise (Exn ValueError
                      (py "Single '}' encountered in format string"))
                  else
                    Raise (Exn ValueError
                      (py "Single '{' encountered in format string"))
              | c1 :: r2 =>
                  if c =? c1 then
                    tail ← do_markup fuel' text r2;
                    Ok (literal ++ c :: tail)
                  else if c =? RBRACE then
                    Raise (Exn ValueError
                      (py "Single '}' encountered in format string"))
                  else
                    '(name, conv, spec, rest) ← parse_field r1;
                    v ← render_field text name conv spec;
                    tail ← do_markup fuel' text rest;
                    Ok (literal ++ v ++ tail)
              end
          end
      end
  end.

(** [template.format(text=text)] *)
Definition format (template text : str) : result str :=
  do_markup (length template) text template.

End format.

Section llm_client.
Context `{Runtime}.

(** An attribute of a response object: absent, or holding a value. *)
Inductive attr (A : Type) :=
| AttrMissing
| AttrValue (v : A).
Arguments AttrMissing {A}.
Arguments AttrValue {A} v.

(** [getattr(o, name, default)] *)
Definition getattr {A} (a : attr A) (default : A) : A :=
  match a with AttrMissing => default | AttrValue v => v end.

(** The chat completion of the OpenAI SDK. *)
Record ChatCompletionMessage := { content : option str }.
Record Choice := { message : ChatCompletionMessage }.
Record ChatCompletion := { choices : list Choice }.

(** The message of the Anthropic SDK: its blocks are objects, with or
    without a [text] attribute, or plain dicts. *)
Inductive ContentBlock :=
| BlockObject (text : attr pyobj)
| BlockDict (items : dict pyobj).
Record Message := { msg_content : attr (option (list ContentBlock)) }.

(** The response of the Gemini SDK.  Its [text] is a property: reading it
    runs code of the SDK, which gives the text of the answer or raises (a
    [ValueError] when the answer holds no part with text).  [getattr] with
    a default absorbs an [AttributeError] only, which is [AttrMissing]
    here; any other exception of the property leaves [getattr]. *)
Record GenerateContentResponse := { resp_text : result (attr (option str)) }.

(** The three SDKs, as far as the client uses them. *)
Record sdks := {
  OpenAI_present : bool;
  anthropic_present : bool;
  genai_present : bool;
  (** [OpenAI(api_key=key)]: what the constructor raises, if anything *)
  OpenAI_fault : str -> option exn;
  (** [anthropic.Anthropic(api_key=key)] *)
  Anthropic_fault : str -> option exn;
  (** [genai.configure(api_key=key)] followed by
      [genai.GenerativeModel(model)], for the key and the model *)
  GenerativeModel_fault : str -> str -> option exn;
  (** [chat.completions.create(model, messages=[user: content], temperature)] *)
  chat_completions_create : str -> str -> pyfloat -> result ChatCompletion;
  (** [messages.create(model, max_tokens, temperature, messages=[user: content])] *)
  messages_create : str -> N -> pyfloat -> str -> result Message;
  (** [GenerativeModel(model).generate_content(prompt)] *)
  generate_content : str -> str -> result GenerateContentResponse
}.

(** A call that reached a vendor. *)
Inductive vendor_call :=
| CallOpenAI (model content : str) (temperature : pyfloat)
| CallAnthropic (model : str) (max_tokens : N) (temperature : pyfloat) (content : str)
| CallGemini (model prompt : str).

Record LLMClient := { provider : str; model : str; api_key : str }.

(** [LLMClient.__init__] *)
Definition LLMClient_init (v : sdks) (provider model api_key : str)
  : result LLMClient :=
  let self := {| provider := provider; model := model; api_key := api_key |} in
  if bool_decide (provider = py "OpenAI") then
    if negb (OpenAI_present v) then
      Raise (Exn RuntimeError (py "SDK OpenAI manquant (pip install openai)"))
    else match OpenAI_fault v api_key with Some e => Raise e | None => Ok self end
  else if bool_decide (provider = py "Anthropic") then
    if negb (anthropic_present v) then
      Raise (Exn RuntimeError (py "SDK anthropic manquant (pip install anthropic)"))
    else match Anthropic_fault v api_key with Some e => Raise e | None => Ok self end
  else if bool_decide (provider = py "Gemini") then
    if negb (genai_present v) then
      Raise (Exn RuntimeError
        (py "SDK google-generativeai manquant (pip install google-generativeai)"))
    else match GenerativeModel_fault v api_key model with
         | Some e => Raise e
         | None => Ok self
         end
  else Raise (Exn ValueError (py "Provider inconnu: " ++ provider)).

(** [x or ''] *)
Definition or_empty (x : option str) : str :=
  match x with
  | Some s => if truthy s then s else []
  | None => []
  end.

(** What one block appends to [parts]. *)
Definition block_parts (block : ContentBlock) : list pyobj :=
  match block with
  | BlockObject (AttrValue t) => [t]
  | BlockObject AttrMissing => []
  | BlockDict d =>
      match dict_get (py "type") d with
      | Some (PyStr ty) =>
          if bool_decide (ty = py "text")
          then [default (PyStr []) (dict_get (py "text") d)]
          else []
      | _ => []
      end
  end.

Fixpoint join_strs (sep : str) (parts : list str) : str :=
  match parts with
  | [] => []
  | [p] => p
  | p :: r => p ++ sep ++ join_strs sep r
  end.

Fixpoint all_strs (parts : list pyobj) : option (list str) :=
  match parts with
  | [] => Some []
  | PyStr s :: r => cons s <$> all_strs r
  | _ :: _ => None
  end.

(** [sep.join(parts)]: every item has to be a [str]. *)
Definition str_join (sep : str) (parts : list pyobj) : result str :=
  match all_strs parts with
  | Some ss => Ok (join_strs sep ss)
  | None => Raise (Exn TypeError (py "sequence item: expected str instance"))
  end.

(** [LLMClient.complete]: the result, and the calls made to the vendors. *)
Definition complete (v : sdks) (self : LLMClient)
    (text prompt_template : str) (temperature : pyfloat)
  : result str * list vendor_call :=
  match format prompt_template text with
  | Raise e => (Raise e, [])
  | Ok prompt =>
      if bool_decide (provider self = py "OpenAI") then
        (resp ← chat_completions_create v (model self) prompt temperature;
         match choices resp with
         | [] => Raise (Exn IndexError (py "list index out of range"))
         | c :: _ => Ok (strip (or_empty (content (message c))))
         end,
         [CallOpenAI (model self) prompt temperature])
      else if bool_decide (provider self = py "Anthropic") then
        (msg ← messages_create v (model self) 800 temperature prompt;
         let blocks := default [] (getattr (msg_content msg) (Some [])) in
         let parts := concat (map block_parts blocks) in
         joined ← str_join [NEWLINE] parts;
         Ok (strip joined),
         [CallAnthropic (model self) 800 temperature prompt])
      else
        (resp ← generate_content v (model self) prompt;
         t ← resp_text resp;
         Ok (strip (or_empty (getattr t None))),
         [CallGemini (model self) prompt])
  end.

End llm_client.

Arguments AttrMissing {A}.
Arguments AttrValue {A} v.

(** ** The [json] module, as [json.dump] and [json.load] are called *)

Definition QUOTE : N := 0x22.
Definition BACKSLASH : N := 0x5C.
Definition COMMA : N := 0x2C.
Definition SPACE : N := 0x20.
Definition CR : N := 0x0D.
Definition MINUS : N := 0x2D.
Definition PLUS : N := 0x2B.

Section json.
Context `{Runtime}.

(** *** Encoding: [JSONEncoder(ensure_ascii=False, indent=2).iterencode] *)

(** A hexadecimal digit of [{0:04x}]. *)
Definition hex_digit (n : N) : N :=
  if n <? 10 then 0x30 + n else 0x61 + (n - 10).

(** [ESCAPE_DCT]: the replacement of one code point. *)
Definition escape_char (c : N) : str :=
  if c =? BACKSLASH then [BACKSLASH; BACKSLASH]
  else if c =? QUOTE then [BACKSLASH; QUOTE]
  else if c =? 0x08 then [BACKSLASH; 0x62]
  else if c =? 0x0C then [BACKSLASH; 0x66]
  else if c =? 0x0A then [BACKSLASH; 0x6E]
  else if c =? 0x0D then [BACKSLASH; 0x72]
  else if c =? 0x09 then [BACKSLASH; 0x74]
  else if c <? 0x20 then
    [BACKSLASH; 0x75; 0x30; 0x30; hex_digit (c / 16); hex_digit (c mod 16)]
  else [c].

(** [encode_basestring]: non-ASCII text is written as it is. *)
Definition encode_basestring (s : str) : str :=
  QUOTE :: (s ≫= escape_char) ++ [QUOTE].

(** [int.__repr__], which refuses numbers with too many digits. *)
Definition int_repr (z : Z) : result str :=
  let digits := length (str_of_nat (Z.abs_nat z)) in
  if (0 <? int_max_str_digits)%nat && (int_max_str_digits <? digits)%nat
  then Raise (Exn ValueError (py "Exceeds the limit for integer string conversion"))
  else Ok (str_of_Z z).

(** What a generator has yielded, and the exception that ended it. *)
Definition stream : Type := list (list N) * option exn.

Definition yield (s : str) : stream := ([s], None).

Definition stream_raise (e : exn) : stream := ([], Some e).

Definition stream_app (a b : stream) : stream :=
  match a.2 with
  | Some _ => a
  | None => (a.1 ++ b.1, b.2)
  end.

(** The one-chunk encoding of a value that is not a container. *)
Definition scalar_repr (o : pyobj) : option (result str) :=
  match o with
  | PyStr s => Some (Ok (encode_basestring s))
  | PyNone => Some (Ok (py "null"))
  | PyBool true => Some (Ok (py "true"))
  | PyBool false => Some (Ok (py "false"))
  | PyInt z => Some (int_repr z)
  | PyFloat f => Some (Ok (float_repr f))
  | PyList _ | PyDict _ => None
  end.

(** [yield buf + repr] *)
Definition yield_scalar (buf : str) (r : result str) : stream :=
  match r with
  | Ok s => yield (buf ++ s)
  | Raise e => stream_raise e
  end.

(** ['\n' + _indent * level] with [indent=2] *)
Definition newline_indent (level : nat) : str :=
  NEWLINE :: replicate (2 * level) SPACE.

Section iterencode_containers.
(** [_iterencode] one level down, for the values that are containers. *)
Variable iterencode_value : pyobj -> stream.

(** The loop of [_iterencode_list]; [buf] is what precedes the next
    value. *)
Fixpoint list_items (separator buf : str) (l : list pyobj) : stream :=
  match l with
  | [] => ([], None)
  | value :: r =>
      stream_app
        match scalar_repr value with
        | Some repr => yield_scalar buf repr
        | None => stream_app (yield buf) (iterencode_value value)
        end
        (list_items separator separator r)
  end.

(** [_iterencode_list(lst, level)] *)
Definition iterencode_list (level : nat) (l : list pyobj) : stream :=
  match l with
  | [] => yield (py "[]")
  | _ :: _ =>
      let separator := COMMA :: newline_indent (S level) in
      stream_app (list_items separator (LBRACKET :: newline_indent (S level)) l)
        (stream_app (yield (newline_indent level)) (yield [RBRACKET]))
  end.

(** The loop of [_iterencode_dict]. *)
Fixpoint dict_items (item_separator : str) (first : bool)
    (d : list (list N * pyobj)) : stream :=
  match d with
  | [] => ([], None)
  | (key, value) :: r =>
      stream_app (if first then ([], None) else yield item_separator)
        (stream_app (yield (encode_basestring key))
          (stream_app (yield [COLON; SPACE])
            (stream_app
              match scalar_repr value with
              | Some repr => yield_scalar [] repr
              | None => iterencode_value value
              end
              (dict_items item_separator false r))))
  end.

(** [_iterencode_dict(dct, level)] *)
Definition iterencode_dict (level : nat) (d : list (list N * pyobj)) : stream :=
  match d with
  | [] => yield (py "{}")
  | _ :: _ =>
      let item_separator := COMMA :: newline_indent (S level) in
      stream_app (yield [LBRACE])
        (stream_app (yield (newline_indent (S level)))
          (stream_app (dict_items item_separator true d)
            (stream_app (yield (newline_indent level)) (yield [RBRACE]))))
  end.

End iterencode_containers.

(** [_iterencode(o, level)] *)
Fixpoint iterencode (level : nat) (o : pyobj) {struct o} : stream :=
  match o with
  | PyList l => iterencode_list (iterencode (S level)) level l
  | PyDict d => iterencode_dict (iterencode (S level)) level d
  | _ =>
      match scalar_repr o with
      | Some repr => yield_scalar [] repr
      | None => ([], None)
      end
  end.

(** *** Decoding: [json.loads] with the C scanner *)

Definition json_error : exn := Exn JSONDecodeError [].

Definition is_ws (c : N) : bool :=
  (c =? SPACE) || (c =? 0x09) || (c =? NEWLINE) || (c =? CR).

(** [WHITESPACE.match(s, end).end()] *)
Fixpoint skip_ws (s : str) : str :=
  match s with
  | c :: r => if is_ws c then skip_ws r else s
  | [] => []
  end.

Definition hex_value (c : N) : option N :=
  if (0x30 <=? c) && (c <=? 0x39) then Some (c - 0x30)
  else if (0x61 <=? c) && (c <=? 0x66) then Some (c - 0x61 + 10)
  else if (0x41 <=? c) && (c <=? 0x46) then Some (c - 0x41 + 10)
  else None.

(** Four hexadecimal digits. *)
Definition hex4 (a b c d : N) : option N :=
  a ← hex_value a; b ← hex_value b; c ← hex_value c; d ← hex_value d;
  Some (((a * 16 + b) * 16 + c) * 16 + d).

(** [BACKSLASH]: the one-letter escapes. *)
Definition unescape (c : N) : option N :=
  if c =? QUOTE then Some QUOTE
  else if c =? BACKSLASH then Some BACKSLASH
  else if c =? 0x2F then Some 0x2F
  else if c =? 0x62 then Some 0x08
  else if c =? 0x66 then Some 0x0C
  else if c =? 0x6E then Some 0x0A
  else if c =? 0x72 then Some 0x0D
  else if c =? 0x74 then Some 0x09
  else None.

Definition is_high_surrogate (c : N) : bool := (0xD800 <=? c) && (c <=? 0xDBFF).
Definition is_low_surrogate (c : N) : bool := (0xDC00 <=? c) && (c <=? 0xDFFF).

(** [scanstring(s, end, strict=True)], from the code point after the
    opening quote: the text and what follows the closing quote. *)
Fixpoint scanstring (s : str) : result (str * str) :=
  match s with
  | [] => Raise json_error
  | c :: r =>
      if c =? QUOTE then Ok ([], r)
      else if c =? BACKSLASH then
        match r with
        | [] => Raise json_error
        | esc :: r1 =>
            if esc =? 0x75 then
              match r1 with
              | h1 :: h2 :: h3 :: h4 :: r2 =>
                  match hex4 h1 h2 h3 h4 with
                  | None => Raise json_error
                  | Some uni =>
                      let single :=
                        '(t, rest) ← scanstring r2; Ok (uni :: t, rest) in
                      if is_high_surrogate uni then
                        match r2 with
                        | b :: u :: g1 :: g2 :: g3 :: g4 :: r3 =>
                            if (b =? BACKSLASH) && (u =? 0x75) then
                              match hex4 g1 g2 g3 g4 with
                              | None => Raise json_error
                              | Some uni2 =>
                                  if is_low_surrogate uni2 then
                                    '(t, rest) ← scanstring r3;
                                    Ok (0x10000 + (uni - 0xD800) * 1024
                                          + (uni2 - 0xDC00) :: t, rest)
                                  else single
                              end
                            else single
                        | _ => single
                        end
                      else single
                  end
              | _ => Raise json_error
              end
            else
              match unescape esc with
              | None => Raise json_error
              | Some ch => '(t, rest) ← scanstring r1; Ok (ch :: t, rest)
              end
        end
      else if c <? 0x20 then Raise json_error
      else '(t, rest) ← scanstring r; Ok (c :: t, rest)
  end.

Definition is_digit (c : N) : bool := (0x30 <=? c) && (c <=? 0x39).

Fixpoint span_digits (s : str) : str * str :=
  match s with
  | c :: r =>
      if is_digit c then let '(a, b) := span_digits r in (c :: a, b)
      else ([], s)
  | [] => ([], [])
  end.

(** [NUMBER_RE]: the integer part, the fraction, the exponent, the rest. *)
Definition match_number (s : str) : option (str * str * str * str) :=
  let '(sign, s1) :=
    match s with
    | c :: r => if c =? MINUS then ([MINUS], r) else ([], s)
    | [] => ([], s)
    end in
  match s1 with
  | [] => None
  | c :: r =>
      if is_digit c then
        let '(ds, r1) := if c =? 0x30 then ([], r) else span_digits r in
        let integer := sign ++ c :: ds in
        let '(frac, r2) :=
          match r1 with
          | p :: q =>
              if p =? DOT then
                match span_digits q with
                | ([], _) => ([], r1)
                | (fs, q') => (DOT :: fs, q')
                end
              else ([], r1)
          | [] => ([], r1)
          end in
        let '(exp, r3) :=
          match r2 with
          | e :: q =>
              if (e =? 0x65) || (e =? 0x45) then
                let '(sg, q1) :=
                  match q with
                  | g :: q' =>
                      if (g =? MINUS) || (g =? PLUS) then ([g], q') else ([], q)
                  | [] => ([], q)
                  end in
                match span_digits q1 with
                | ([], _) => ([], r2)
                | (es, q2) => (e :: sg ++ es, q2)
                end
              else ([], r2)
          | [] => ([], r2)
          end in
        Some (integer, frac, exp, r3)
      else None
  end.

Fixpoint digits_value (acc : N) (s : str) : N :=
  match s with
  | [] => acc
  | c :: r => digits_value (acc * 10 + (c - 0x30)) r
  end.

(** [int(s)] on the integer part of a number. *)
Definition parse_int (s : str) : result pyobj :=
  let '(neg, ds) :=
    match s with
    | c :: r => if c =? MINUS then (true, r) else (false, s)
    | [] => (false, s)
    end in
  if (0 <? int_max_str_digits)%nat && (int_max_str_digits <? length ds)%nat
  then Raise (Exn ValueError (py "Exceeds the limit for integer string conversion"))
  else
    let n := Z.of_N (digits_value 0 ds) in
    Ok (PyInt (if neg then Z.opp n else n)).

(** Does [s] begin with [p]?  Then what follows. *)
Fixpoint strip_prefix (p s : str) : option str :=
  match p, s with
  | [], _ => Some s
  | a :: p', b :: s' => if a =? b then strip_prefix p' s' else None
  | _ :: _, [] => None
  end.

Section containers.
(** The scanner for the values inside a container. *)
Variable scan : str -> result (pyobj * str).

(** [JSONObject], from the code point after the opening quote of a key. *)
Fixpoint object_pairs (fuel : nat) (pairs : list (list N * pyobj)) (s : str)
  : result (list (list N * pyobj) * str) :=
  match fuel with
  | O => Raise json_error
  | S fuel' =>
      '(key, r) ← scanstring s;
      match skip_ws r with
      | c :: r1 =>
          if c =? COLON then
            '(value, r2) ← scan (skip_ws r1);
            let pairs := pairs ++ [(key, value)] in
            match skip_ws r2 with
            | d :: r3 =>
                if d =? RBRACE then Ok (pairs, r3)
                else if d =? COMMA then
                  match skip_ws r3 with
                  | q :: r4 =>
                      if q =? QUOTE then object_pairs fuel' pairs r4
                      else Raise json_error
                  | [] => Raise json_error
                  end
                else Raise json_error
            | [] => Raise json_error
            end
          else Raise json_error
      | [] => Raise json_error
      end
  end.

(** [JSONObject], from the code point after the opening brace. *)
Definition JSONObject (s : str) : result (pyobj * str) :=
  match skip_ws s with
  | c :: r =>
      if c =? RBRACE then Ok (PyDict [], r)
      else if c =? QUOTE then
        '(pairs, rest) ← object_pairs (length r) [] r;
        Ok (PyDict (dict_update [] pairs), rest)
      else Raise json_error
  | [] => Raise json_error
  end.

(** [JSONArray], from the first value. *)
Fixpoint array_values (fuel : nat) (values : list pyobj) (s : str)
  : result (list pyobj * str) :=
  match fuel with
  | O => Raise json_error
  | S fuel' =>
      '(value, r) ← scan s;
      let values := values ++ [value] in
      match skip_ws r with
      | d :: r1 =>
          if d =? RBRACKET then Ok (values, r1)
          else if d =? COMMA then array_values fuel' values (skip_ws r1)
          else Raise json_error
      | [] => Raise json_error
      end
  end.

(** [JSONArray], from the code point after the opening bracket. *)
Definition JSONArray (s : str) : result (pyobj * str) :=
  match skip_ws s with
  | c :: r =>
      if c =? RBRACKET then Ok (PyList [], r)
      else
        '(values, rest) ← array_values (length (c :: r)) [] (c :: r);
        Ok (PyList values, rest)
  | [] => Raise json_error
  end.

End containers.

(** [scan_once]: one value and what follows it.  Entering an object or an
    array is a nested call; [depth] such calls are left. *)
Fixpoint scan_once (depth : nat) (s : str) {struct depth} : result (pyobj * str) :=
  match s with
  | [] => Raise json_error
  | c :: r =>
      if c =? QUOTE then '(t, rest) ← scanstring r; Ok (PyStr t, rest)
      else if c =? LBRACE then
        match depth with
        | O => Raise (Exn RecursionError [])
        | S d => JSONObject (scan_once d) r
        end
      else if c =? LBRACKET then
        match depth with
        | O => Raise (Exn RecursionError [])
        | S d => JSONArray (scan_once d) r
        end
      else
        match strip_prefix (py "null") s, strip_prefix (py "true") s,
              strip_prefix (py "false") s with
        | Some rest, _, _ => Ok (PyNone, rest)
        | _, Some rest, _ => Ok (PyBool true, rest)
        | _, _, Some rest => Ok (PyBool false, rest)
        | None, None, None =>
            match match_number s with
            | Some (integer, frac, exp, rest) =>
                match frac, exp with
                | [], [] => v ← parse_int integer; Ok (v, rest)
                | _, _ =>
                    Ok (PyFloat (float_of_literal (integer ++ frac ++ exp)), rest)
                end
            | None =>
                match strip_prefix (py "NaN") s, strip_prefix (py "Infinity") s,
                      strip_prefix (py "-Infinity") s with
                | Some rest, _, _ => Ok (PyFloat (float_of_literal (py "NaN")), rest)
                | _, Some rest, _ =>
                    Ok (PyFloat (float_of_literal (py "Infinity")), rest)
                | _, _, Some rest =>
                    Ok (PyFloat (float_of_literal (py "-Infinity")), rest)
                | None, None, None => Raise json_error
                end
            end
        end
  end.

(** [json.loads(s)] *)
Definition json_loads (s : str) : result pyobj :=
  match s with
  | 0xFEFF :: _ => Raise json_error
  | _ =>
      '(obj, r) ← scan_once recursion_limit (skip_ws s);
      match skip_ws r with
      | [] => Ok obj
      | _ :: _ => Raise json_error
      end
  end.

End json.

(** ** Text files, as [open(path, mode, encoding="utf-8")] gives them *)

Section text_files.
Context `{Runtime}.

(** What a text file does to a written string: a newline becomes
    [os.linesep]. *)
Fixpoint translate_out (s : str) : str :=
  match s with
  | [] => []
  | c :: r =>
      if (c =? NEWLINE) && linesep_crlf then CR :: NEWLINE :: translate_out r
      else c :: translate_out r
  end.

(** What a text file does to the text read, with universal newlines. *)
Fixpoint translate_in (s : str) : str :=
  match s with
  | [] => []
  | c :: r =>
      if c =? CR then
        NEWLINE ::
          match r with
          | c1 :: r1 => if c1 =? NEWLINE then translate_in r1 else translate_in r
          | [] => []
          end
      else c :: translate_in r
  end.

(** The successive [f.write(chunk)]: what reached the file, and the error
    that stopped the writing. *)
Fixpoint write_chunks (content : bytes) (chunks : list str) : bytes * option exn :=
  match chunks with
  | [] => (content, None)
  | c :: r =>
      match utf8_encode (translate_out c) with
      | Some b => write_chunks (content ++ b) r
      | None =>
          (content, Some (Exn UnicodeError (py "surrogates not allowed")))
      end
  end.

End text_files.

(** ** [config.py] *)

Section config.
Context `{Runtime}.

Definition OCR_MARK : str :=
  py "--- TEXTE BRUT DE L'OCR ---" ++ NEWLINE :: py "{text}" ++ NEWLINE ::
  py "--- FIN DU TEXTE BRUT ---" ++ [NEWLINE].

Definition PROMPTS : pyobj :=
  PyDict [
    (py "Default (Raisonnement Général)",
     PyStr (
       py "Tu es un expert en logique et en raisonnement, ta précision est primordiale." ++ NEWLINE ::
       py "CONTEXTE: Tu vas recevoir un texte brut extrait d'une image par un OCR." ++ NEWLINE ::
       py "Ce texte contient une question à choix multiples et plusieurs propositions de réponse." ++ NEWLINE ::
       OCR_MARK ++
       py "MISSION: Analyse le texte brut. Ignore le bruit et les erreurs de l'OCR." ++ NEWLINE ::
       py "Identifie la question principale et les différentes propositions de réponse." ++ NEWLINE ::
       py "Choisis la proposition qui répond le mieux à la question." ++ NEWLINE ::
       py "FORMAT DE RÉPONSE: Réponds UNIQUEMENT avec le texte complet de la proposition."));
    (py "Pensée Critique (Conclusion/Idée)",
     PyStr (
       py "Tu es un expert en analyse de texte et en synthèse." ++ NEWLINE ::
       py "CONTEXTE: Paragraphe + question de conclusion/idée principale + choix." ++ NEWLINE ::
       OCR_MARK ++
       py "MISSION: Choisis l'option la plus synthétique, pas un détail." ++ NEWLINE ::
       py "FORMAT: Réponds UNIQUEMENT avec l'option."));
    (py "Aptitude Numérique (Maths/Logique)",
     PyStr (
       py "Tu es un mathématicien rigoureux." ++ NEWLINE ::
       py "CONTEXTE: Problème mathématique/logique sous forme de QCM." ++ NEWLINE ::
       OCR_MARK ++
       py "MISSION: Décompose, calcule précisément, compare aux options." ++ NEWLINE ::
       py "FORMAT: Réponds UNIQUEMENT avec l'option."));
    (py "Conditions Minimales",
     PyStr (
       py "Tu es expert en suffisance de données." ++ NEWLINE ::
       py "CONTEXTE: Question + (1) et (2)." ++ NEWLINE ::
       OCR_MARK ++
       py "MISSION: Évalue (1) seul, (2) seul, puis ensemble. Choisis la bonne option." ++ NEWLINE ::
       py "FORMAT: Réponds UNIQUEMENT avec l'option."));
    (py "Capacité Rédactionnelle (Français)",
     PyStr (
       py "Tu es linguiste/grammairien." ++ NEWLINE ::
       py "CONTEXTE: Vocabulaire, syntaxe, cohérence." ++ NEWLINE ::
       OCR_MARK ++
       py "MISSION: Choisis la réponse la plus correcte." ++ NEWLINE ::
       py "FORMAT: Réponds UNIQUEMENT avec l'option."))
  ].

End config.

Definition PROVIDERS : list (list N * list (list N)) := [
  (py "OpenAI", [py "gpt-4o-mini"; py "gpt-4o"; py "gpt-4.1-mini"]);
  (py "Anthropic", [py "claude-3-5-sonnet-20240620"; py "claude-3-opus-20240229"]);
  (py "Gemini", [py "gemini-1.5-pro"; py "gemini-1.5-flash"])
].

(** ** [app_ctk.py] and [ocr.py] *)

Definition PROMPTS_FILE : list N := py "prompts.json".

Section app.
Context `{Runtime}.

(** The capture region: the keyword arguments of [grab_image]. *)
Record zone := { left : Z; top : Z; width : Z; height : Z }.

Record ScreenShot := { shot_size : Z * Z; shot_rgb : bytes }.
Record Image := { im_mode : str; im_size : Z * Z; im_data : bytes }.

Inductive http_body :=
| FormData (data : list (list N * list N)) (files : list (list N * (list N * list Byte.byte * list N)))
| JsonBody (json : pyobj).
Record http_request := { url : str; body : http_body; timeout : N }.
Record http_response := { status_code : Z; text : str }.

(** What is put on the UI queue. *)
Inductive payload :=
| PText (s : str)
| PBytes (b : bytes).

(** The Tk variables the operations below only read. *)
Record tkvars := {
  log_dir : str;
  provider_var : str;
  model_var : str;
  temperature_var : pyfloat;
  telegram_token : str;
  telegram_chat : str;
  var_lang : str;
  var_oem : str;
  var_psm : str;
  do_copy_clipboard : bool;
  do_auto_save : bool;
  do_send_discord : bool;
  do_send_telegram : bool;
  var_webhook : str;
  (** an [IntVar]: [get()] fails on text that is not a number *)
  var_l : result Z;
  var_t : result Z;
  var_w : result Z;
  var_h : result Z
}.

(** The attributes of [OCRQCMApp] that the operations below change. *)
Record OCRQCMApp := {
  tk : tkvars;
  capture_zone : zone;
  prompts : dict pyobj;
  prompt_key_var : str;
  prompt_name_var : str;
  (** the editor, without the newline Tk adds at the end *)
  txt_prompt : str;
  cmb_prompt : list str;
  status_var : str;
  (** the log box: what was inserted at its top, newest first *)
  txt_log : list str;
  q_ui : list (list N * payload)
}.

(** The application and what it acts on. *)
Record world := {
  app : OCRQCMApp;
  clipboard : str;
  fs : dict bytes;
  sent : list http_request;
  grabbed : list zone
}.

(** How the outside answers. *)
Record outside := {
  clipboard_clear_fault : option exn;
  clipboard_append_fault : option exn;
  (** [os.makedirs(p, exist_ok=True)] *)
  makedirs_fault : str -> option exn;
  (** [open(path, ...)] *)
  open_fault : str -> option exn;
  (** [os.path.join] *)
  path_join : str -> str -> str;
  (** [datetime.now().strftime('%Y%m%d_%H%M%S')] and [str(datetime.now())] *)
  strftime_now : str;
  str_now : str;
  (** [requests.post(...)] for a request that was prepared: the response,
      or the failure of the transport *)
  requests_post : http_request -> result http_response;
  (** what [requests] raises for an address that names neither [http://]
      nor [https://]: [MissingSchema], [InvalidSchema] or [InvalidURL] *)
  url_refusal : str -> exn;
  (** what [requests] raises, if anything, while it prepares a request to
      an address that names [http://] or [https://], where [address_of]
      below does not tell *)
  prepare_fault : str -> option exn;
  (** [mss.mss().grab(bbox)] *)
  sct_grab : zone -> result ScreenShot;
  (** [Image.frombytes(mode, size, data)] *)
  Image_frombytes : str -> Z * Z -> bytes -> result Image;
  (** [copy()], [thumbnail(size)] and [save(buf, format="PNG")] *)
  png_thumbnail : Image -> Z * Z -> result bytes;
  (** [pytesseract.image_to_string(img, lang=lang, config=cfg)] *)
  image_to_string : Image -> str -> str -> result str
}.

Definition with_capture_zone (v : zone) (a : OCRQCMApp) : OCRQCMApp :=
  {| tk := tk a; capture_zone := v; prompts := prompts a;
     prompt_key_var := prompt_key_var a; prompt_name_var := prompt_name_var a;
     txt_prompt := txt_prompt a; cmb_prompt := cmb_prompt a;
     status_var := status_var a; txt_log := txt_log a; q_ui := q_ui a |}.

Definition with_prompts (v : dict pyobj) (a : OCRQCMApp) : OCRQCMApp :=
  {| tk := tk a; capture_zone := capture_zone a; prompts := v;
     prompt_key_var := prompt_key_var a; prompt_name_var := prompt_name_var a;
     txt_prompt := txt_prompt a; cmb_prompt := cmb_prompt a;
     status_var := status_var a; txt_log := txt_log a; q_ui := q_ui a |}.

Definition with_prompt_key_var (v : str) (a : OCRQCMApp) : OCRQCMApp :=
  {| tk := tk a; capture_zone := capture_zone a; prompts := prompts a;
     prompt_key_var := v; prompt_name_var := prompt_name_var a;
     txt_prompt := txt_prompt a; cmb_prompt := cmb_prompt a;
     status_var := status_var a; txt_log := txt_log a; q_ui := q_ui a |}.

Definition with_prompt_name_var (v : str) (a : OCRQCMApp) : OCRQCMApp :=
  {| tk := tk a; capture_zone := capture_zone a; prompts := prompts a;
     prompt_key_var := prompt_key_var a; prompt_name_var := v;
     txt_prompt := txt_prompt a; cmb_prompt := cmb_prompt a;
     status_var := status_var a; txt_log := txt_log a; q_ui := q_ui a |}.

Definition with_txt_prompt (v : str) (a : OCRQCMApp) : OCRQCMApp :=
  {| tk := tk a; capture_zone := capture_zone a; prompts := prompts a;
     prompt_key_var := prompt_key_var a; prompt_name_var := prompt_name_var a;
     txt_prompt := v; cmb_prompt := cmb_prompt a;
     status_var := status_var a; txt_log := txt_log a; q_ui := q_ui a |}.

Definition with_cmb_prompt (v : list str) (a : OCRQCMApp) : OCRQCMApp :=
  {| tk := tk a; capture_zone := capture_zone a; prompts := prompts a;
     prompt_key_var := prompt_key_var a; prompt_name_var := prompt_name_var a;
     txt_prompt := txt_prompt a; cmb_prompt := v;
     status_var := status_var a; txt_log := txt_log a; q_ui := q_ui a |}.

Definition with_status_var (v : str) (a : OCRQCMApp) : OCRQCMApp :=
  {| tk := tk a; capture_zone := capture_zone a; prompts := prompts a;
     prompt_key_var := prompt_key_var a; prompt_name_var := prompt_name_var a;
     txt_prompt := txt_prompt a; cmb_prompt := cmb_prompt a;
     status_var := v; txt_log := txt_log a; q_ui := q_ui a |}.

Definition with_txt_log (v : list str) (a : OCRQCMApp) : OCRQCMApp :=
  {| tk := tk a; capture_zone := capture_zone a; prompts := prompts a;
     prompt_key_var := prompt_key_var a; prompt_name_var := prompt_name_var a;
     txt_prompt := txt_prompt a; cmb_prompt := cmb_prompt a;
     status_var := status_var a; txt_log := v; q_ui := q_ui a |}.

Definition with_q_ui (v : list (list N * payload)) (a : OCRQCMApp) : OCRQCMApp :=
  {| tk := tk a; capture_zone := capture_zone a; prompts := prompts a;
     prompt_key_var := prompt_key_var a; prompt_name_var := prompt_name_var a;
     txt_prompt := txt_prompt a; cmb_prompt := cmb_prompt a;
     status_var := status_var a; txt_log := txt_log a; q_ui := v |}.

Definition with_app (f : OCRQCMApp -> OCRQCMApp) (w : world) : world :=
  {| app := f (app w); clipboard := clipboard w; fs := fs w;
     sent := sent w; grabbed := grabbed w |}.

Definition with_clipboard (v : str) (w : world) : world :=
  {| app := app w; clipboard := v; fs := fs w;
     sent := sent w; grabbed := grabbed w |}.

Definition with_fs (v : dict bytes) (w : world) : world :=
  {| app := app w; clipboard := clipboard w; fs := v;
     sent := sent w; grabbed := grabbed w |}.

Definition with_sent (v : list http_request) (w : world) : world :=
  {| app := app w; clipboard := clipboard w; fs := fs w;
     sent := v; grabbed := grabbed w |}.

Definition with_grabbed (v : list zone) (w : world) : world :=
  {| app := app w; clipboard := clipboard w; fs := fs w;
     sent := sent w; grabbed := v |}.

(** *** Statements: a result, or an exception, and the world after *)

Definition M (A : Type) : Type := world -> result A * world.

Definition ret {A} (a : A) : M A := fun w => (Ok a, w).

Definition raise {A} (e : exn) : M A := fun w => (Raise e, w).

Definition bind {A B} (m : M A) (k : A -> M B) : M B := fun w =>
  match m w with
  | (Ok a, w') => k a w'
  | (Raise e, w') => (Raise e, w')
  end.

(** [try: m  except Exception as e: handler(e)] *)
Definition try_except {A} (m : M A) (handler : exn -> M A) : M A := fun w =>
  match m w with
  | (Ok a, w') => (Ok a, w')
  | (Raise e, w') => handler e w'
  end.

Definition modify (f : world -> world) : M unit := fun w => (Ok tt, f w).

Definition self : M OCRQCMApp := fun w => (Ok (app w), w).

(** A call that raises when the outside says so. *)
Definition fault (f : option exn) : M unit :=
  match f with Some e => raise e | None => ret tt end.

Definition lift {A} (r : result A) : M A := fun w => (r, w).

End app.

Notation "x <- m ;; k" := (bind m (fun x => k))
  (at level 100, m at next level, right associativity).
Notation "m ;; k" := (bind m (fun _ => k))
  (at level 100, right associativity).

Section operations.
Context `{Runtime}.
(** The outside of this run. *)
Variable o : outside.

(** [self.q_ui.put((kind, payload))] *)
Definition q_put (kind : str) (p : payload) : M unit :=
  modify (with_app (fun a => with_q_ui (q_ui a ++ [(kind, p)]) a)).

(** [self.txt_log.insert("1.0", line)] *)
Definition txt_log_insert (line : str) : M unit :=
  modify (with_app (fun a => with_txt_log (line :: txt_log a) a)).

(** [self.status_var.set(s)] *)
Definition status_var_set (s : str) : M unit :=
  modify (with_app (with_status_var s)).

(** [c.lower()] on ASCII *)
Definition ascii_lower (c : N) : N :=
  if (0x41 <=? c) && (c <=? 0x5A) then c + 0x20 else c.

(** [s.lower().startswith(p)] for [p] one of [http://] and [https://], and
    what follows the prefix: no code point outside ASCII has a lower case
    among the letters of [p]. *)
Fixpoint after_scheme (p s : str) : option str :=
  match p, s with
  | [], _ => Some s
  | a :: p', c :: s' => if ascii_lower c =? a then after_scheme p' s' else None
  | _ :: _, [] => None
  end.

(** Letters, digits, [-] and [.]: what a host is made of when it needs no
    encoding. *)
Definition is_host_char (c : N) : bool :=
  ((0x30 <=? c) && (c <=? 0x39)) || ((0x41 <=? c) && (c <=? 0x5A))
  || ((0x61 <=? c) && (c <=? 0x7A)) || (c =? MINUS) || (c =? DOT).

Fixpoint span_host (s : str) : str * str :=
  match s with
  | c :: r =>
      if is_host_char c then let '(a, b) := span_host r in (c :: a, b)
      else ([], s)
  | [] => ([], [])
  end.

(** What [requests] makes of an address before anything is sent.
    [prepare_url] strips the white space in front.  An address that does
    not begin with [http://] or [https://], in any case of the letters, is
    refused: without a scheme by [prepare_url], with another scheme by
    [get_adapter].  An address with one of the two, a host of letters,
    digits, [-] and [.] that does not begin with [.], and after it nothing
    or a path, is prepared and handed to the transport.  On any other the
    outside tells. *)
Inductive address := Refused | Prepared | Undecided.

Definition address_of (u : str) : address :=
  let u := lstrip u in
  let rest :=
    match after_scheme (py "https://") u with
    | Some r => Some r
    | None => after_scheme (py "http://") u
    end in
  match rest with
  | None => Refused
  | Some r =>
      match span_host r with
      | (c :: host, tail) =>
          if negb (c =? DOT)
             && match tail with [] => true | c1 :: _ => c1 =? 0x2F end
          then Prepared else Undecided
      | ([], _) => Undecided
      end
  end.

(** The exception that keeps a request from leaving, if any. *)
Definition refusal (u : str) : option exn :=
  match address_of u with
  | Refused => Some (url_refusal o u)
  | Prepared => None
  | Undecided => prepare_fault o u
  end.

(** [requests.post(...)]: a request to an address that is refused does
    not leave; any other leaves, then the answer or the failure comes
    back. *)
Definition post (req : http_request) : M http_response := fun w =>
  match refusal (url req) with
  | Some e => (Raise e, w)
  | None => (requests_post o req, with_sent (sent w ++ [req]) w)
  end.

(** [with open(path, "w", encoding="utf-8") as f:] followed by the writes
    of [chunks]: the file is truncated, then holds what was written before
    the first failure. *)
Definition write_text (path : str) (chunks : stream) : M unit := fun w =>
  match open_fault o path with
  | Some e => (Raise e, w)
  | None =>
      let '(content, err) := write_chunks [] chunks.1 in
      let w' := with_fs (dict_set path content (fs w)) w in
      match err, chunks.2 with
      | Some e, _ => (Raise e, w')
      | None, Some e => (Raise e, w')
      | None, None => (Ok tt, w')
      end
  end.

(** [with open(path, "r", encoding="utf-8") as f: f.read()] *)
Definition read_text (path : str) (files : dict bytes) : result str :=
  match open_fault o path with
  | Some e => Raise e
  | None =>
      match dict_get path files with
      | None => Raise (Exn OSError (py "No such file or directory"))
      | Some b =>
          match utf8_decode b with
          | Some t => Ok (translate_in t)
          | None => Raise (Exn UnicodeError (py "invalid start byte"))
          end
      end
  end.

(** *** Prompts *)

Definition fallback_prompts : dict pyobj := [
  (py "Default (General Reasoning)",
   PyStr (py "You are a logic expert. Analyze the OCR text and return ONLY the text of the correct choice."));
  (py "TOEIC (Reading)",
   PyStr (py "Act like a TOEIC grader. Given OCR (question + choices), return ONLY the letter and text of the correct choice. If ambiguous, pick the most plausible."));
  (py "Numeric Aptitude (Math/Logic)",
   PyStr (py "Solve mentally step-by-step but return ONLY the exact option among the choices."));
  (py "Data Sufficiency",
   PyStr (py "Evaluate (1) alone, (2) alone, and (1)&(2) together. Return ONLY the correct option."))
].

(** [load_prompts()], for the value of [CONFIG_PROMPTS] and the files on
    disk. *)
Definition load_prompts (CONFIG_PROMPTS : pyobj) (files : dict bytes)
  : dict pyobj :=
  let data : dict pyobj := [] in
  let data :=
    match CONFIG_PROMPTS with
    | PyDict d => dict_update data d
    | _ => data
    end in
  let data :=
    if dict_contains PROMPTS_FILE files then
      match t ← read_text PROMPTS_FILE files; json_loads t with
      | Ok (PyDict extra) => dict_update data extra
      | Ok _ => data
      | Raise _ => data
      end
    else data in
  match data with
  | [] => fallback_prompts
  | _ :: _ => data
  end.

(** [save_prompts(prompts)] *)
Definition save_prompts (prompts : dict pyobj) : M unit :=
  write_text PROMPTS_FILE (iterencode 0 (PyDict prompts)).

(** What the editor shows for a value of the store. *)
Definition editor_text (v : pyobj) : str :=
  match v with
  | PyStr s => s
  | _ => tk_string_of v
  end.

(** [_refresh_prompt_menu(select)] *)
Definition _refresh_prompt_menu (select : str) : M unit :=
  a <- self ;;
  let keys :=
    match dict_keys (prompts a) with
    | [] => [[]]
    | ks => ks
    end in
  modify (with_app (with_cmb_prompt keys)) ;;
  if truthy select && bool_decide (select ∈ keys) then
    modify (with_app (with_prompt_key_var select))
  else if negb (bool_decide (prompt_key_var a ∈ keys)) then
    modify (with_app (with_prompt_key_var (hd [] keys)))
  else ret tt.

(** [_load_prompt_to_editor()] *)
Definition _load_prompt_to_editor : M unit :=
  a <- self ;;
  let key := prompt_key_var a in
  let text := default (PyStr []) (dict_get key (prompts a)) in
  modify (with_app (with_txt_prompt (editor_text text))) ;;
  modify (with_app (with_prompt_name_var key)).

(** The loop of [_prompt_new]: [fuel] bounds the number of rounds. *)
Fixpoint new_prompt_name (fuel : nat) (store : dict pyobj)
    (base name : str) (i : nat) : option str :=
  if dict_contains name store then
    match fuel with
    | O => None
    | S fuel' =>
        let i := S i in
        new_prompt_name fuel' store base (base ++ SPACE :: str_of_nat i) i
    end
  else Some name.

(** [_prompt_new()]; [None] would be a loop that has not ended after as
    many rounds as the store has entries. *)
Definition _prompt_new (w : world) : option (result unit * world) :=
  let base := py "New Prompt" in
  name ← new_prompt_name (length (prompts (app w))) (prompts (app w)) base base 1;
  Some (
    (modify (with_app (fun a =>
       with_prompts (dict_set name (PyStr (py "Write your prompt here‚Ä¶")) (prompts a)) a)) ;;
     _refresh_prompt_menu name ;;
     _load_prompt_to_editor) w).

(** [_prompt_save()] *)
Definition _prompt_save : M unit :=
  a <- self ;;
  let name := strip (prompt_name_var a) in
  if negb (truthy name) then status_var_set (py "Prompt name is empty.")
  else
    let text := strip (txt_prompt a ++ [NEWLINE]) in
    modify (with_app (fun a => with_prompts (dict_set name (PyStr text) (prompts a)) a)) ;;
    a <- self ;;
    save_prompts (prompts a) ;;
    _refresh_prompt_menu name ;;
    status_var_set (py "Prompt ‚Äú" ++ name ++ py "‚Äù saved.").

(** [_prompt_delete()] *)
Definition _prompt_delete : M unit :=
  a <- self ;;
  let name := prompt_key_var a in
  if dict_contains name (prompts a) then
    modify (with_app (fun a => with_prompts (dict_del name (prompts a)) a)) ;;
    a <- self ;;
    save_prompts (prompts a) ;;
    let new_key := hd [] (dict_keys (prompts a)) in
    _refresh_prompt_menu new_key ;;
    (if truthy new_key then _load_prompt_to_editor else ret tt) ;;
    status_var_set (py "Prompt ‚Äú" ++ name ++ py "‚Äù deleted.")
  else ret tt.

(** *** Capture and OCR *)

(** [grab_image(left, top, width, height)] of [ocr.py] *)
Definition grab_image (left top width height : Z) : M Image :=
  let bbox := {| left := left; top := top; width := width; height := height |} in
  shot <- (fun w => (sct_grab o bbox, with_grabbed (grabbed w ++ [bbox]) w)) ;;
  lift (Image_frombytes o (py "RGB") (shot_size shot) (shot_rgb shot)).

(** [ocr_image(img, lang, oem, psm)] of [ocr.py] *)
Definition ocr_image (img : Image) (lang oem psm : str) : M str :=
  let cfg := py "--oem " ++ oem ++ py " --psm " ++ psm in
  lift (image_to_string o img lang cfg).

(** [_capture_thread()] *)
Definition _capture_thread : M unit :=
  try_except
    (a <- self ;;
     l <- lift (var_l (tk a)) ;;
     t <- lift (var_t (tk a)) ;;
     w <- lift (var_w (tk a)) ;;
     h <- lift (var_h (tk a)) ;;
     modify (with_app (with_capture_zone
       {| left := l; top := t; width := w; height := h |})) ;;
     img <- grab_image l t w h ;;
     small_bytes <- lift (png_thumbnail o img (960, 540)%Z) ;;
     text <- ocr_image img (var_lang (tk a)) (var_oem (tk a)) (var_psm (tk a)) ;;
     q_put (py "preview") (PBytes small_bytes) ;;
     q_put (py "ocr_text") (PText text) ;;
     q_put (py "status")
       (PText (py "Capture OK (" ++ str_of_nat (length text) ++ py " chars)")))
    (fun e => q_put (py "error") (PText (py "OCR/Capture error: " ++ exn_msg e))).

(** The release of the mouse button in [RegionOverlay]: the region that is
    handed over, if any. *)
Definition _on_release (start cur : option (Z * Z)) : option zone :=
  match start, cur with
  | Some (x1, y1), Some (x2, y2) =>
      let w := Z.abs (x2 - x1) in
      let h := Z.abs (y2 - y1) in
      if (10 <=? w)%Z && (10 <=? h)%Z
      then Some {| left := Z.min x1 x2; top := Z.min y1 y2; width := w; height := h |}
      else None
  | _, _ => None
  end.

(** *** The fan-out of an answer *)

(** [_append_log(answer, ocr_text)] *)
Definition _append_log (answer ocr_text : str) : M unit :=
  a <- self ;;
  fault (makedirs_fault o (log_dir (tk a))) ;;
  let p := path_join o (log_dir (tk a))
             (py "result_" ++ strftime_now o ++ py ".txt") in
  write_text p
    ([ py "=== " ++ str_now o ++ py " | " ++ provider_var (tk a) ++ py " | "
         ++ model_var (tk a) ++ py " | " ++ prompt_key_var a ++ py " ===" ++ [NEWLINE];
       py "--- OCR ---" ++ [NEWLINE];
       ocr_text ++ [NEWLINE];
       py "--- ANSWER ---" ++ [NEWLINE];
       answer ++ [NEWLINE] ], None) ;;
  txt_log_insert (py "Log written: " ++ p ++ [NEWLINE]).

(** [f"HTTP {r.status_code}: {r.text[:200]}"] and its Telegram twin *)
Definition http_failure (prefix : str) (r : http_response) : exn :=
  Exn RuntimeError
    (prefix ++ str_of_Z (status_code r) ++ py ": " ++ take 200 (text r)).

(** [_send_telegram_message(text)] *)
Definition _send_telegram_message (message : str) : M unit :=
  a <- self ;;
  let token := strip (telegram_token (tk a)) in
  let chat := strip (telegram_chat (tk a)) in
  if negb (truthy token) || negb (truthy chat) then
    raise (Exn RuntimeError (py "Please set bot token and chat id."))
  else
    let url := py "https://api.telegram.org/bot" ++ token ++ py "/sendMessage" in
    r <- post {| url := url;
                 body := JsonBody (PyDict [
                   (py "chat_id", PyStr chat);
                   (py "text", PyStr message);
                   (py "parse_mode", PyStr (py "Markdown"))]);
                 timeout := 10 |} ;;
    if (300 <=? status_code r)%Z then raise (http_failure (py "Telegram HTTP ") r)
    else ret tt.

(** [_post_answer(ans, ocr_text, img_bytes)] *)
Definition _post_answer (ans ocr_text : str) (img_bytes : option bytes) : M unit :=
  q_put (py "ai_text") (PText ans) ;;
  q_put (py "status") (PText (py "AI answer received.")) ;;
  a <- self ;;
  (if do_copy_clipboard (tk a) then
     try_except
       (fault (clipboard_clear_fault o) ;;
        modify (with_clipboard []) ;;
        fault (clipboard_append_fault o) ;;
        modify (fun w => with_clipboard (clipboard w ++ ans) w))
       (fun _ => ret tt)
   else ret tt) ;;
  (if do_auto_save (tk a) then _append_log ans ocr_text else ret tt) ;;
  (if do_send_discord (tk a) && truthy (strip (var_webhook (tk a))) then
     try_except
       (let content :=
          py "**AI Answer (" ++ provider_var (tk a) ++ py " / " ++ model_var (tk a)
            ++ py " / " ++ prompt_key_var a ++ py ")**" ++ NEWLINE :: py ">>> " ++ ans in
        let files :=
          match img_bytes with
          | Some (b :: bs) =>
              [(py "file", (py "capture.png", b :: bs, py "image/png"))]
          | _ => []
          end in
        r <- post {| url := strip (var_webhook (tk a));
                     body := FormData [(py "content", content)] files;
                     timeout := 10 |} ;;
        if (300 <=? status_code r)%Z then raise (http_failure (py "HTTP ") r)
        else txt_log_insert (py "Sent to Discord." ++ [NEWLINE]))
       (fun e => txt_log_insert (py "Discord failed: " ++ exn_msg e ++ [NEWLINE]))
   else ret tt) ;;
  (if do_send_telegram (tk a) && truthy (strip (telegram_token (tk a)))
      && truthy (strip (telegram_chat (tk a))) then
     try_except (_send_telegram_message ans)
       (fun e => txt_log_insert (py "Telegram failed: " ++ exn_msg e ++ [NEWLINE]))
   else ret tt).

End operations.

(** *** The provider catalogue *)

Global Instance str_le_dec : RelDecision str_le.
Proof. intros a b. unfold str_le. apply _. Defined.

(** [sorted(l)] on a list of [str]. *)
Definition sorted (l : list (list N)) : list (list N) := merge_sort str_le l.

(** [sorted(set(l))]: the set has no order of its own. *)
Definition sorted_set (l : list (list N)) : list (list N) :=
  sorted (elements (list_to_set l : gset (list N))).

(** The lists of Python are objects: a value of type [list] is a reference,
    [list(x)] makes a new object, [extend] changes one in place.  A heap
    holds the list objects, the address of an object is its index. *)
Abbreviation heap := (list (list (list N))) (only parsing).

Section catalogue.
Context `{Runtime}.

(** [d[k]] *)
Definition dict_getitem {V} (k : list N) (d : list (list N * V)) : result V :=
  match dict_get k d with
  | Some v => Ok v
  | None => Raise (Exn KeyError (str_repr k))
  end.

(** [d.setdefault(k, []).extend(more)] *)
Definition setdefault_extend (k : list N) (more : list (list N))
    (d : list (list N * list (list N))) : list (list N * list (list N)) :=
  match dict_get k d with
  | Some l => dict_set k (l ++ more) d
  | None => dict_set k more d
  end.

(** [merged_providers()], for the value of [CONFIG_PROVIDERS].  The lists
    of the configuration are copied ([list(models)]) before anything is
    appended to them, so the values below are the function's own. *)
Definition merged_providers (CONFIG_PROVIDERS : list (list N * list (list N)))
  : result (list (list N * list (list N))) :=
  let prov_map := dict_update [] CONFIG_PROVIDERS in
  let prov_map :=
    setdefault_extend (py "OpenAI")
      [py "gpt-4o"; py "gpt-4o-mini"; py "o3-mini"; py "gpt-4.1-mini"] prov_map in
  let prov_map :=
    setdefault_extend (py "Anthropic")
      [py "claude-3.5-sonnet"; py "claude-3-opus"; py "claude-3-haiku"] prov_map in
  let prov_map :=
    setdefault_extend (py "Gemini")
      [py "gemini-1.5-pro"; py "gemini-1.5-flash"] prov_map in
  let prov_map := prod_map id sorted_set <$> prov_map in
  mapM (fun k => v ← dict_getitem k prov_map; Ok (k, v))
       (sorted (dict_keys prov_map)).

(** *** The catalogue on the objects of the interpreter *)

Definition deref (h : heap) (r : nat) : list (list N) := default [] (h !! r).

(** A new object. *)
Definition alloc (l : list (list N)) (h : heap) : nat * heap :=
  (length h, h ++ [l]).

(** [x.extend(more)], for the object [x] at [r] *)
Definition extend (r : nat) (more : list (list N)) (h : heap) : heap :=
  <[r := deref h r ++ more]> h.

(** [{name: list(models) for (name, models) in CONFIG_PROVIDERS}]: one
    entry, then all of them. *)
Definition copy_model (s : list (list N * nat) * heap) (kv : list N * nat)
  : list (list N * nat) * heap :=
  let '(r, h') := alloc (deref s.2 kv.2) s.2 in
  (dict_set kv.1 r s.1, h').

Definition copy_models (cfg : list (list N * nat)) (h : heap)
  : list (list N * nat) * heap :=
  foldl copy_model ([], h) cfg.

(** [d.setdefault(k, []).extend(more)] *)
Definition setdefault_extend_obj (k : list N) (more : list (list N))
    (s : list (list N * nat) * heap) : list (list N * nat) * heap :=
  match dict_get k s.1 with
  | Some r => (s.1, extend r more s.2)
  | None =>
      let '(r, h') := alloc [] s.2 in
      (dict_set k r s.1, extend r more h')
  end.

(** [for k in prov_map: prov_map[k] = sorted(set(prov_map[k]))], over the
    keys that are left. *)
Fixpoint sort_models (keys : list (list N)) (d : list (list N * nat)) (h : heap)
  : result (list (list N * nat)) * heap :=
  match keys with
  | [] => (Ok d, h)
  | k :: keys =>
      match dict_getitem k d with
      | Raise e => (Raise e, h)
      | Ok r =>
          let '(r', h') := alloc (sorted_set (deref h r)) h in
          sort_models keys (dict_set k r' d) h'
      end
  end.

(** [merged_providers()], where [CONFIG_PROVIDERS] holds references into
    the heap; the result holds references into the heap that is left. *)
Definition merged_providers_obj (CONFIG_PROVIDERS : list (list N * nat)) (h : heap)
  : result (list (list N * nat)) * heap :=
  let s := copy_models CONFIG_PROVIDERS h in
  let s :=
    setdefault_extend_obj (py "OpenAI")
      [py "gpt-4o"; py "gpt-4o-mini"; py "o3-mini"; py "gpt-4.1-mini"] s in
  let s :=
    setdefault_extend_obj (py "Anthropic")
      [py "claude-3.5-sonnet"; py "claude-3-opus"; py "claude-3-haiku"] s in
  let s :=
    setdefault_extend_obj (py "Gemini")
      [py "gemini-1.5-pro"; py "gemini-1.5-flash"] s in
  match sort_models (dict_keys s.1) s.1 s.2 with
  | (Raise e, h) => (Raise e, h)
  | (Ok prov_map, h) =>
      (mapM (fun k => v ← dict_getitem k prov_map; Ok (k, v))
            (sorted (dict_keys prov_map)), h)
  end.

(** What a list of references stands for. *)
Definition view (h : heap) (d : list (list N * nat)) : list (list N * list (list N)) :=
  prod_map id (deref h) <$> d.

(** The references of [d] are the function's own: made after [h0], and
    no two of them the same object. *)
Definition owns (h0 h : heap) (d : list (list N * nat)) : Prop :=
  h0 `prefix_of` h
  /\ Forall (fun kv => (length h0 <= kv.2 < length h)%nat) d
  /\ NoDup d.*2.

(** One round of the loop that sorts, on values. *)
Definition sort_step (dv : list (list N * list (list N))) (k : list N) :=
  match dict_get k dv with
  | Some v => dict_set k (sorted_set v) dv
  | None => dv
  end.

End catalogue.

(** ** Concrete surroundings, for running the model *)

Module Stub.

(** A runtime in which a [float] is kept as the text it was read from. *)
Definition runtime : Runtime := {|
  pyfloat := list N;
  float_of_literal := fun s => s;
  float_repr := fun s => s;
  int_max_str_digits := 4300;
  recursion_limit := 900;
  ssize_t_max := 9223372036854775807;
  unicode_todecimal := fun _ => None;
  linesep_crlf := true;
  str_repr := fun s => 0x27 :: s ++ [0x27];
  format_str_field := fun _ _ _ _ =>
    Raise (Exn ValueError (py "Invalid format specifier"));
  tk_string_of := fun _ _ => []
|}.

(** Vendors that answer every call with the text [B]. *)
Definition vendors : @sdks runtime := {|
  OpenAI_present := true;
  anthropic_present := true;
  genai_present := true;
  OpenAI_fault := fun _ => None;
  Anthropic_fault := fun _ => None;
  GenerativeModel_fault := fun _ _ => None;
  chat_completions_create := fun _ _ _ =>
    Ok {| choices := [ {| message := {| content := Some (py "B") |} |} ] |};
  messages_create := fun _ _ _ _ =>
    Ok {| msg_content := AttrValue (Some [BlockObject (AttrValue (PyStr (py "B")))]) |};
  generate_content := fun _ _ => Ok {| resp_text := Ok (AttrValue (Some (py "B"))) |}
|}.

(** Vendors whose answer holds nothing: a completion of OpenAI without any
    choice, a message of Anthropic without content, a response of Gemini
    without text. *)
Definition no_choice : @sdks runtime := {|
  OpenAI_present := true;
  anthropic_present := true;
  genai_present := true;
  OpenAI_fault := fun _ => None;
  Anthropic_fault := fun _ => None;
  GenerativeModel_fault := fun _ _ => None;
  chat_completions_create := fun _ _ _ => Ok {| choices := [] |};
  messages_create := fun _ _ _ _ => Ok {| msg_content := AttrMissing |};
  generate_content := fun _ _ =>
    Ok {| resp_text := Raise (Exn ValueError
            (py "Invalid operation: The `response.text` quick accessor requires the response to contain a valid `Part`, but none were returned.")) |}
|}.

Definition openai_client : LLMClient :=
  {| provider := py "OpenAI"; model := py "gpt-4o-mini"; api_key := py "sk-test" |}.

#[local] Existing Instance runtime.

(** The shot of a region: three bytes for each pixel, all black. *)
Definition shot (z : zone) : ScreenShot :=
  {| shot_size := (width z, height z);
     shot_rgb := replicate (Z.to_nat (3 * width z * height z)) Byte.x00 |}.

(** The bytes that stand for a picture written as PNG: the signature of
    the format. *)
Definition png : list Byte.byte :=
  [Byte.x89; Byte.x50; Byte.x4e; Byte.x47; Byte.x0d; Byte.x0a; Byte.x1a; Byte.x0a].

(** [copy()], [thumbnail((960, 540))] and [save(buf, format="PNG")] of
    Pillow: an image that is not larger than the bound is left as it is by
    [thumbnail], and an image without pixels cannot be written. *)
Definition thumbnail (img : Image) (size : Z * Z) : result (list Byte.byte) :=
  if ((0 <? (im_size img).1) && (0 <? (im_size img).2))%Z
  then Ok png
  else Raise (Exn ValueError (py "cannot write empty image as PNG")).

(** [MissingSchema] of [requests], a [ValueError]. *)
Definition missing_schema (u : list N) : exn :=
  Exn ValueError
    (py "Invalid URL " ++ str_repr u
     ++ py ": No scheme supplied. Perhaps you meant https://" ++ u ++ py "?").

(** An outside where everything works: the web answers 204, the screen
    gives a shot of the size that was asked, the OCR reads a question. *)
Definition outside_ok : outside := {|
  clipboard_clear_fault := None;
  clipboard_append_fault := None;
  makedirs_fault := fun _ => None;
  open_fault := fun _ => None;
  path_join := fun d f => d ++ 0x2F :: f;
  strftime_now := py "20240102_030405";
  str_now := py "2024-01-02 03:04:05.000006";
  requests_post := fun _ => Ok {| status_code := 204; text := [] |};
  url_refusal := missing_schema;
  prepare_fault := fun _ => None;
  sct_grab := fun z => Ok (shot z);
  Image_frombytes := fun m sz d => Ok {| im_mode := m; im_size := sz; im_data := d |};
  png_thumbnail := thumbnail;
  image_to_string := fun _ _ _ => Ok (py "Sum of 2+2? A) 3 B) 4")
|}.

(** The same outside with a log directory that cannot be created. *)
Definition outside_disk_fails : outside := {|
  clipboard_clear_fault := None;
  clipboard_append_fault := None;
  makedirs_fault := fun _ => Some (Exn OSError (py "Permission denied: 'logs'"));
  open_fault := fun _ => None;
  path_join := fun d f => d ++ 0x2F :: f;
  strftime_now := py "20240102_030405";
  str_now := py "2024-01-02 03:04:05.000006";
  requests_post := fun _ => Ok {| status_code := 204; text := [] |};
  url_refusal := missing_schema;
  prepare_fault := fun _ => None;
  sct_grab := fun z => Ok (shot z);
  Image_frombytes := fun m sz d => Ok {| im_mode := m; im_size := sz; im_data := d |};
  png_thumbnail := thumbnail;
  image_to_string := fun _ _ _ => Ok (py "Sum of 2+2? A) 3 B) 4")
|}.

(** The same outside with a screen that refuses a region without pixels. *)
Definition outside_grab_fails : outside := {|
  clipboard_clear_fault := None;
  clipboard_append_fault := None;
  makedirs_fault := fun _ => None;
  open_fault := fun _ => None;
  path_join := fun d f => d ++ 0x2F :: f;
  strftime_now := py "20240102_030405";
  str_now := py "2024-01-02 03:04:05.000006";
  requests_post := fun _ => Ok {| status_code := 204; text := [] |};
  url_refusal := missing_schema;
  prepare_fault := fun _ => None;
  sct_grab := fun z =>
    if ((0 <? width z) && (0 <? height z))%Z
    then Ok (shot z)
    else Raise (Exn VendorError (py "XGetImage() failed"));
  Image_frombytes := fun m sz d => Ok {| im_mode := m; im_size := sz; im_data := d |};
  png_thumbnail := thumbnail;
  image_to_string := fun _ _ _ => Ok (py "Sum of 2+2? A) 3 B) 4")
|}.

(** The same outside with a web that answers 429 to every request. *)
Definition outside_web_fails : outside := {|
  clipboard_clear_fault := None;
  clipboard_append_fault := None;
  makedirs_fault := fun _ => None;
  open_fault := fun _ => None;
  path_join := fun d f => d ++ 0x2F :: f;
  strftime_now := py "20240102_030405";
  str_now := py "2024-01-02 03:04:05.000006";
  requests_post := fun _ => Ok {| status_code := 429; text := py "slow down" |};
  url_refusal := missing_schema;
  prepare_fault := fun _ => None;
  sct_grab := fun z => Ok (shot z);
  Image_frombytes := fun m sz d => Ok {| im_mode := m; im_size := sz; im_data := d |};
  png_thumbnail := thumbnail;
  image_to_string := fun _ _ _ => Ok (py "Sum of 2+2? A) 3 B) 4")
|}.

(** Settings with the disk log and the webhook on, and the messaging bot
    on without a token. *)
Definition vars : tkvars := {|
  log_dir := py "logs";
  provider_var := py "OpenAI";
  model_var := py "gpt-4o-mini";
  temperature_var := py "0.0";
  telegram_token := py "  ";
  telegram_chat := py "42";
  var_lang := py "fra";
  var_oem := py "3";
  var_psm := py "6";
  do_copy_clipboard := true;
  do_auto_save := true;
  do_send_discord := true;
  do_send_telegram := true;
  var_webhook := py "https://discord.example/api/webhooks/1";
  var_l := Ok 40%Z;
  var_t := Ok 40%Z;
  var_w := Ok 12%Z;
  var_h := Ok 10%Z
|}.

Definition application : OCRQCMApp := {|
  tk := vars;
  capture_zone := {| left := 40; top := 40; width := 12; height := 10 |};
  prompts := [(py "A", PyStr (py "Pick: {text}"))];
  prompt_key_var := py "A";
  prompt_name_var := py "A";
  txt_prompt := py "Pick: {text}";
  cmb_prompt := [py "A"];
  status_var := [];
  txt_log := [];
  q_ui := []
|}.

(** A world without any file. *)
Definition fresh : world := {|
  app := application;
  clipboard := [];
  fs := [];
  sent := [];
  grabbed := []
|}.

(** The world after the store was saved once: [prompts.json] holds what
    [application] has in memory. *)
Definition start : world :=
  (save_prompts outside_ok (prompts application) fresh).2.

End Stub.

(** ** Vocabulary of the statements *)

(** A text without any brace. *)
Definition brace_free (s : str) : Prop := Forall (fun c => is_brace c = false) s.



(** Well-formed Unicode text: scalar values only, no lone surrogate. *)
Definition scalar_text (s : list N) : Prop := Forall (fun c => is_scalar c = true) s.

(** Text without carriage return. *)
Definition no_cr (s : list N) : Prop := Forall (fun c => c <> CR) s.

(** [prompts.json] reads back as the store in memory. *)
Definition persisted `{Runtime} (o : outside) (w : world) : Prop :=
  (t ← read_text o PROMPTS_FILE (fs w); json_loads t)
    = Ok (PyDict (prompts (app w))).

(** The store holds the names and bodies [m], all of them [str]. *)
Definition store_of `{Runtime} (m : list (list N * list N)) : list (list N * pyobj) :=
  prod_map id PyStr <$> m.

(** The text of a string between its quotes. *)
Definition escaped (s : list N) : list N := s ≫= escape_char.

(** The text [json.dump] writes for a store of strings, from the code
    point after the opening quote of the first key; [rest] follows the
    closing brace. *)
Fixpoint pairs_tail (m : list (list N * list N)) (rest : list N) : list N :=
  match m with
  | [] => rest
  | (k, v) :: r =>
      escaped k ++ QUOTE :: COLON :: SPACE :: QUOTE :: escaped v ++ QUOTE ::
        match r with
        | [] => NEWLINE :: RBRACE :: rest
        | _ :: _ =>
            COMMA :: NEWLINE :: SPACE :: SPACE :: QUOTE :: pairs_tail r rest
        end
  end.

(** The text [json.dump] writes for a store of strings. *)
Definition dict_text (m : list (list N * list N)) : list N :=
  match m with
  | [] => [LBRACE; RBRACE]
  | _ :: _ => LBRACE :: NEWLINE :: SPACE :: SPACE :: QUOTE :: pairs_tail m []
  end.

(** The models [merged_providers] adds to a provider of its own list. *)
Definition builtin_models (k : list N) : list (list N) :=
  if decide (k = py "OpenAI") then
    [py "gpt-4o"; py "gpt-4o-mini"; py "o3-mini"; py "gpt-4.1-mini"]
  else if decide (k = py "Anthropic") then
    [py "claude-3.5-sonnet"; py "claude-3-opus"; py "claude-3-haiku"]
  else if decide (k = py "Gemini") then
    [py "gemini-1.5-pro"; py "gemini-1.5-flash"]
  else [].

(** The name [_prompt_new] tries in its round [i], counted from 1. *)
Definition prompt_candidate (i : nat) : list N :=
  match i with
  | 1%nat => py "New Prompt"
  | _ => py "New Prompt" ++ SPACE :: str_of_nat i
  end.

(** The body [_prompt_new] gives to a new prompt. *)
Definition new_prompt_body `{Runtime} : pyobj :=
  PyStr (py "Write your prompt here‚Ä¶").

(** A request of the messaging bot: the only one sent with [json=]. *)
Definition is_bot_request `{Runtime} (r : http_request) : bool :=
  match body r with
  | JsonBody _ => true
  | FormData _ _ => false
  end.

(** A line of the log box that reports a failure of the messaging bot. *)
Definition is_telegram_line (line : list N) : Prop :=
  py "Telegram failed: " `prefix_of` line.

Definition call_prompt `{Runtime} (c : vendor_call) : str :=
  match c with
  | CallOpenAI _ p _ => p
  | CallAnthropic _ _ _ p => p
  | CallGemini _ p => p
  end.

(** *** Runs that keep an invariant *)

(** [m] keeps [I], what holds of the world before and after, and its
    outcome satisfies [Q]. *)
Definition spec `{Runtime} (I : world -> Prop) {A} (Q : result A -> Prop) (m : M A) : Prop :=
  forall w, I w -> I (m w).2 /\ Q (m w).1.

Definition any {A} (r : result A) : Prop := True.
Definition returns {A} (r : result A) : Prop := is_ok r = true.

(** ** Vocabulary of further statements *)

(** A template read as [str.format] reads it: plain code points, the two
    escapes and the field [{text}]. *)
Inductive piece :=
| Lit (c : N)
| EscOpen
| EscClose
| TextField.

(** What the template holds for a piece. *)
Definition piece_source (p : piece) : list N :=
  match p with
  | Lit c => [c]
  | EscOpen => [LBRACE; LBRACE]
  | EscClose => [RBRACE; RBRACE]
  | TextField => LBRACE :: py "text" ++ [RBRACE]
  end.

(** What the piece stands for, given the text. *)
Definition piece_value (text : list N) (p : piece) : list N :=
  match p with
  | Lit c => [c]
  | EscOpen => [LBRACE]
  | EscClose => [RBRACE]
  | TextField => text
  end.

Definition plain_piece `{Runtime} (p : piece) : Prop :=
  match p with Lit c => is_brace c = false | _ => True end.

(** A text without white space at either end. *)
Definition stripped (s : list N) : Prop :=
  (forall c, head s = Some c -> isspace c = false)
  /\ (forall c, last s = Some c -> isspace c = false).

(** ** The rest of the application *)

Section desk.
Context `{Runtime}.

(** The attributes of [OCRQCMApp] that the operations so far leave alone:
    the API keys, the catalogue and the menu of the models, the boxes of
    the OCR text and of the answer, and the preview. *)
Record widgets := {
  key_openai : list N;
  key_anthropic : list N;
  key_gemini : list N;
  providers : list (list N * list (list N));
  cmb_model : list (list N);
  (** [txt_ocr.get("1.0", "end-1c")] *)
  txt_ocr : list N;
  txt_ai : list N;
  preview : option Image
}.

Definition with_cmb_model (v : list (list N)) (k : widgets) : widgets :=
  {| key_openai := key_openai k; key_anthropic := key_anthropic k;
     key_gemini := key_gemini k; providers := providers k; cmb_model := v;
     txt_ocr := txt_ocr k; txt_ai := txt_ai k; preview := preview k |}.

Definition with_txt_ocr (v : list N) (k : widgets) : widgets :=
  {| key_openai := key_openai k; key_anthropic := key_anthropic k;
     key_gemini := key_gemini k; providers := providers k; cmb_model := cmb_model k;
     txt_ocr := v; txt_ai := txt_ai k; preview := preview k |}.

Definition with_txt_ai (v : list N) (k : widgets) : widgets :=
  {| key_openai := key_openai k; key_anthropic := key_anthropic k;
     key_gemini := key_gemini k; providers := providers k; cmb_model := cmb_model k;
     txt_ocr := txt_ocr k; txt_ai := v; preview := preview k |}.

Definition with_preview (v : option Image) (k : widgets) : widgets :=
  {| key_openai := key_openai k; key_anthropic := key_anthropic k;
     key_gemini := key_gemini k; providers := providers k; cmb_model := cmb_model k;
     txt_ocr := txt_ocr k; txt_ai := txt_ai k; preview := v |}.

Definition with_tk (f : tkvars -> tkvars) (a : OCRQCMApp) : OCRQCMApp :=
  {| tk := f (tk a); capture_zone := capture_zone a; prompts := prompts a;
     prompt_key_var := prompt_key_var a; prompt_name_var := prompt_name_var a;
     txt_prompt := txt_prompt a; cmb_prompt := cmb_prompt a;
     status_var := status_var a; txt_log := txt_log a; q_ui := q_ui a |}.

Definition with_model_var (v : list N) (t : tkvars) : tkvars :=
  {| log_dir := log_dir t; provider_var := provider_var t; model_var := v;
     temperature_var := temperature_var t; telegram_token := telegram_token t;
     telegram_chat := telegram_chat t; var_lang := var_lang t; var_oem := var_oem t;
     var_psm := var_psm t; do_copy_clipboard := do_copy_clipboard t;
     do_auto_save := do_auto_save t; do_send_discord := do_send_discord t;
     do_send_telegram := do_send_telegram t; var_webhook := var_webhook t;
     var_l := var_l t; var_t := var_t t; var_w := var_w t; var_h := var_h t |}.

(** [var_l.set(l); var_t.set(t); var_w.set(w); var_h.set(h)] *)
Definition with_region (l t w h : Z) (v : tkvars) : tkvars :=
  {| log_dir := log_dir v; provider_var := provider_var v; model_var := model_var v;
     temperature_var := temperature_var v; telegram_token := telegram_token v;
     telegram_chat := telegram_chat v; var_lang := var_lang v; var_oem := var_oem v;
     var_psm := var_psm v; do_copy_clipboard := do_copy_clipboard v;
     do_auto_save := do_auto_save v; do_send_discord := do_send_discord v;
     do_send_telegram := do_send_telegram v; var_webhook := var_webhook v;
     var_l := Ok l; var_t := Ok t; var_w := Ok w; var_h := Ok h |}.

(** What the interpreter and the imaging library do, where the operations
    below depend on it. *)
Record host := {
  (** [str(e)] *)
  str_of_exn : exn -> list N;
  (** the [AttributeError] of [obj.format] on an object that is no [str] *)
  no_format : pyobj -> exn;
  (** [str(b)] for a [bytes] *)
  str_of_bytes : list Byte.byte -> list N;
  (** [Image.open(io.BytesIO(b))] *)
  Image_open : list Byte.byte -> result Image;
  (** [ImageTk.PhotoImage(img)] and [preview.configure(image=..., text='')] *)
  show_fault : Image -> option exn
}.

(** *** The client for the selected provider *)

(** [_build_llm()]: the client, or [None] after a message on the queue. *)
Definition _build_llm (v : sdks) (k : widgets) : M (option LLMClient) :=
  a <- self ;;
  let prov := provider_var (tk a) in
  let model := model_var (tk a) in
  let key_map := dict_update [] [
    (py "OpenAI", strip (key_openai k));
    (py "Anthropic", strip (key_anthropic k));
    (py "Gemini", strip (key_gemini k)) ] in
  let key := default [] (dict_get prov key_map) in
  if negb (truthy key) then
    q_put (py "status") (PText (py "Missing API key for " ++ prov ++ py ".")) ;;
    ret None
  else
    try_except
      (c <- lift (LLMClient_init v prov model key) ;; ret (Some c))
      (fun e =>
         q_put (py "error") (PText (py "LLM init failed: " ++ exn_msg e)) ;;
         ret None).

(** *** The test call *)

Section calls.
Variable o : outside.
Variable hst : host.

(** The [try] block of the thread of [_test_ai_call], for the client and
    the text: the outcome, the world, and the calls made to the vendors. *)
Definition ask (v : sdks) (llm : LLMClient) (txt : list N)
  : world -> (result unit * world) * list vendor_call := fun w =>
  match default (PyStr []) (dict_get (prompt_key_var (app w)) (prompts (app w))) with
  | PyStr prompt =>
      match complete v llm txt prompt (temperature_var (tk (app w))) with
      | (Ok ans, calls) => (_post_answer o ans txt None w, calls)
      | (Raise e, calls) => ((Raise e, w), calls)
      end
  | other => ((Raise (no_format hst other), w), [])
  end.

(** The thread of [_test_ai_call]. *)
Definition _test_ai_call_run (v : sdks) (k : widgets)
  : world -> (result unit * world) * list vendor_call := fun w =>
  let t := strip (txt_ocr k) in
  let txt := if truthy t then t else py "A = 2, B = 3. Sum? A)3 B)4 C)5" in
  match _build_llm v k w with
  | (Raise e, w1) => ((Raise e, w1), [])
  | (Ok None, w1) => ((Ok tt, w1), [])
  | (Ok (Some llm), w1) =>
      let w2 := (q_put (py "status") (PText (py "Calling AI‚Ä¶")) w1).2 in
      match ask v llm txt w2 with
      | ((Ok _, w3), calls) => ((Ok tt, w3), calls)
      | ((Raise e, w3), calls) =>
          (q_put (py "error") (PText (py "AI error: " ++ str_of_exn hst e)) w3, calls)
      end
  end.

(** *** The tests of the two web sinks *)

(** [_test_discord()] *)
Definition _test_discord : M unit :=
  a <- self ;;
  try_except
    (r <- post o {| url := strip (var_webhook (tk a));
                    body := FormData
                      [(py "content", py "Test from OCR QCM ‚Äì CTk Neon ‚úÖ")] [];
                    timeout := 10 |} ;;
     (if (300 <=? status_code r)%Z then raise (http_failure (py "HTTP ") r)
      else ret tt) ;;
     status_var_set (py "Discord OK."))
    (fun e => status_var_set (py "Discord failed: " ++ exn_msg e)).

(** [_test_telegram()] *)
Definition _test_telegram : M unit :=
  try_except
    (_send_telegram_message o (py "Test from OCR QCM ‚Äì CTk Neon ‚úÖ") ;;
     status_var_set (py "Telegram OK."))
    (fun e => status_var_set (py "Telegram failed: " ++ exn_msg e)).

(** *** The queue of the UI *)

(** What a text box shows after [insert("1.0", payload)] on the empty
    box. *)
Definition box_text (p : payload) : list N :=
  match p with
  | PText s => s
  | PBytes b => tk_string_of b
  end.

(** [str(payload)] *)
Definition str_of_payload (p : payload) : list N :=
  match p with
  | PText s => s
  | PBytes b => str_of_bytes hst b
  end.

(** The loop of [_drain_ui_queue] on the items that are queued: it ends
    on the empty queue, or on the exception of an item, which is taken
    from the queue all the same. *)
Fixpoint drain (q : list (list N * payload)) (k : widgets) (a : OCRQCMApp)
  : result unit * (widgets * OCRQCMApp) :=
  match q with
  | [] => (Ok tt, (k, with_q_ui [] a))
  | (kind, p) :: rest =>
      if bool_decide (kind = py "preview") then
        match p with
        | PBytes b =>
            match Image_open hst b with
            | Ok img =>
                match show_fault hst img with
                | None => drain rest (with_preview (Some img) k) a
                | Some e => (Raise e, (k, with_q_ui rest a))
                end
            | Raise e => (Raise e, (k, with_q_ui rest a))
            end
        | PText _ =>
            (Raise (Exn TypeError (py "a bytes-like object is required, not 'str'")),
             (k, with_q_ui rest a))
        end
      else if bool_decide (kind = py "ocr_text") then
        drain rest (with_txt_ocr (box_text p) k) a
      else if bool_decide (kind = py "ai_text") then
        drain rest (with_txt_ai (box_text p) k) a
      else if bool_decide (kind = py "status") then
        drain rest k (with_status_var (str_of_payload p) a)
      else if bool_decide (kind = py "error") then
        drain rest k (with_status_var (str_of_payload p) a)
      else drain rest k a
  end.

(** [_drain_ui_queue()]: [Ok] when it has asked to be called again. *)
Definition _drain_ui_queue (k : widgets) (w : world)
  : result unit * (widgets * world) :=
  let '(r, (k', a')) := drain (q_ui (app w)) k (app w) in
  (r, (k', with_app (fun _ => a') w)).

(** *** The region drawn on the overlay *)

(** [done(l, t, w, h)] of [_open_region_overlay], with the part of
    [capture_once] that is not its thread. *)
Definition region_done (auto_capture : bool) (l t w h : Z) : M unit :=
  modify (with_app (with_tk (with_region l t w h))) ;;
  status_var_set (py "Region set: L=" ++ str_of_Z l ++ py " T=" ++ str_of_Z t
                    ++ py " W=" ++ str_of_Z w ++ py " H=" ++ str_of_Z h) ;;
  if auto_capture then status_var_set (py "Capturing‚Ä¶") else ret tt.

End calls.

(** *** The models of the selected provider *)

(** The loop of [_refresh_models_for_provider]: the outcome, and the menu
    and the model after it; it stops at the first entry of the provider. *)
Fixpoint refresh_models (prov model : list N) (menu : list (list N))
    (providers : list (list N * list (list N)))
  : result unit * (list (list N) * list N) :=
  match providers with
  | [] => (Ok tt, (menu, model))
  | (p, models) :: rest =>
      if bool_decide (p = prov) then
        if bool_decide (model ∈ models) then (Ok tt, (models, model))
        else
          match models with
          | m :: _ => (Ok tt, (models, m))
          | [] => (Raise (Exn IndexError (py "list index out of range")),
                   (models, model))
          end
      else refresh_models prov model menu rest
  end.

(** [_refresh_models_for_provider()] *)
Definition _refresh_models_for_provider (k : widgets) (w : world)
  : result unit * (widgets * world) :=
  let '(r, (menu, model)) :=
    refresh_models (provider_var (tk (app w))) (model_var (tk (app w)))
      (cmb_model k) (providers k) in
  (r, (with_cmb_model menu k, with_app (with_tk (with_model_var model)) w)).

(** What [__init__] selects first. *)
Definition default_provider (PROVIDER : list N)
    (providers : list (list N * list (list N))) : list N :=
  if dict_contains PROVIDER (dict_update [] providers) then PROVIDER
  else py "OpenAI".

Definition default_prompt (PROMPT : list N) (prompts : list (list N * pyobj))
  : result (list N) :=
  if dict_contains PROMPT prompts then Ok PROMPT
  else
    match dict_keys prompts with
    | k :: _ => Ok k
    | [] => Raise (Exn IndexError (py "list index out of range"))
    end.

(** *** The overlay *)

Definition K_ACCENT : list N := py "#5AB0FF".
Definition K_ACCENT_2 : list N := py "#7A6CFF".

(** An item of the canvas: [create_rectangle(x1, y1, x2, y2, outline, width)]. *)
Record rectangle := {
  rx1 : Z; ry1 : Z; rx2 : Z; ry2 : Z; outline : list N; line_width : Z
}.

Record RegionOverlay := {
  start : option (Z * Z);
  cur : option (Z * Z);
  canvas : list rectangle;
  destroyed : bool
}.

(** The overlay when it opens. *)
Definition RegionOverlay_init : RegionOverlay :=
  {| start := None; cur := None; canvas := []; destroyed := false |}.

(** [_redraw()] *)
Definition _redraw (s : RegionOverlay) : RegionOverlay :=
  {| start := start s; cur := cur s; destroyed := destroyed s;
     canvas :=
       match start s, cur s with
       | Some (x1, y1), Some (x2, y2) =>
           let left := Z.min x1 x2 in
           let top := Z.min y1 y2 in
           let right := Z.max x1 x2 in
           let bottom := Z.max y1 y2 in
           [ {| rx1 := left; ry1 := top; rx2 := right; ry2 := bottom;
                outline := K_ACCENT; line_width := 3 |};
             {| rx1 := left; ry1 := top; rx2 := right; ry2 := bottom;
                outline := K_ACCENT_2; line_width := 1 |} ]
       | _, _ => []
       end |}.

(** [_on_press(e)] *)
Definition _on_press (x y : Z) (s : RegionOverlay) : RegionOverlay :=
  _redraw {| start := Some (x, y); cur := Some (x, y);
             canvas := canvas s; destroyed := destroyed s |}.

(** [_on_motion(e)] *)
Definition _on_motion (x y : Z) (s : RegionOverlay) : RegionOverlay :=
  _redraw {| start := start s; cur := Some (x, y);
             canvas := canvas s; destroyed := destroyed s |}.

(** [_cancel()], and the [destroy()] of [_on_release] *)
Definition _cancel (s : RegionOverlay) : RegionOverlay :=
  {| start := start s; cur := cur s; canvas := canvas s; destroyed := true |}.

(** What the mouse and the keyboard send to the overlay. *)
Inductive event :=
| ButtonPress (x y : Z)
| Motion (x y : Z)
| ButtonRelease (x y : Z)
| Escape.

(** One event: the overlay after it, and the region given to [on_done].
    A destroyed window gets no event. *)
Definition overlay_event (e : event) (s : RegionOverlay)
  : RegionOverlay * option zone :=
  if destroyed s then (s, None)
  else
    match e with
    | ButtonPress x y => (_on_press x y s, None)
    | Motion x y => (_on_motion x y s, None)
    | ButtonRelease _ _ => (_cancel s, _on_release (start s) (cur s))
    | Escape => (_cancel s, None)
    end.

(** A run of events: the overlay after them, and the regions given to
    [on_done]. *)
Fixpoint overlay_events (es : list event) (s : RegionOverlay)
  : RegionOverlay * list zone :=
  match es with
  | [] => (s, [])
  | e :: es =>
      let '(s1, z) := overlay_event e s in
      let '(s2, zs) := overlay_events es s1 in
      (s2, option_list z ++ zs)
  end.

End desk.

(** The payload of the last queued item of one of the kinds. *)
Definition last_payload `{Runtime} (kinds : list (list N)) (q : list (list N * payload))
  : option payload :=
  snd <$> last (filter (fun it => it.1 ∈ kinds) q).

(** ** More concrete surroundings *)

Module Bench.

#[local] Existing Instance Stub.runtime.

(** Vendors that answer with white space around the text. *)
Definition padded_vendors : @sdks Stub.runtime := {|
  OpenAI_present := true;
  anthropic_present := true;
  genai_present := true;
  OpenAI_fault := fun _ => None;
  Anthropic_fault := fun _ => None;
  GenerativeModel_fault := fun _ _ => None;
  chat_completions_create := fun _ _ _ =>
    Ok {| choices := [ {| message := {| content := Some (py "  B) 4 " ++ [NEWLINE]) |} |} ] |};
  messages_create := fun _ _ _ _ =>
    Ok {| msg_content :=
            AttrValue (Some [BlockObject (AttrValue (PyStr (py " B) 4 ")))]) |};
  generate_content := fun _ _ =>
    Ok {| resp_text := Ok (AttrValue (Some (NEWLINE :: py "B) 4"))) |}
|}.

Definition anthropic_client : LLMClient :=
  {| provider := py "Anthropic"; model := py "claude-3-haiku";
     api_key := py "sk-ant-test" |}.

(** The variables of [Stub.vars] with a region given by [w] and [h], the
    disk log as [save] says, and the credentials of the bot. *)
Definition vars_with (wd h : result Z) (save : bool) (token : list N) : tkvars := {|
  log_dir := py "logs";
  provider_var := py "OpenAI";
  model_var := py "gpt-4o-mini";
  temperature_var := py "0.0";
  telegram_token := token;
  telegram_chat := py "42";
  var_lang := py "fra";
  var_oem := py "3";
  var_psm := py "6";
  do_copy_clipboard := true;
  do_auto_save := save;
  do_send_discord := true;
  do_send_telegram := true;
  var_webhook := py "https://discord.example/api/webhooks/1";
  var_l := Ok 40%Z;
  var_t := Ok 40%Z;
  var_w := wd;
  var_h := h
|}.

(** [Stub.start] without the disk log. *)
Definition no_disk : world :=
  with_app (with_tk (fun _ => vars_with (Ok 12%Z) (Ok 10%Z) false (py "  "))) Stub.start.

(** [Stub.start] with a width that is no number. *)
Definition bad_width : world :=
  with_app (with_tk (fun _ =>
    vars_with (Raise (Exn TclError (py "expected integer but got 'abc'")))
      (Ok 10%Z) true (py "  "))) Stub.start.

(** [Stub.start] with a region of width 0. *)
Definition no_width : world :=
  with_app (with_tk (fun _ => vars_with (Ok 0%Z) (Ok 50%Z) true (py "  "))) Stub.start.

(** [Stub.start] with a webhook of white space only. *)
Definition blank_webhook : world :=
  with_app (with_tk (fun t =>
    {| log_dir := log_dir t; provider_var := provider_var t; model_var := model_var t;
       temperature_var := temperature_var t; telegram_token := telegram_token t;
       telegram_chat := telegram_chat t; var_lang := var_lang t; var_oem := var_oem t;
       var_psm := var_psm t; do_copy_clipboard := do_copy_clipboard t;
       do_auto_save := do_auto_save t; do_send_discord := do_send_discord t;
       do_send_telegram := do_send_telegram t; var_webhook := py "  ";
       var_l := var_l t; var_t := var_t t; var_w := var_w t; var_h := var_h t |}))
    Stub.start.

(** [Stub.start] with a token for the bot. *)
Definition with_token : world :=
  with_app (with_tk (fun _ => vars_with (Ok 12%Z) (Ok 10%Z) true (py " 123:abc ")))
    Stub.start.

(** The catalogue for the providers of [config.py]. *)
Definition catalogue : list (list N * list (list N)) := [
  (py "Anthropic",
   [py "claude-3-5-sonnet-20240620"; py "claude-3-haiku"; py "claude-3-opus";
    py "claude-3-opus-20240229"; py "claude-3.5-sonnet"]);
  (py "Gemini", [py "gemini-1.5-flash"; py "gemini-1.5-pro"]);
  (py "OpenAI", [py "gpt-4.1-mini"; py "gpt-4o"; py "gpt-4o-mini"; py "o3-mini"]) ].

(** The rest of the application: a key for OpenAI only, typed with spaces
    around it. *)
Definition desk : widgets := {|
  key_openai := py " sk-test ";
  key_anthropic := [];
  key_gemini := py "   ";
  providers := catalogue;
  cmb_model := [py "gpt-4o-mini"];
  txt_ocr := py " 2+2? A)3 B)4 ";
  txt_ai := [];
  preview := None
|}.

(** The same without any key. *)
Definition desk_no_key : widgets := {|
  key_openai := py "  ";
  key_anthropic := [];
  key_gemini := [];
  providers := catalogue;
  cmb_model := [py "gpt-4o-mini"];
  txt_ocr := [];
  txt_ai := [];
  preview := None
|}.

(** A host that opens every preview. *)
Definition host_ok : host := {|
  str_of_exn := exn_msg;
  no_format := fun _ => Exn TypeError (py "object has no attribute 'format'");
  str_of_bytes := fun _ => py "b'...'";
  Image_open := fun b => Ok {| im_mode := py "RGB"; im_size := (12, 10)%Z; im_data := b |};
  show_fault := fun _ => None
|}.

(** A host that opens none. *)
Definition host_blind : host := {|
  str_of_exn := exn_msg;
  no_format := fun _ => Exn TypeError (py "object has no attribute 'format'");
  str_of_bytes := fun _ => py "b'...'";
  Image_open := fun _ => Raise (Exn OSError (py "cannot identify image file"));
  show_fault := fun _ => None
|}.

(** [Stub.start] with four messages waiting. *)
Definition queued : world :=
  with_app (with_q_ui [
    (py "status", PText (py "Calling AI"));
    (py "ocr_text", PText (py "2+2?"));
    (py "progress", PText (py "50"));
    (py "error", PText (py "AI error: timeout")) ]) Stub.start.

End Bench.

(** * Properties *)

(** ** [str.format] and [LLMClient.complete] *)

Section format_facts.
Context `{Runtime}.


Lemma split_literal_app s :
  let '(a, b) := split_literal s in s = a ++ b /\ brace_free a.
Proof.
  induction s as [|c s IH]; simpl.
  - split; [done|constructor].
  - destruct (is_brace c) eqn:Hc.
    + split; [done|constructor].
    + destruct (split_literal s) as [a b]. destruct IH as [-> Hbf].
      split; [done|by constructor].
Qed.

Lemma split_literal_length s a b :
  split_literal s = (a, b) -> (length b <= length s)%nat.
Proof.
  intros Hs. pose proof (split_literal_app s) as Ha. rewrite Hs in Ha.
  destruct Ha as [-> _]. rewrite length_app. lia.
Qed.

Lemma scan_field_name_length br acc s name c r :
  scan_field_name br acc s = Ok (name, c, r) -> (length r < length s)%nat.
Proof.
  revert br acc. induction s as [|x s IH]; intros br acc; simpl; [done|].
  destruct br.
  - intros Hs. apply IH in Hs. lia.
  - destruct (x =? LBRACE); [done|].
    destruct (x =? LBRACKET).
    + intros Hs. apply IH in Hs. lia.
    + destruct ((x =? RBRACE) || (x =? COLON) || (x =? BANG)).
      * intros [= _ _ ->]. lia.
      * intros Hs. apply IH in Hs. lia.
Qed.

Lemma scan_format_spec_length n acc s spec r :
  scan_format_spec n acc s = Ok (spec, r) -> (length r < length s)%nat.
Proof.
  revert n acc. induction s as [|x s IH]; intros n acc; simpl; [done|].
  destruct (x =? LBRACE).
  - intros Hs. apply IH in Hs. lia.
  - destruct (x =? RBRACE).
    + destruct n as [|[|n]].
      * intros [= _ ->]. lia.
      * intros [= _ ->]. lia.
      * intros Hs. apply IH in Hs. lia.
    + intros Hs. apply IH in Hs. lia.
Qed.

Lemma parse_field_length s name conv spec rest :
  parse_field s = Ok (name, conv, spec, rest) -> (length rest < length s)%nat.
Proof.
  unfold parse_field.
  destruct (scan_field_name false [] s) as [[[nm c] r]|e] eqn:Hn; simpl; [|done].
  apply scan_field_name_length in Hn.
  destruct (c =? RBRACE).
  { intros [= _ _ _ <-]. lia. }
  destruct (c =? BANG).
  - destruct r as [|cv [|c1 r2]]; [done..|].
    simpl in Hn.
    destruct (c1 =? RBRACE).
    { intros [= _ _ _ <-]. lia. }
    destruct (c1 =? COLON); [|done].
    destruct (scan_format_spec 1 [] r2) as [[sp r3]|e] eqn:Hs; simpl; [|done].
    apply scan_format_spec_length in Hs.
    intros [= _ _ _ <-]. lia.
  - destruct (scan_format_spec 1 [] r) as [[sp r3]|e] eqn:Hs; simpl; [|done].
    apply scan_format_spec_length in Hs.
    intros [= _ _ _ <-]. lia.
Qed.

(** Rounds beyond the length of the template are never used. *)
Lemma do_markup_fuel text f1 f2 s :
  (length s <= f1)%nat -> (length s <= f2)%nat ->
  do_markup f1 text s = do_markup f2 text s.
Proof.
  revert f2 s. induction f1 as [|f1 IH]; intros f2 s H1 H2.
  { destruct s; [by destruct f2|simpl in H1; lia]. }
  destruct s as [|x s]; [by destruct f2|].
  destruct f2 as [|f2]; [simpl in H2; lia|].
  cbn [do_markup].
  destruct (split_literal (x :: s)) as [lit r] eqn:Hsp.
  apply split_literal_length in Hsp.
  destruct r as [|c [|c1 r2]]; [done..|].
  simpl in H1, H2, Hsp.
  destruct (c =? c1).
  { rewrite (IH f2 r2) by lia. done. }
  destruct (c =? RBRACE); [done|].
  destruct (parse_field (c1 :: r2)) as [[[[nm cv] sp] rest]|e] eqn:Hp; simpl; [|done].
  apply parse_field_length in Hp. simpl in Hp.
  destruct (render_field text nm cv sp); simpl; [|done].
  rewrite (IH f2 rest) by lia. done.
Qed.

End format_facts.

Section format_facts2.
Context `{Runtime}.

Lemma do_markup_text text f c s :
  is_brace c = false ->
  do_markup (S f) text (c :: s) =
    match do_markup (S f) text s with
    | Ok t => Ok (c :: t)
    | Raise e => Raise e
    end.
Proof.
  intros Hc. cbn [do_markup split_literal]. rewrite Hc.
  destruct s as [|x s]; [done|].
  destruct (split_literal (x :: s)) as [lit r].
  destruct r as [|b [|b1 r2]]; [done| |].
  - by destruct (b =? RBRACE).
  - destruct (b =? b1).
    { by destruct (do_markup f text r2). }
    destruct (b =? RBRACE); [done|].
    destruct (parse_field (b1 :: r2)) as [[[[nm cv] sp] rest]|e]; simpl; [|done].
    destruct (render_field text nm cv sp); simpl; [|done].
    by destruct (do_markup f text rest).
Qed.












Lemma text_field_parses rest :
  parse_field (py "text}" ++ rest) = Ok (py "text", None, [], rest).
Proof. reflexivity. Qed.

Lemma text_field_renders text : render_field text (py "text") None [] = Ok text.
Proof. reflexivity. Qed.

Lemma do_markup_at_brace text f c s :
  is_brace c = true ->
  do_markup (S f) text (c :: s) =
    match s with
    | [] =>
        if c =? RBRACE then
          Raise (Exn ValueError (py "Single '}' encountered in format string"))
        else
          Raise (Exn ValueError (py "Single '{' encountered in format string"))
    | c1 :: r2 =>
        if c =? c1 then tail ← do_markup f text r2; Ok (c :: tail)
        else if c =? RBRACE then
          Raise (Exn ValueError (py "Single '}' encountered in format string"))
        else
          '(name, conv, spec, rest) ← parse_field s;
          v ← render_field text name conv spec;
          tail ← do_markup f text rest;
          Ok (v ++ tail)
    end.
Proof. intros Hc. cbn [do_markup split_literal]. by rewrite Hc. Qed.



(** A template made of plain text, escapes and [{text}] fields renders
    piece by piece. *)
Lemma do_markup_pieces text ps : forall fuel,
  Forall plain_piece ps ->
  (length (concat (piece_source <$> ps)) <= fuel)%nat ->
  do_markup fuel text (concat (piece_source <$> ps))
  = Ok (concat (piece_value text <$> ps)).
Proof.
  induction ps as [|p ps IH]; intros fuel Hps Hfuel.
  - by destruct fuel.
  - apply Forall_cons in Hps as [Hp Hps].
    rewrite !fmap_cons in *. cbn [concat] in *. rewrite length_app in Hfuel.
    destruct p as [c| | |]; cbn [piece_source piece_value List.app] in *.
    + destruct fuel as [|f]; [simpl in Hfuel; lia|].
      rewrite do_markup_text by done. rewrite IH; [done..|simpl in Hfuel; lia].
    + destruct fuel as [|f]; [simpl in Hfuel; lia|].
      rewrite do_markup_at_brace by done.
      change (LBRACE =? LBRACE) with true. cbv iota.
      rewrite IH; [done..|simpl in Hfuel; lia].
    + destruct fuel as [|f]; [simpl in Hfuel; lia|].
      rewrite do_markup_at_brace by done.
      change (RBRACE =? RBRACE) with true. cbv iota.
      rewrite IH; [done..|simpl in Hfuel; lia].
    + destruct fuel as [|f]; [simpl in Hfuel; lia|].
      rewrite do_markup_at_brace by done.
      change ((py "text" ++ [RBRACE]) ++ concat (piece_source <$> ps))
        with (0x74 :: (py "ext}" ++ concat (piece_source <$> ps))).
      change (LBRACE =? 0x74) with false. change (LBRACE =? RBRACE) with false.
      cbv iota.
      change (0x74 :: (py "ext}" ++ concat (piece_source <$> ps)))
        with (py "text}" ++ concat (piece_source <$> ps)).
      rewrite text_field_parses. cbn [mbind result_bind].
      rewrite text_field_renders. cbn [mbind result_bind].
      rewrite IH; [done..|simpl in Hfuel; lia].
Qed.


End format_facts2.

Section complete_facts.
Context `{Runtime}.


(** C4, at the input that breaks it: a completion of OpenAI without any
    choice makes [complete] raise the [IndexError] of [choices[0]], after
    the vendor was called; no empty string is returned. *)
Theorem complete_openai_without_choice (v : sdks) (self : LLMClient)
    (text tpl prompt : str) (temperature : pyfloat) :
  provider self = py "OpenAI" ->
  format tpl text = Ok prompt ->
  chat_completions_create v (model self) prompt temperature
    = Ok {| choices := [] |} ->
  complete v self text tpl temperature
    = (Raise (Exn IndexError (py "list index out of range")),
       [CallOpenAI (model self) prompt temperature]).
Proof.
  intros Hp Hf Hc. unfold complete. rewrite Hf.
  rewrite bool_decide_eq_true_2 by done. by rewrite Hc.
Qed.

(** X6.  Where the answer field is empty and the first choice exists,
    every provider gives the empty string: OpenAI for a content that is
    [None] or empty, Anthropic for a content that is missing, [None] or
    without block, Gemini for a text that reads as [None] or empty.
    Reading the text of a response of Gemini may raise, as the accessor of
    the SDK does for an answer without text: then [complete] raises the
    same exception and gives no empty string. *)
Lemma complete_empty_answer (v : sdks) (self : LLMClient)
    (text tpl prompt : str) (temperature : pyfloat) :
  format tpl text = Ok prompt ->
  (provider self = py "OpenAI" ->
   forall c cs, chat_completions_create v (model self) prompt temperature
                  = Ok {| choices := c :: cs |} ->
     or_empty (content (message c)) = [] ->
     (complete v self text tpl temperature).1 = Ok [])
  /\ (provider self = py "Anthropic" ->
      forall msg, messages_create v (model self) 800 temperature prompt = Ok msg ->
        msg_content msg = AttrMissing \/ msg_content msg = AttrValue None
        \/ msg_content msg = AttrValue (Some []) ->
        (complete v self text tpl temperature).1 = Ok [])
  /\ (provider self <> py "OpenAI" -> provider self <> py "Anthropic" ->
      forall resp, generate_content v (model self) prompt = Ok resp ->
        (forall t, resp_text resp = Ok t ->
           t = AttrValue None \/ t = AttrValue (Some []) ->
           (complete v self text tpl temperature).1 = Ok [])
        /\ (forall e, resp_text resp = Raise e ->
              (complete v self text tpl temperature).1 = Raise e)).
Proof.
  intros Hf. unfold complete. rewrite Hf. split; [|split].
  - intros Hp c cs Hc He. rewrite bool_decide_eq_true_2 by done.
    simpl. rewrite Hc. simpl. by rewrite He.
  - intros Hp msg Hc Hm.
    rewrite bool_decide_eq_false_2 by (rewrite Hp; by vm_compute).
    rewrite bool_decide_eq_true_2 by done. simpl. rewrite Hc. simpl.
    by destruct Hm as [-> | [-> | ->]].
  - intros Hp1 Hp2 resp Hc.
    rewrite !bool_decide_eq_false_2 by done. simpl. rewrite Hc. simpl. split.
    + intros t -> He. simpl. by destruct He as [-> | ->].
    + by intros e ->.
Qed.

End complete_facts.



Lemma complete_openai_without_choice_witness :
  @complete Stub.runtime Stub.no_choice Stub.openai_client
     (py "2+2?") (py "Q: {text}") (py "0.0")
  = (Raise (Exn IndexError (py "list index out of range")),
     [CallOpenAI (H:=Stub.runtime) (py "gpt-4o-mini") (py "Q: 2+2?") (py "0.0")]).
Proof.
  apply (@complete_openai_without_choice Stub.runtime Stub.no_choice
           Stub.openai_client (py "2+2?") (py "Q: {text}") (py "Q: 2+2?") (py "0.0"));
    reflexivity.
Defined.

(** What [str.format] raises, on four templates. *)
Lemma format_unknown_name :
  @format Stub.runtime (py "Q: {question}") (py "2+2?") = Raise (Exn KeyError (py "'question'")).
Proof. vm_compute. reflexivity. Qed.

Lemma format_positional_field :
  @format Stub.runtime (py "Q: {}") (py "2+2?")
  = Raise (Exn IndexError
      (py "Replacement index 0 out of range for positional args tuple"))
  /\ @format Stub.runtime (py "Q: {12}") (py "2+2?")
     = Raise (Exn IndexError
         (py "Replacement index 12 out of range for positional args tuple")).
Proof. split; vm_compute; reflexivity. Qed.

Lemma format_single_brace :
  @format Stub.runtime (py "Q: {text} }") (py "2+2?")
  = Raise (Exn ValueError (py "Single '}' encountered in format string"))
  /\ @format Stub.runtime (py "Q: {text") (py "2+2?")
     = Raise (Exn ValueError (py "expected '}' before end of string")).
Proof. split; vm_compute; reflexivity. Qed.

(** A template without placeholder, with doubled braces: it is sent with
    single braces. *)
Lemma complete_unescapes_template_without_placeholder :
  @complete Stub.runtime Stub.vendors Stub.openai_client
     (py "2+2?") (py "Answer as {{letter}}.") (py "0.0")
  = (Ok (py "B"),
     [CallOpenAI (H:=Stub.runtime) (py "gpt-4o-mini") (py "Answer as {letter}.")
        (py "0.0")]).
Proof. vm_compute. reflexivity. Qed.

(** A response of Gemini without text: the accessor raises, and so does
    [complete]. *)
Lemma complete_gemini_without_text :
  (@complete Stub.runtime Stub.no_choice
     {| provider := py "Gemini"; model := py "gemini-1.5-flash"; api_key := py "k" |}
     (py "2+2?") (py "Q: {text}") (py "0.0")).1
  = Raise (Exn ValueError
      (py "Invalid operation: The `response.text` quick accessor requires the response to contain a valid `Part`, but none were returned.")).
Proof. vm_compute. reflexivity. Qed.

(** ** Statements that keep an invariant *)

Section spec.
Context `{Runtime}.
(** What holds of the world before and after. *)
Variable I : world -> Prop.

Lemma spec_any {A} (Q : result A -> Prop) (m : M A) : spec I Q m -> spec I any m.
Proof. intros Hm w Hw. split; [by apply Hm|done]. Qed.

Lemma spec_ret {A} (a : A) : spec I returns (ret a).
Proof. by intros w Hw. Qed.

Lemma spec_self : spec I returns self.
Proof. by intros w Hw. Qed.

Lemma spec_raise {A} (e : exn) : spec I any (raise (A:=A) e).
Proof. by intros w Hw. Qed.

Lemma spec_lift {A} (r : result A) : spec I any (lift r).
Proof. by intros w Hw. Qed.

Lemma spec_fault (f : option exn) : spec I any (fault f).
Proof. by destruct f; intros w Hw. Qed.

Lemma spec_modify (f : world -> world) :
  (forall w, I w -> I (f w)) -> spec I returns (modify f).
Proof. intros Hf w Hw. split; [by apply Hf|done]. Qed.

Lemma spec_bind {A B} (m : M A) (k : A -> M B) :
  spec I returns m -> (forall a, spec I returns (k a)) -> spec I returns (bind m k).
Proof.
  intros Hm Hk w Hw. unfold bind. destruct (Hm w Hw) as [Hi Hr].
  destruct (m w) as [[a|e] w1]; simpl in *; [by apply Hk|done].
Qed.

Lemma spec_bind_any {A B} (m : M A) (k : A -> M B) :
  spec I any m -> (forall a, spec I any (k a)) -> spec I any (bind m k).
Proof.
  intros Hm Hk w Hw. unfold bind. destruct (Hm w Hw) as [Hi _].
  destruct (m w) as [[a|e] w1]; simpl in *; [|done].
  split; [by apply Hk|done].
Qed.

Lemma spec_self_bind {B} (Q : result B -> Prop) (k : OCRQCMApp -> M B) :
  (forall w, I w -> spec I Q (k (app w))) -> spec I Q (bind self k).
Proof. intros Hk w Hw. by apply (Hk w Hw). Qed.

Lemma spec_try_except {A} (Q : result A -> Prop) (m : M A) (h : exn -> M A) :
  spec I Q m -> (forall e, spec I returns (h e)) -> spec I returns (try_except m h).
Proof.
  intros Hm Hh w Hw. unfold try_except. destruct (Hm w Hw) as [Hi _].
  destruct (m w) as [[a|e] w1]; simpl in *; [done|by apply Hh].
Qed.

Lemma spec_if {A} (Q : result A -> Prop) (b : bool) (m1 m2 : M A) :
  spec I Q m1 -> spec I Q m2 -> spec I Q (if b then m1 else m2).
Proof. by destruct b. Qed.

Lemma spec_write_text (o : outside) (path : str) (chunks : stream) :
  (forall w v, I w -> I (with_fs v w)) -> spec I any (write_text o path chunks).
Proof.
  intros Hfs w Hw. unfold write_text. split; [|done].
  destruct (open_fault o path); [done|].
  destruct (write_chunks [] chunks.1) as [content [err|]]; simpl;
    [by apply Hfs|].
  destruct chunks.2; by apply Hfs.
Qed.

Lemma spec_post (o : outside) (req : http_request) :
  (forall w, I w -> I (with_sent (sent w ++ [req]) w)) -> spec I any (post o req).
Proof.
  intros Hs w Hw. unfold post.
  destruct (refusal o (url req)); (split; [|done]); [done|by apply Hs].
Qed.

End spec.

(** The rules above, applied as far as they go; [side] settles what a
    change of the world has to keep. *)
Ltac spec_auto side :=
  repeat first
    [ apply spec_ret
    | apply spec_self
    | apply spec_raise
    | apply spec_lift
    | apply spec_fault
    | apply spec_if
    | apply spec_bind; [|intros ?]
    | apply spec_bind_any; [|intros ?]
    | apply spec_try_except with (Q := any); [|intros ?]
    | eapply spec_any, spec_try_except with (Q := any); [|intros ?]
    | eapply spec_any, spec_ret
    | eapply spec_any, spec_self
    | apply spec_modify; side
    | eapply spec_any, spec_modify; side
    | apply spec_post; side
    | apply spec_write_text; side ].

(** ** The fan-out of an answer *)

Section dispatch_facts.
Context `{Runtime}.
Variable o : outside.

Ltac run :=
  unfold _post_answer, _append_log, _send_telegram_message, write_text, post,
    q_put, txt_log_insert, fault, try_except, bind, ret, raise, modify, self,
    lift; simpl.

(** C1, at the input that breaks it: when the disk log is on and its
    directory cannot be created, the exception leaves the dispatch, and
    neither the webhook nor the messaging bot is tried. *)
Theorem post_answer_disk_failure_escapes (w : world) (ans ocr_text : str)
    (img_bytes : option bytes) (e : exn) :
  do_auto_save (tk (app w)) = true ->
  makedirs_fault o (log_dir (tk (app w))) = Some e ->
  (_post_answer o ans ocr_text img_bytes w).1 = Raise e
  /\ sent (_post_answer o ans ocr_text img_bytes w).2 = sent w
  /\ txt_log (app (_post_answer o ans ocr_text img_bytes w).2) = txt_log (app w).
Proof.
  intros Hsave Hdir. run. rewrite Hsave.
  destruct (do_copy_clipboard (tk (app w))); simpl;
    [destruct (clipboard_clear_fault o); simpl;
       [|destruct (clipboard_append_fault o); simpl]|];
    rewrite Hdir; simpl; done.
Qed.

(** X1.  The other sinks keep their failures to themselves: without the
    disk log, nothing leaves the dispatch, whatever the clipboard, the
    webhook and the bot do. *)
Lemma post_answer_without_disk_never_raises (w : world) (ans ocr_text : str)
    (img_bytes : option bytes) :
  do_auto_save (tk (app w)) = false ->
  (_post_answer o ans ocr_text img_bytes w).1 = Ok tt.
Proof.
  intros Hsave.
  cut (spec (fun w' => tk (app w') = tk (app w)) returns
         (_post_answer o ans ocr_text img_bytes)).
  { intros Hs. destruct (Hs w eq_refl) as [_ Hr]. unfold returns in Hr.
    by destruct (_post_answer o ans ocr_text img_bytes w) as [[[]|e] w1]. }
  unfold _post_answer, q_put, txt_log_insert.
  do 2 (apply spec_bind; [by apply spec_modify|intros _]).
  apply spec_self_bind; intros w1 ->. rewrite Hsave. cbv iota.
  spec_auto ltac:(by intros).
Qed.

Lemma telegram_line_head (line : str) :
  is_telegram_line line -> head line = Some 0x54.
Proof. intros [k ->]. reflexivity. Qed.

(** C2, as amended.  With a blank token or a blank chat id, the dispatch
    passes over the messaging bot without a word: it sends no request to
    the bot and records no failure for it.  The failure for missing
    credentials is the one of the direct send, which raises before any
    request is made. *)
Theorem post_answer_blank_credentials (w : world) (ans ocr_text : str)
    (img_bytes : option bytes) :
  truthy (strip (telegram_token (tk (app w)))) = false
  \/ truthy (strip (telegram_chat (tk (app w)))) = false ->
  _send_telegram_message o ans w
    = (Raise (Exn RuntimeError (py "Please set bot token and chat id.")), w)
  /\ filter is_bot_request (sent (_post_answer o ans ocr_text img_bytes w).2)
      = filter is_bot_request (sent w)
  /\ exists lines,
       txt_log (app (_post_answer o ans ocr_text img_bytes w).2)
         = lines ++ txt_log (app w)
       /\ Forall (fun line => ~ is_telegram_line line) lines.
Proof.
  intros Hblank.
  assert (Hsend : negb (truthy (strip (telegram_token (tk (app w)))))
                  || negb (truthy (strip (telegram_chat (tk (app w))))) = true).
  { destruct Hblank as [-> | ->]; [done|by rewrite orb_true_r]. }
  assert (Hgate : do_send_telegram (tk (app w))
                  && truthy (strip (telegram_token (tk (app w))))
                  && truthy (strip (telegram_chat (tk (app w)))) = false).
  { destruct Hblank as [-> | ->];
      [by rewrite andb_false_r|by rewrite andb_false_r]. }
  split; [by run; rewrite Hsend|].
  set (I := fun w' : world =>
    tk (app w') = tk (app w)
    /\ filter is_bot_request (sent w') = filter is_bot_request (sent w)
    /\ exists lines, txt_log (app w') = lines ++ txt_log (app w)
                     /\ Forall (fun line => ~ is_telegram_line line) lines).
  assert (Hlog : forall line, head line <> Some 0x54 ->
            forall w', I w' -> I (with_app (fun a => with_txt_log (line :: txt_log a) a) w')).
  { intros line Hline w' (Htk & Hsent & lines & Hlines & Hall).
    split; [done|]. split; [done|]. exists (line :: lines). simpl.
    split; [by rewrite Hlines|]. constructor; [|done].
    by intros Ht%telegram_line_head. }
  cut (spec I any (_post_answer o ans ocr_text img_bytes)).
  { intros Hs. destruct (Hs w) as [(_ & Hsent & Hlines) _]; [|done].
    split; [done|]. split; [done|]. by exists []. }
  unfold _post_answer, q_put, txt_log_insert.
  do 2 (apply spec_bind_any; [by eapply spec_any, spec_modify|intros _]).
  apply spec_self_bind; intros w1 (Htk & _). rewrite Htk, Hgate. cbv iota.
  spec_auto ltac:(first
    [ by apply Hlog
    | intros w' HI; exact HI
    | intros w' v HI; exact HI
    | intros w' (? & Hsent' & ?); (split; [done|]); (split; [|done]); simpl;
      by rewrite filter_app, filter_cons_False, filter_nil, app_nil_r
        by (simpl; tauto) ]).
Qed.

End dispatch_facts.

#[local] Existing Instance Stub.runtime.

Lemma post_answer_disk_failure_escapes_witness :
  (_post_answer Stub.outside_disk_fails (py "B") (py "Q?") None Stub.start).1
    = Raise (Exn OSError (py "Permission denied: 'logs'"))
  /\ sent (_post_answer Stub.outside_disk_fails (py "B") (py "Q?") None Stub.start).2
     = []
  /\ txt_log (app (_post_answer Stub.outside_disk_fails (py "B") (py "Q?") None
                     Stub.start).2) = [].
Proof.
  apply (post_answer_disk_failure_escapes Stub.outside_disk_fails Stub.start
           (py "B") (py "Q?") None (Exn OSError (py "Permission denied: 'logs'")));
    reflexivity.
Defined.

(** The disk log written and the failure of the webhook recorded, in one
    dispatch. *)
Lemma post_answer_disk_then_failing_webhook :
  let r := _post_answer Stub.outside_web_fails (py "B") (py "Q?") None Stub.start in
  r.1 = Ok tt
  /\ txt_log (app r.2)
     = [py "Discord failed: HTTP 429: slow down" ++ [NEWLINE];
        py "Log written: logs/result_20240102_030405.txt" ++ [NEWLINE]]
  /\ dict_contains (py "logs/result_20240102_030405.txt") (fs r.2) = true.
Proof. vm_compute. done. Qed.

Lemma post_answer_blank_token_records_nothing :
  let r := _post_answer Stub.outside_ok (py "B") (py "Q?") None Stub.start in
  do_send_telegram (tk (app Stub.start)) = true
  /\ strip (telegram_token (tk (app Stub.start))) = []
  /\ r.1 = Ok tt
  /\ txt_log (app r.2)
     = [py "Sent to Discord." ++ [NEWLINE];
        py "Log written: logs/result_20240102_030405.txt" ++ [NEWLINE]]
  /\ Forall (fun line => ~ is_telegram_line line) (txt_log (app r.2)).
Proof.
  cbv zeta. repeat split; try (vm_compute; reflexivity).
  repeat constructor; intros Ht%telegram_line_head; vm_compute in Ht; congruence.
Qed.

Lemma post_answer_blank_credentials_witness :
  _send_telegram_message Stub.outside_ok (py "B") Stub.start
    = (Raise (Exn RuntimeError (py "Please set bot token and chat id.")), Stub.start)
  /\ filter is_bot_request
       (sent (_post_answer Stub.outside_ok (py "B") (py "Q?") None Stub.start).2)
     = filter is_bot_request (sent Stub.start)
  /\ exists lines,
       txt_log (app (_post_answer Stub.outside_ok (py "B") (py "Q?") None Stub.start).2)
         = lines ++ txt_log (app Stub.start)
       /\ Forall (fun line => ~ is_telegram_line line) lines.
Proof.
  apply (post_answer_blank_credentials Stub.outside_ok Stub.start (py "B") (py "Q?") None).
  left. reflexivity.
Defined.

(** ** Capture *)

Section capture_facts.
Context `{Runtime}.
Variable o : outside.

Lemma on_release_minimum (start cur : option (Z * Z)) (z : zone) :
  _on_release start cur = Some z -> (10 <= width z)%Z /\ (10 <= height z)%Z.
Proof.
  unfold _on_release. destruct start as [[x1 y1]|], cur as [[x2 y2]|]; try done.
  destruct (10 <=? Z.abs (x2 - x1))%Z eqn:Hx; [|done].
  destruct (10 <=? Z.abs (y2 - y1))%Z eqn:Hy; [|done].
  intros [= <-]. simpl. lia.
Qed.

(** C9, as amended.  The pipeline checks no dimension: whatever the width
    and the height, the region goes to the screen-capture collaborator as
    it is, and the run ends without raising.  What the queue gets is
    decided by the collaborators alone, asked in this order: the screen,
    the construction of the image from the shot, the thumbnail written as
    PNG, the OCR.  The first of them that raises gives the capture error,
    with its message and nothing else on the queue; when none raises the
    queue gets the preview, the text and the status, so a capture error
    is there only when a collaborator raised.  Only the overlay is
    particular: the regions it hands over are at least 10 by 10. *)
Theorem capture_thread_forwards_region (w : world) (l t wd h : Z) :
  var_l (tk (app w)) = Ok l -> var_t (tk (app w)) = Ok t ->
  var_w (tk (app w)) = Ok wd -> var_h (tk (app w)) = Ok h ->
  let z := {| left := l; top := t; width := wd; height := h |} in
  let lang := var_lang (tk (app w)) in
  let cfg := py "--oem " ++ var_oem (tk (app w)) ++ py " --psm " ++ var_psm (tk (app w)) in
  let queue := q_ui (app (_capture_thread o w).2) in
  let failed (e : exn) :=
    queue = q_ui (app w) ++ [(py "error", PText (py "OCR/Capture error: " ++ exn_msg e))] in
  (_capture_thread o w).1 = Ok tt
  /\ grabbed (_capture_thread o w).2 = grabbed w ++ [z]
  /\ (forall e, sct_grab o z = Raise e -> failed e)
  /\ (forall shot, sct_grab o z = Ok shot ->
        (forall e, Image_frombytes o (py "RGB") (shot_size shot) (shot_rgb shot) = Raise e ->
           failed e)
        /\ (forall img,
              Image_frombytes o (py "RGB") (shot_size shot) (shot_rgb shot) = Ok img ->
              (forall e, png_thumbnail o img (960, 540)%Z = Raise e -> failed e)
              /\ (forall png, png_thumbnail o img (960, 540)%Z = Ok png ->
                    (forall e, image_to_string o img lang cfg = Raise e -> failed e)
                    /\ (forall text, image_to_string o img lang cfg = Ok text ->
                          queue = q_ui (app w) ++
                            [(py "preview", PBytes png); (py "ocr_text", PText text);
                             (py "status",
                              PText (py "Capture OK (" ++ str_of_nat (length text)
                                     ++ py " chars)"))]))))
  /\ ((exists e, failed e) ->
      exists e,
        sct_grab o z = Raise e
        \/ exists shot, sct_grab o z = Ok shot
           /\ (Image_frombytes o (py "RGB") (shot_size shot) (shot_rgb shot) = Raise e
               \/ exists img,
                    Image_frombytes o (py "RGB") (shot_size shot) (shot_rgb shot) = Ok img
                    /\ (png_thumbnail o img (960, 540)%Z = Raise e
                        \/ exists png, png_thumbnail o img (960, 540)%Z = Ok png
                             /\ image_to_string o img lang cfg = Raise e)))
  /\ (forall start cur z', _on_release start cur = Some z' ->
        (10 <= width z')%Z /\ (10 <= height z')%Z).
Proof.
  intros Hl Ht Hw Hh z lang cfg queue failed. subst queue failed lang cfg.
  unfold _capture_thread, grab_image, ocr_image, try_except, bind, lift, self,
    modify, q_put. simpl. rewrite Hl, Ht, Hw, Hh. simpl. fold z.
  destruct (sct_grab o z) as [shot|e1] eqn:Hg; simpl.
  2: { split; [done|]. split; [done|]. split; [by intros e [= ->]|].
       split; [done|]. split; [intros _; exists e1; by left|].
       apply on_release_minimum. }
  destruct (Image_frombytes o _ _ _) as [img|e2] eqn:Hi; simpl.
  2: { split; [done|]. split; [done|]. split; [done|]. split.
       { intros ? [= <-]. rewrite Hi. split; [by intros e [= ->]|done]. }
       split; [|apply on_release_minimum].
       intros _. exists e2. right. exists shot. split; [done|]. by left. }
  destruct (png_thumbnail o _ _) as [small|e3] eqn:Hp; simpl.
  2: { split; [done|]. split; [done|]. split; [done|]. split.
       { intros ? [= <-]. rewrite Hi. split; [done|]. intros ? [= <-]. rewrite Hp.
         split; [by intros e [= ->]|done]. }
       split; [|apply on_release_minimum].
       intros _. exists e3. right. exists shot. split; [done|]. right.
       exists img. split; [done|]. by left. }
  destruct (image_to_string o _ _ _) as [text|e4] eqn:Ho; simpl.
  2: { split; [done|]. split; [done|]. split; [done|]. split.
       { intros ? [= <-]. rewrite Hi. split; [done|]. intros ? [= <-]. rewrite Hp.
         split; [done|]. intros ? [= <-]. simpl. rewrite Ho.
         split; [by intros e [= ->]|done]. }
       split; [|apply on_release_minimum].
       intros _. exists e4. right. exists shot. split; [done|]. right.
       exists img. split; [done|]. right. by exists small. }
  split; [done|]. split; [done|]. split; [done|]. split.
  { intros ? [= <-]. rewrite Hi. split; [done|]. intros ? [= <-]. rewrite Hp.
    split; [done|]. intros ? [= <-]. simpl. rewrite Ho.
    split; [done|]. intros ? [= <-]. by rewrite <- !(assoc_L (++)). }
  split; [|apply on_release_minimum].
  intros [e He]. rewrite <- !(assoc_L (++)) in He. apply app_inv_head in He. done.
Qed.
End capture_facts.

(** A region of width 0 is not refused before the screen is asked for its
    pixels: it is grabbed as it is.  The error on the queue is the one that
    comes later, when the preview of the image without pixels is written. *)
Lemma capture_thread_grabs_empty_region :
  var_w (tk (app Bench.no_width)) = Ok 0%Z
  /\ (_capture_thread Stub.outside_ok Bench.no_width).1 = Ok tt
  /\ grabbed (_capture_thread Stub.outside_ok Bench.no_width).2
     = [{| left := 40; top := 40; width := 0; height := 50 |}]
  /\ q_ui (app (_capture_thread Stub.outside_ok Bench.no_width).2)
     = [(py "error", PText (py "OCR/Capture error: cannot write empty image as PNG"))].
Proof. vm_compute. done. Qed.

(** The region of [Stub.start] has pixels, and nothing raises. *)
Lemma capture_thread_forwards_region_witness :
  (_capture_thread Stub.outside_ok Stub.start).1 = Ok tt
  /\ grabbed (_capture_thread Stub.outside_ok Stub.start).2
     = grabbed Stub.start
       ++ [{| left := 40; top := 40; width := 12; height := 10 |}]
  /\ q_ui (app (_capture_thread Stub.outside_ok Stub.start).2)
     = q_ui (app Stub.start)
       ++ [(py "preview", PBytes Stub.png);
           (py "ocr_text", PText (py "Sum of 2+2? A) 3 B) 4"));
           (py "status", PText (py "Capture OK (21 chars)"))].
Proof.
  destruct (capture_thread_forwards_region Stub.outside_ok Stub.start 40 40 12 10
              eq_refl eq_refl eq_refl eq_refl) as (H1 & H2 & _ & H4 & _).
  split; [exact H1|]. split; [exact H2|].
  exact (proj2 (proj2 (proj2 (H4 _ eq_refl) _ eq_refl) _ eq_refl) _ eq_refl).
Defined.

(** The same region on a screen that refuses it: the region is tried all
    the same, and the refusal of the screen is what the queue reports. *)
Lemma capture_thread_reports_grab_failure :
  (_capture_thread Stub.outside_grab_fails Bench.no_width).1 = Ok tt
  /\ grabbed (_capture_thread Stub.outside_grab_fails Bench.no_width).2
     = [{| left := 40; top := 40; width := 0; height := 50 |}]
  /\ q_ui (app (_capture_thread Stub.outside_grab_fails Bench.no_width).2)
     = [(py "error", PText (py "OCR/Capture error: XGetImage() failed"))].
Proof. vm_compute. done. Qed.

(** ** Dictionaries *)

Section dict_facts.
Context {V : Type}.
Implicit Types (d : list (list N * V)) (k : list N) (v : V).

Lemma dict_get_None k d : dict_get k d = None <-> k ∉ dict_keys d.
Proof.
  unfold dict_keys. induction d as [|[k' v'] d IH]; simpl.
  - split; [intros _; apply not_elem_of_nil|done].
  - rewrite not_elem_of_cons. case_decide; [|tauto].
    split; [done|]. intros [? _]. done.
Qed.

Lemma dict_get_Some_elem k v d : dict_get k d = Some v -> (k, v) ∈ d.
Proof.
  induction d as [|[k' v'] d IH]; simpl; [done|].
  case_decide as Hk.
  - intros [= ->]. subst. apply list_elem_of_here.
  - intros Hd. apply list_elem_of_further. by apply IH.
Qed.

Lemma dict_get_elem k v d : NoDup (dict_keys d) -> (k, v) ∈ d -> dict_get k d = Some v.
Proof.
  unfold dict_keys. induction d as [|[k' v'] d IH]; simpl.
  - intros _ Hin. by apply elem_of_nil in Hin.
  - intros [Hk' Hnd]%NoDup_cons [[= -> ->]|Hin]%elem_of_cons.
    + by rewrite decide_True.
    + rewrite decide_False; [by apply IH|].
      intros ->. apply Hk'. apply list_elem_of_fmap. by exists (k', v).
Qed.

Lemma dict_contains_false k d : dict_contains k d = false <-> k ∉ dict_keys d.
Proof.
  unfold dict_contains. rewrite <- dict_get_None.
  destruct (dict_get k d); split; done.
Qed.

Lemma dict_contains_true k d : dict_contains k d = true <-> k ∈ dict_keys d.
Proof.
  destruct (dict_contains k d) eqn:Hc.
  - split; [intros _|done]. destruct (decide (k ∈ dict_keys d)) as [|Hn]; [done|].
    apply dict_contains_false in Hn. congruence.
  - apply dict_contains_false in Hc. split; [done|]. intros ?. done.
Qed.

(** A new key goes last. *)
Lemma dict_set_fresh k v d : dict_get k d = None -> dict_set k v d = d ++ [(k, v)].
Proof.
  induction d as [|[k' v'] d IH]; simpl; [done|].
  case_decide; [done|]. intros Hd. by rewrite IH.
Qed.

Lemma dict_set_keys_present k v d :
  k ∈ dict_keys d -> dict_keys (dict_set k v d) = dict_keys d.
Proof.
  unfold dict_keys. induction d as [|[k' v'] d IH]; simpl.
  - intros Hin. by apply elem_of_nil in Hin.
  - case_decide as Hk; [done|]. intros [->|Hin]%elem_of_cons; [done|].
    simpl. f_equal. by apply IH.
Qed.

Lemma dict_get_set k k' v d :
  dict_get k (dict_set k' v d) = if decide (k = k') then Some v else dict_get k d.
Proof.
  induction d as [|[k2 v2] d IH]; simpl.
  - by case_decide.
  - destruct (decide (k' = k2)) as [->|Hne]; simpl.
    + by case_decide.
    + rewrite IH. destruct (decide (k = k2)) as [->|]; [|done].
      by rewrite decide_False.
Qed.

Lemma dict_set_NoDup k v d : NoDup (dict_keys d) -> NoDup (dict_keys (dict_set k v d)).
Proof.
  intros Hnd. destruct (decide (k ∈ dict_keys d)) as [Hin|Hn].
  - by rewrite dict_set_keys_present.
  - apply dict_get_None in Hn as Hg. rewrite (dict_set_fresh _ _ _ Hg).
    unfold dict_keys in *. rewrite fmap_app. simpl.
    apply NoDup_app. split; [done|]. split; [|apply NoDup_singleton].
    intros x Hx ->%list_elem_of_singleton. done.
Qed.

Lemma dict_update_NoDup d e : NoDup (dict_keys d) -> NoDup (dict_keys (dict_update d e)).
Proof.
  unfold dict_update. revert d. induction e as [|[k v] e IH]; intros d Hd; simpl.
  - done.
  - apply IH. by apply dict_set_NoDup.
Qed.

(** After [d.update(e)], a key of [e] has its last value in [e]. *)
Lemma dict_get_update k d e :
  dict_get k (dict_update d e) =
    match dict_get k (reverse e) with
    | Some v => Some v
    | None => dict_get k d
    end.
Proof.
  unfold dict_update. revert d. induction e as [|[k' v'] e IH]; intros d; simpl.
  - done.
  - rewrite IH, reverse_cons. clear IH.
    assert (Hsnoc : forall l, dict_get k (l ++ [(k', v')]) =
              match dict_get k l with
              | Some v => Some v
              | None => if decide (k = k') then Some v' else None
              end).
    { intros l. induction l as [|[k2 v2] l IHl]; simpl; [done|].
      destruct (decide (k = k2)); [done|apply IHl]. }
    rewrite Hsnoc, dict_get_set.
    destruct (dict_get k (reverse e)); [done|]. by case_decide.
Qed.

End dict_facts.

(** ** New prompts *)

Lemma digits_of_uint_inj d1 d2 : digits_of_uint d1 = digits_of_uint d2 -> d1 = d2.
Proof.
  revert d2. induction d1; intros []; simpl; intros Heq; try done;
    injection Heq as Heq; f_equal; by apply IHd1.
Qed.

Lemma str_of_nat_inj n m : str_of_nat n = str_of_nat m -> n = m.
Proof.
  intros Heq%digits_of_uint_inj. by apply DecimalNat.Unsigned.to_uint_inj.
Qed.

Lemma prompt_candidate_inj i j :
  (1 <= i)%nat -> (1 <= j)%nat -> prompt_candidate i = prompt_candidate j -> i = j.
Proof.
  intros Hi Hj. unfold prompt_candidate.
  destruct i as [|[|i]], j as [|[|j]]; try lia; try done.
  intros Heq%app_inv_head. injection Heq as Heq. by apply str_of_nat_inj.
Qed.

(** Among the first candidates, one more than the store has entries,
    there is one the store does not hold. *)
Lemma prompt_candidate_free {V} (d : list (list N * V)) :
  exists j, (1 <= j <= S (length d))%nat /\ prompt_candidate j ∉ dict_keys d.
Proof.
  destruct (decide (Forall (fun j => prompt_candidate j ∈ dict_keys d)
                           (seq 1 (S (length d))))) as [Hall|Hex].
  - exfalso.
    assert (Hnd : NoDup (prompt_candidate <$> seq 1 (S (length d)))).
    { apply NoDup_fmap_2_strong; [|apply NoDup_seq].
      intros i j Hi%elem_of_seq Hj%elem_of_seq. apply prompt_candidate_inj; lia. }
    assert (Hsub : prompt_candidate <$> seq 1 (S (length d)) ⊆ dict_keys d).
    { intros x (j & -> & Hj)%list_elem_of_fmap.
      by apply (proj1 (Forall_forall _ _) Hall). }
    pose proof (submseteq_length _ _ (NoDup_submseteq _ _ Hnd Hsub)) as Hlen.
    unfold dict_keys in Hlen. rewrite !length_fmap, length_seq in Hlen. lia.
  - apply not_Forall_Exists in Hex; [|apply _].
    apply Exists_exists in Hex as (j & Hj%elem_of_seq & Hfree).
    exists j. split; [lia|done].
Qed.

Section prompt_new_facts.
Context `{Runtime}.

Lemma new_prompt_name_spec (store : dict pyobj) (fuel i : nat) :
  (1 <= i)%nat ->
  (exists j, (i <= j <= i + fuel)%nat /\ (prompt_candidate j ∉ dict_keys store)) ->
  exists j, (i <= j <= i + fuel)%nat
    /\ new_prompt_name fuel store (py "New Prompt") (prompt_candidate i) i
       = Some (prompt_candidate j)
    /\ (prompt_candidate j ∉ dict_keys store)
    /\ (forall k, (i <= k < j)%nat -> prompt_candidate k ∈ dict_keys store).
Proof.
  revert i. induction fuel as [|fuel IH]; intros i Hi (j & Hj & Hfree); simpl.
  - assert (j = i) as -> by lia. exists i.
    apply dict_contains_false in Hfree as Hc. rewrite Hc.
    split; [lia|]. split; [done|]. split; [done|]. intros k Hk. lia.
  - destruct (dict_contains (prompt_candidate i) store) eqn:Hc.
    + apply dict_contains_true in Hc.
      assert (j <> i) by (intros ->; done).
      destruct (IH (S i)) as (j' & Hj' & Hn & Hfree' & Hmin);
        [lia|exists j; split; [lia|done]|].
      exists j'. split; [lia|]. split; [|split; [done|]].
      * destruct i as [|i]; [lia|]. exact Hn.
      * intros k Hk. destruct (decide (k = i)) as [->|]; [done|].
        apply Hmin. lia.
    + apply dict_contains_false in Hc.
      exists i. split; [lia|]. split; [done|]. split; [done|]. intros k Hk. lia.
Qed.

(** The menu and the editor leave the store alone and do not raise. *)
Lemma refresh_prompt_menu_prompts (select : str) (w : world) :
  (_refresh_prompt_menu select w).1 = Ok tt
  /\ prompts (app (_refresh_prompt_menu select w).2) = prompts (app w)
  /\ fs (_refresh_prompt_menu select w).2 = fs w.
Proof.
  unfold _refresh_prompt_menu, bind, self, modify, ret. simpl.
  destruct (truthy select && _); simpl; [done|].
  by destruct (negb _).
Qed.

Lemma load_prompt_to_editor_prompts (w : world) :
  (_load_prompt_to_editor w).1 = Ok tt
  /\ prompts (app (_load_prompt_to_editor w).2) = prompts (app w)
  /\ fs (_load_prompt_to_editor w).2 = fs w.
Proof. done. Qed.

(** What [_prompt_new] does, given the name its loop ends on. *)
Lemma prompt_new_run (w : world) (name : str) :
  new_prompt_name (length (prompts (app w))) (prompts (app w))
    (py "New Prompt") (py "New Prompt") 1 = Some name ->
  exists w', _prompt_new w = Some (Ok tt, w')
    /\ prompts (app w') = dict_set name new_prompt_body (prompts (app w))
    /\ fs w' = fs w.
Proof.
  intros Hname. unfold _prompt_new. rewrite Hname. cbn [mbind option_bind].
  set (f := with_app (fun a => with_prompts
                 (dict_set name (PyStr (py "Write your prompt here‚Ä¶")) (prompts a)) a)).
  change ((modify f ;; _refresh_prompt_menu name ;; _load_prompt_to_editor) w)
    with ((_refresh_prompt_menu name ;; _load_prompt_to_editor) (f w)).
  unfold bind.
  destruct (refresh_prompt_menu_prompts name (f w)) as (Hr & Hp & Hf).
  destruct (_refresh_prompt_menu name (f w)) as [r w2]. simpl in Hr, Hp, Hf. subst r.
  destruct (load_prompt_to_editor_prompts w2) as (Hr' & Hp' & Hf').
  destruct (_load_prompt_to_editor w2) as [r w3]. simpl in Hr', Hp', Hf'. subst r.
  exists w3. split; [done|]. rewrite Hp', Hp, Hf', Hf. done.
Qed.

(** One call of [_prompt_new]: it ends, appends one entry under the first
    free name, and does not touch the files. *)
Lemma prompt_new_appends (w : world) :
  exists (j : nat) (w' : world),
    (1 <= j)%nat
    /\ _prompt_new w = Some (Ok tt, w')
    /\ (prompt_candidate j ∉ dict_keys (prompts (app w)))
    /\ (forall i, (1 <= i < j)%nat -> prompt_candidate i ∈ dict_keys (prompts (app w)))
    /\ prompts (app w') = prompts (app w) ++ [(prompt_candidate j, new_prompt_body)]
    /\ fs w' = fs w.
Proof.
  destruct (new_prompt_name_spec (prompts (app w)) (length (prompts (app w))) 1)
    as (j & Hj & Hname & Hfree & Hmin); [lia| |].
  { destruct (prompt_candidate_free (prompts (app w))) as (j & Hj & Hfree).
    exists j. split; [lia|done]. }
  destruct (prompt_new_run w _ Hname) as (w' & Hrun & Hp & Hfs).
  exists j, w'. split; [lia|]. do 3 (split; [done|]). split; [|done].
  rewrite Hp. apply dict_set_fresh. by apply dict_get_None.
Qed.

(** C7.  Whatever the store holds, [_prompt_new] ends and adds one entry
    under a key the store did not have: [New Prompt] if it is free, else
    the first free [New Prompt i], i = 2, 3, ...  Every entry of the store
    stays as it was; and a second call adds a second entry under another
    key. *)
Theorem prompt_new_fresh_key (w : world) :
  exists (j : nat) (w' : world),
    (1 <= j)%nat
    /\ _prompt_new w = Some (Ok tt, w')
    /\ (prompt_candidate j ∉ dict_keys (prompts (app w)))
    /\ (forall i, (1 <= i < j)%nat -> prompt_candidate i ∈ dict_keys (prompts (app w)))
    /\ prompts (app w') = prompts (app w) ++ [(prompt_candidate j, new_prompt_body)]
    /\ exists (j' : nat) (w'' : world),
         _prompt_new w' = Some (Ok tt, w'')
         /\ prompt_candidate j' <> prompt_candidate j
         /\ prompts (app w'')
            = prompts (app w) ++ [(prompt_candidate j, new_prompt_body);
                                  (prompt_candidate j', new_prompt_body)].
Proof.
  destruct (prompt_new_appends w) as (j & w' & Hj & Hrun & Hfree & Hmin & Hp & _).
  exists j, w'. do 5 (split; [done|]).
  destruct (prompt_new_appends w') as (j' & w'' & Hj' & Hrun' & Hfree' & _ & Hp' & _).
  exists j', w''. split; [done|]. split.
  - intros Heq. apply Hfree'. rewrite Heq, Hp. unfold dict_keys.
    rewrite fmap_app. apply elem_of_app. right. apply list_elem_of_here.
  - rewrite Hp', Hp. by rewrite <- (assoc_L (++)).
Qed.

End prompt_new_facts.

(** ** The order of [str] and sorting *)

Lemma str_leb_refl a : str_leb a a = true.
Proof.
  induction a as [|x a IH]; simpl; [done|].
  rewrite N.eqb_refl, IH. by rewrite orb_true_r.
Qed.

Lemma str_leb_total a b : str_leb a b = true \/ str_leb b a = true.
Proof.
  revert b. induction a as [|x a IH]; intros [|y b]; simpl; auto.
  destruct (N.ltb_spec x y); [by left|].
  destruct (N.ltb_spec y x); [by right|].
  assert (x = y) as -> by lia. rewrite N.eqb_refl. simpl. apply IH.
Qed.

Lemma str_leb_trans a b c :
  str_leb a b = true -> str_leb b c = true -> str_leb a c = true.
Proof.
  revert b c. induction a as [|x a IH]; intros [|y b] [|z c]; simpl; try done.
  intros [Hxy|[Hxy Hab]%andb_prop]%orb_prop [Hyz|[Hyz Hbc]%andb_prop]%orb_prop.
  - apply N.ltb_lt in Hxy, Hyz. apply orb_true_intro. left. apply N.ltb_lt. lia.
  - apply N.ltb_lt in Hxy. apply N.eqb_eq in Hyz as <-.
    apply orb_true_intro. left. by apply N.ltb_lt.
  - apply N.eqb_eq in Hxy as ->. by rewrite Hyz.
  - apply N.eqb_eq in Hxy as ->. apply N.eqb_eq in Hyz as ->.
    rewrite N.eqb_refl, (IH b c Hab Hbc). by rewrite orb_true_r.
Qed.

Lemma str_leb_antisym a b : str_leb a b = true -> str_leb b a = true -> a = b.
Proof.
  revert b. induction a as [|x a IH]; intros [|y b]; simpl; try done.
  intros [Hxy|[Hxy Hab]%andb_prop]%orb_prop [Hyx|[Hyx Hba]%andb_prop]%orb_prop.
  - apply N.ltb_lt in Hxy, Hyx. lia.
  - apply N.ltb_lt in Hxy. apply N.eqb_eq in Hyx. lia.
  - apply N.ltb_lt in Hyx. apply N.eqb_eq in Hxy. lia.
  - apply N.eqb_eq in Hxy as ->. f_equal. by apply IH.
Qed.

Global Instance str_le_total : Total str_le.
Proof. intros a b. apply str_leb_total. Qed.
Global Instance str_le_trans : Transitive str_le.
Proof. intros a b c. apply str_leb_trans. Qed.
Global Instance str_le_antisym : AntiSymm (=) str_le.
Proof. intros a b. apply str_leb_antisym. Qed.
Global Instance str_le_refl : Reflexive str_le.
Proof. intros a. apply str_leb_refl. Qed.

Lemma sorted_Sorted l : Sorted str_le (sorted l).
Proof. apply (Sorted_merge_sort str_le). Qed.

Lemma sorted_Permutation l : sorted l ≡ₚ l.
Proof. apply (merge_sort_Permutation str_le). Qed.

(** There is one sorted arrangement of a list: [sorted] is specified by
    its result, whatever the algorithm. *)
Lemma sorted_unique l k : Sorted str_le k -> k ≡ₚ l -> sorted l = k.
Proof.
  intros Hk Hp. apply (Sorted_unique str_le); [apply sorted_Sorted|done|].
  by rewrite sorted_Permutation.
Qed.

Lemma sorted_fixed l : Sorted str_le l -> sorted l = l.
Proof. intros Hl. by apply sorted_unique. Qed.

Lemma sorted_NoDup l : NoDup l -> NoDup (sorted l).
Proof. intros Hl. by rewrite sorted_Permutation. Qed.

Lemma elem_of_sorted x l : x ∈ sorted l <-> x ∈ l.
Proof. by rewrite sorted_Permutation. Qed.

Lemma sorted_set_Sorted l : Sorted str_le (sorted_set l).
Proof. apply sorted_Sorted. Qed.

Lemma sorted_set_NoDup l : NoDup (sorted_set l).
Proof. apply sorted_NoDup, NoDup_elements. Qed.

Lemma elem_of_sorted_set x l : x ∈ sorted_set l <-> x ∈ l.
Proof.
  unfold sorted_set. by rewrite elem_of_sorted, elem_of_elements, elem_of_list_to_set.
Qed.

(** [sorted(set(l))] depends on the elements of [l] only. *)
Lemma sorted_set_ext l k : (forall x, x ∈ l <-> x ∈ k) -> sorted_set l = sorted_set k.
Proof.
  intros Hlk. unfold sorted_set. f_equal. f_equal.
  apply set_eq. intros x. by rewrite !elem_of_list_to_set.
Qed.

Lemma sorted_set_fixed l : Sorted str_le l -> NoDup l -> sorted_set l = l.
Proof.
  intros Hs Hn. unfold sorted_set. apply sorted_unique; [done|].
  symmetry. by apply elements_list_to_set.
Qed.

(** ** The provider catalogue *)

Section catalogue_facts.
Context `{Runtime}.

Lemma dict_update_nil_NoDup {V} (l : list (list N * V)) :
  NoDup (dict_keys l) -> dict_update [] l = l.
Proof.
  unfold dict_update.
  assert (Hgen : forall d, NoDup (dict_keys (d ++ l)) ->
            foldl (fun acc kv => dict_set kv.1 kv.2 acc) d l = d ++ l).
  { induction l as [|[k v] l IH]; intros d Hd; simpl.
    - by rewrite app_nil_r.
    - rewrite dict_set_fresh.
      + rewrite IH; rewrite <- (assoc_L (++)); done.
      + apply dict_get_None. unfold dict_keys in *.
        rewrite fmap_app in Hd. apply NoDup_app in Hd as (_ & Hd & _).
        intros Hk. apply (Hd k Hk). simpl. apply list_elem_of_here. }
  intros Hl. by apply (Hgen []).
Qed.

Lemma dict_keys_set {V} k (v : V) d :
  dict_keys (dict_set k v d) = if decide (k ∈ dict_keys d) then dict_keys d
                               else dict_keys d ++ [k].
Proof.
  case_decide as Hk.
  - by apply dict_set_keys_present.
  - rewrite dict_set_fresh by by apply dict_get_None.
    unfold dict_keys. by rewrite fmap_app.
Qed.

Lemma dict_get_fmap {V W} (f : V -> W) k (d : list (list N * V)) :
  dict_get k (prod_map id f <$> d) = f <$> dict_get k d.
Proof.
  induction d as [|[k' v'] d IH]; simpl; [done|]. by case_decide.
Qed.

Lemma dict_keys_fmap {V W} (f : V -> W) (d : list (list N * V)) :
  dict_keys (prod_map id f <$> d) = dict_keys d.
Proof.
  unfold dict_keys. rewrite <- list_fmap_compose. apply list_fmap_ext.
  by intros i [k v].
Qed.

Lemma dict_get_setdefault_extend k k' more d :
  dict_get k' (setdefault_extend k more d) =
    if decide (k' = k) then Some (default [] (dict_get k d) ++ more)
    else dict_get k' d.
Proof.
  unfold setdefault_extend. destruct (dict_get k d) as [l|] eqn:Hk;
    rewrite dict_get_set; by case_decide.
Qed.

Lemma dict_keys_setdefault_extend k more d :
  dict_keys (setdefault_extend k more d) =
    if decide (k ∈ dict_keys d) then dict_keys d else dict_keys d ++ [k].
Proof.
  unfold setdefault_extend. destruct (dict_get k d); apply dict_keys_set.
Qed.

Lemma setdefault_extend_NoDup k more d :
  NoDup (dict_keys d) -> NoDup (dict_keys (setdefault_extend k more d)).
Proof.
  unfold setdefault_extend. destruct (dict_get k d); apply dict_set_NoDup.
Qed.

(** Reading the values of known keys never fails. *)
Lemma mapM_getitem {V} (d : list (list N * V)) (ks : list (list N)) :
  (forall k, k ∈ ks -> k ∈ dict_keys d) ->
  exists vs, mapM (fun k => v ← dict_getitem k d; Ok (k, v)) ks = Ok vs
    /\ vs.*1 = ks
    /\ (forall k v, (k, v) ∈ vs -> dict_get k d = Some v).
Proof.
  set (f := fun k => v ← dict_getitem k d; Ok (k, v)).
  induction ks as [|k ks IH]; intros Hks.
  - exists []. split; [done|]. split; [done|]. intros k v Hin.
    by apply elem_of_nil in Hin.
  - destruct IH as (vs & Hvs & Hfst & Hget).
    { intros k' Hk'. apply Hks. by apply list_elem_of_further. }
    change (mapM f (k :: ks)) with (y ← f k; r ← mapM f ks; mret (y :: r)).
    rewrite Hvs. unfold f at 1. unfold dict_getitem.
    destruct (dict_get k d) as [v|] eqn:Hk.
    + exists ((k, v) :: vs). split; [done|]. split; [by rewrite fmap_cons, Hfst|].
      intros k' v' [[= -> ->]|Hin]%elem_of_cons; [done|by apply Hget].
    + apply dict_get_None in Hk. exfalso. apply Hk, Hks, list_elem_of_here.
Qed.

Lemma pairs_of_keys {V} (g : list N -> V) (vs : list (list N * V)) :
  (forall k v, (k, v) ∈ vs -> v = g k) -> vs = (fun k => (k, g k)) <$> vs.*1.
Proof.
  induction vs as [|[k v] vs IH]; intros Hg; [done|].
  rewrite !fmap_cons. simpl. f_equal.
  - f_equal. apply Hg, list_elem_of_here.
  - apply IH. intros k' v' Hin. by apply Hg, list_elem_of_further.
Qed.

Lemma dict_get_pairs_of_keys {V} (g : list N -> V) (ks : list (list N)) k :
  dict_get k ((fun k => (k, g k)) <$> ks) = if decide (k ∈ ks) then Some (g k) else None.
Proof.
  induction ks as [|k' ks IH]; [done|].
  rewrite fmap_cons. cbn [dict_get].
  destruct (decide (k = k')) as [->|Hne].
  - rewrite decide_True; [done|apply list_elem_of_here].
  - rewrite IH. destruct (decide (k ∈ ks)) as [Hin|Hn].
    + by rewrite decide_True by by apply list_elem_of_further.
    + rewrite decide_False; [done|]. by intros [?|?]%elem_of_cons.
Qed.

Lemma dict_keys_reverse {V} (d : list (list N * V)) k :
  k ∈ dict_keys (reverse d) <-> k ∈ dict_keys d.
Proof. unfold dict_keys. rewrite fmap_reverse. apply elem_of_reverse. Qed.

Lemma dict_keys_update_nil {V} (e : list (list N * V)) k :
  k ∈ dict_keys (dict_update [] e) <-> k ∈ dict_keys e.
Proof.
  rewrite <- (dict_keys_reverse e).
  split; intros Hk; apply dict_contains_true; apply dict_contains_true in Hk;
    unfold dict_contains in *; rewrite dict_get_update in *;
    by destruct (dict_get k (reverse e)).
Qed.

(** The map [merged_providers] sorts, by its keys and its values: the
    keys of the configuration and the three providers of its own; for
    each, the configured models followed by the models of its own. *)
Lemma merged_providers_eq cfg :
  exists ks,
    NoDup ks
    /\ (forall k, k ∈ ks <->
          k ∈ dict_keys (dict_update [] cfg) \/ k = py "OpenAI"
          \/ k = py "Anthropic" \/ k = py "Gemini")
    /\ (NoDup (dict_keys cfg) ->
        py "OpenAI" ∈ dict_keys cfg -> py "Anthropic" ∈ dict_keys cfg ->
        py "Gemini" ∈ dict_keys cfg -> ks = dict_keys cfg)
    /\ merged_providers cfg =
         Ok ((fun k => (k, sorted_set
                (default [] (dict_get k (dict_update [] cfg)) ++ builtin_models k)))
             <$> sorted ks).
Proof.
  unfold merged_providers. cbv zeta.
  set (p1 := dict_update [] cfg).
  set (pa := setdefault_extend (py "OpenAI") _ p1).
  set (pb := setdefault_extend (py "Anthropic") _ pa).
  set (p2 := setdefault_extend (py "Gemini") _ pb).
  assert (Hnd : NoDup (dict_keys p2)).
  { do 3 apply setdefault_extend_NoDup. by apply dict_update_NoDup, NoDup_nil. }
  assert (Hget : forall k, dict_get k p2 =
            if decide (k ∈ dict_keys p2)
            then Some (default [] (dict_get k p1) ++ builtin_models k) else None).
  { intros k. case_decide as Hin; [|by apply dict_get_None].
    unfold p2, pb, pa, builtin_models in *.
    rewrite !dict_get_setdefault_extend.
    rewrite !dict_keys_setdefault_extend in Hin.
    destruct (decide (k = py "OpenAI")) as [->|Ho]; [done|].
    destruct (decide (k = py "Anthropic")) as [->|Ha]; [done|].
    destruct (decide (k = py "Gemini")) as [->|Hg]; [done|].
    assert (Hk : k ∈ dict_keys p1).
    { repeat case_decide; repeat (apply elem_of_app in Hin as [Hin|Hin%list_elem_of_singleton]; [|done]); done. }
    apply dict_contains_true in Hk. unfold dict_contains in Hk.
    destruct (dict_get k p1); [|done]. by rewrite app_nil_r. }
  exists (dict_keys p2). split; [done|]. split; [|split].
  - intros k. unfold p2, pb, pa. rewrite !dict_keys_setdefault_extend.
    assert (py "OpenAI" <> py "Anthropic") by by vm_compute.
    assert (py "OpenAI" <> py "Gemini") by by vm_compute.
    assert (py "Anthropic" <> py "Gemini") by by vm_compute.
    repeat case_decide;
      repeat match goal with
             | Hx : context [_ ∈ _ ++ _] |- _ => rewrite elem_of_app in Hx
             | Hx : context [_ ∈ [_]] |- _ => rewrite list_elem_of_singleton in Hx
             end;
      rewrite ?elem_of_app, ?list_elem_of_singleton; intuition congruence.
  - intros Hc Ho Ha Hg. unfold p2, pb, pa, p1.
    rewrite !dict_keys_setdefault_extend, (dict_update_nil_NoDup _ Hc).
    rewrite (decide_True (P := py "OpenAI" ∈ dict_keys cfg)) by done.
    rewrite (decide_True (P := py "Anthropic" ∈ dict_keys cfg)) by done.
    by rewrite (decide_True (P := py "Gemini" ∈ dict_keys cfg)) by done.
  - destruct (mapM_getitem (prod_map id sorted_set <$> p2) (sorted (dict_keys (prod_map id sorted_set <$> p2))))
      as (vs & -> & Hfst & Hvs).
    { intros k. by rewrite elem_of_sorted. }
    f_equal. rewrite dict_keys_fmap in Hfst. rewrite <- Hfst. apply pairs_of_keys.
    intros k v Hin. apply Hvs in Hin as Hv. rewrite dict_get_fmap, Hget in Hv.
    case_decide; [|done]. by injection Hv as <-.
Qed.

(** On values: the names of the result are sorted and distinct, the model
    lists are sorted and without duplicates, and the result is a fixed
    point. *)
Lemma merged_providers_value_sorted
    (CONFIG_PROVIDERS : list (list N * list (list N))) :
  exists res,
    merged_providers CONFIG_PROVIDERS = Ok res
    /\ Sorted str_le res.*1 /\ NoDup res.*1
    /\ Forall (fun kv => Sorted str_le kv.2 /\ NoDup kv.2) res
    /\ merged_providers res = Ok res.
Proof.
  destruct (merged_providers_eq CONFIG_PROVIDERS) as (ks & Hnd & Hks & _ & Hres).
  set (p1 := dict_update [] CONFIG_PROVIDERS) in *.
  set (F := fun k => (k, sorted_set (default [] (dict_get k p1) ++ builtin_models k))) in *.
  exists (F <$> sorted ks).
  assert (Hfst : (F <$> sorted ks).*1 = sorted ks).
  { rewrite <- list_fmap_compose. apply list_fmap_id. }
  split; [done|]. rewrite Hfst.
  split; [apply sorted_Sorted|]. split; [by apply sorted_NoDup|]. split.
  { apply Forall_fmap, Forall_forall. intros k _. simpl.
    split; [apply sorted_set_Sorted|apply sorted_set_NoDup]. }
  destruct (merged_providers_eq (F <$> sorted ks)) as (ks' & _ & _ & Hks' & ->).
  assert (Hin : forall k, k = py "OpenAI" \/ k = py "Anthropic" \/ k = py "Gemini" ->
            k ∈ sorted ks).
  { intros k Hk. apply elem_of_sorted, Hks. by right. }
  unfold dict_keys in Hks'. rewrite Hfst in Hks'.
  rewrite Hks'; [|by apply sorted_NoDup|apply Hin; tauto..].
  rewrite (sorted_fixed (sorted ks)) by apply sorted_Sorted.
  rewrite dict_update_nil_NoDup
    by (unfold dict_keys; rewrite Hfst; by apply sorted_NoDup).
  f_equal. apply list_fmap_ext. intros i k Hk%list_elem_of_lookup_2.
  unfold F at 2. f_equal. unfold F. rewrite dict_get_pairs_of_keys.
  rewrite decide_True by done. simpl.
  apply sorted_set_ext. intros x.
  rewrite elem_of_app, elem_of_sorted_set, elem_of_app. tauto.
Qed.

(** Without configuration, the catalogue is the providers' own lists. *)
Lemma merged_providers_nil :
  merged_providers [] = Ok [
    (py "Anthropic", [py "claude-3-haiku"; py "claude-3-opus"; py "claude-3.5-sonnet"]);
    (py "Gemini", [py "gemini-1.5-flash"; py "gemini-1.5-pro"]);
    (py "OpenAI", [py "gpt-4.1-mini"; py "gpt-4o"; py "gpt-4o-mini"; py "o3-mini"])].
Proof. vm_compute. reflexivity. Qed.

(** With the list of [config.py]. *)
Lemma merged_providers_config :
  merged_providers PROVIDERS = Ok [
    (py "Anthropic", [py "claude-3-5-sonnet-20240620"; py "claude-3-haiku";
                      py "claude-3-opus"; py "claude-3-opus-20240229";
                      py "claude-3.5-sonnet"]);
    (py "Gemini", [py "gemini-1.5-flash"; py "gemini-1.5-pro"]);
    (py "OpenAI", [py "gpt-4.1-mini"; py "gpt-4o"; py "gpt-4o-mini"; py "o3-mini"])].
Proof. vm_compute. reflexivity. Qed.

(** ** The catalogue and the objects it is given *)

Lemma deref_alloc_old h l r : (r < length h)%nat -> deref (h ++ [l]) r = deref h r.
Proof. intros Hr. unfold deref. by rewrite lookup_app_l. Qed.

Lemma deref_alloc_new h l : deref (h ++ [l]) (length h) = l.
Proof. unfold deref. by rewrite list_lookup_middle. Qed.

Lemma deref_prefix h0 h r : h0 `prefix_of` h -> (r < length h0)%nat -> deref h r = deref h0 r.
Proof. intros [t ->] Hr. unfold deref. by rewrite lookup_app_l. Qed.

Lemma view_ext h h' d :
  Forall (fun kv => deref h' kv.2 = deref h kv.2) d -> view h' d = view h d.
Proof.
  unfold view. induction 1 as [|[k r] d Hr _ IH]; [done|].
  rewrite !fmap_cons. f_equal; [|exact IH]. unfold prod_map. simpl in *. by rewrite Hr.
Qed.

Lemma view_dict_set h k r d :
  view h (dict_set k r d) = dict_set k (deref h r) (view h d).
Proof.
  unfold view. induction d as [|[k' r'] d IH]; simpl; [done|].
  destruct (decide (k = k')); simpl; [done|]. f_equal. exact IH.
Qed.

Lemma dict_set_values {V} k (v : V) (d : list (list N * V)) x :
  x ∈ (dict_set k v d).*2 -> x = v \/ x ∈ d.*2.
Proof.
  induction d as [|[k' v'] d IH]; simpl.
  - intros ->%list_elem_of_singleton. by left.
  - destruct (decide (k = k')); simpl.
    + intros [-> | Hx]%elem_of_cons; [by left|]. right. by apply list_elem_of_further.
    + intros [-> | Hx]%elem_of_cons; [right; apply list_elem_of_here|].
      destruct (IH Hx); [by left|]. right. by apply list_elem_of_further.
Qed.

Lemma dict_set_values_NoDup {V} k (v : V) (d : list (list N * V)) :
  v ∉ d.*2 -> NoDup d.*2 -> NoDup (dict_set k v d).*2.
Proof.
  induction d as [|[k' v'] d IH]; simpl; intros Hv Hd.
  - apply NoDup_singleton.
  - apply NoDup_cons in Hd as [Hv' Hd].
    apply not_elem_of_cons in Hv as [Hne Hv].
    destruct (decide (k = k')); simpl.
    + apply NoDup_cons. by split.
    + apply NoDup_cons. split; [|by apply IH].
      intros [-> | Hx]%dict_set_values; done.
Qed.

Lemma dict_set_Forall {V} (P : list N * V -> Prop) k (v : V) (d : list (list N * V)) :
  (forall k', P (k', v)) -> Forall P d -> Forall P (dict_set k v d).
Proof.
  intros Hv. induction 1 as [|[k' v'] d Hkv Hd IH]; simpl.
  - by apply Forall_singleton.
  - destruct (decide (k = k')); apply Forall_cons; split; auto.
Qed.

Lemma owns_alloc h0 h d l : owns h0 h d -> owns h0 (h ++ [l]) d.
Proof.
  intros (Hp & Hd & Hn). split; [by apply prefix_app_r|]. split; [|done].
  eapply Forall_impl; [exact Hd|]. intros kv. rewrite length_app. simpl. lia.
Qed.

Lemma owns_view_alloc h0 h d l : owns h0 h d -> view (h ++ [l]) d = view h d.
Proof.
  intros (_ & Hd & _). apply view_ext.
  eapply Forall_impl; [exact Hd|]. intros kv Hkv. simpl in Hkv. apply deref_alloc_old. lia.
Qed.

(** A new object under [k]. *)
Lemma owns_dict_set_alloc h0 h d k l :
  owns h0 h d ->
  owns h0 (h ++ [l]) (dict_set k (length h) d)
  /\ view (h ++ [l]) (dict_set k (length h) d) = dict_set k l (view h d).
Proof.
  intros Ho. pose proof Ho as (Hp & Hd & Hn). split.
  - split; [by apply prefix_app_r|]. split.
    + apply dict_set_Forall.
      * intros k'. simpl. rewrite length_app. simpl.
        apply prefix_length in Hp. lia.
      * eapply Forall_impl; [exact Hd|]. intros kv. rewrite length_app. simpl. lia.
    + apply dict_set_values_NoDup; [|done].
      intros Hin. apply list_elem_of_fmap in Hin as ([k' r] & Hr & Hin). simpl in Hr.
      subst r. rewrite Forall_forall in Hd. apply Hd in Hin. simpl in Hin. lia.
  - rewrite view_dict_set, deref_alloc_new. f_equal. by apply (owns_view_alloc h0).
Qed.

Lemma copy_models_owns h0 cfg : forall d h,
  Forall (fun kv => (kv.2 < length h0)%nat) cfg ->
  owns h0 h d ->
  owns h0 (foldl copy_model (d, h) cfg).2 (foldl copy_model (d, h) cfg).1
  /\ view (foldl copy_model (d, h) cfg).2 (foldl copy_model (d, h) cfg).1
     = dict_update (view h d) (view h0 cfg).
Proof.
  induction cfg as [|[k r] cfg IH]; intros d h Hcfg Ho; [done|].
  apply Forall_cons in Hcfg as [Hr Hcfg]. simpl in Hr.
  change (foldl copy_model (d, h) ((k, r) :: cfg))
    with (foldl copy_model (dict_set k (length h) d, h ++ [deref h r]) cfg).
  destruct (owns_dict_set_alloc h0 h d k (deref h r) Ho) as [Ho' Hv'].
  destruct (IH _ _ Hcfg Ho') as [Ho'' Hv'']. split; [exact Ho''|].
  rewrite Hv'', Hv'. destruct Ho as (Hp & _).
  by rewrite (deref_prefix h0 h r Hp Hr).
Qed.

Lemma deref_insert h r x r' :
  (r < length h)%nat ->
  deref (<[r := x]> h) r' = if decide (r' = r) then x else deref h r'.
Proof.
  intros Hr. unfold deref. destruct (decide (r' = r)) as [->|Hne].
  - by rewrite list_lookup_insert_eq.
  - by rewrite list_lookup_insert_ne.
Qed.

(** A change of the object under [k] is a change of the value under [k],
    and of no other: no other reference is to this object. *)
Lemma view_insert h r x k d :
  (r < length h)%nat -> NoDup d.*2 -> dict_get k d = Some r ->
  view (<[r := x]> h) d = dict_set k x (view h d).
Proof.
  intros Hr. unfold view. induction d as [|[k' r'] d IH]; [done|].
  rewrite !fmap_cons. intros [Hn Hd]%NoDup_cons. cbn [dict_get dict_set prod_map fst snd id].
  destruct (decide (k = k')) as [->|Hne].
  - intros [= ->]. f_equal.
    + by rewrite deref_insert, decide_True.
    + apply view_ext. apply Forall_forall. intros [k1 r1] Hin. simpl.
      rewrite deref_insert by done. rewrite decide_False; [done|].
      intros ->. apply Hn. apply list_elem_of_fmap. by exists (k1, r).
  - intros Hget. f_equal; [|by apply IH].
    rewrite deref_insert by done. rewrite decide_False; [done|].
    intros ->. apply Hn. apply list_elem_of_fmap. exists (k, r).
    split; [done|]. by apply dict_get_Some_elem.
Qed.

Lemma setdefault_extend_obj_owns h0 k more d h :
  owns h0 h d ->
  owns h0 (setdefault_extend_obj k more (d, h)).2 (setdefault_extend_obj k more (d, h)).1
  /\ view (setdefault_extend_obj k more (d, h)).2 (setdefault_extend_obj k more (d, h)).1
     = setdefault_extend k more (view h d).
Proof.
  intros Ho. pose proof Ho as (Hp & Hd & Hn).
  unfold setdefault_extend_obj, setdefault_extend, view at 2.
  rewrite dict_get_fmap. cbn [fst snd].
  destruct (dict_get k d) as [r|] eqn:Hget; cbn [fmap option_fmap option_map alloc fst snd].
  - apply dict_get_Some_elem in Hget as Hin.
    rewrite Forall_forall in Hd. pose proof (Hd _ Hin) as Hr. simpl in Hr.
    unfold extend. split; [|by apply view_insert; [lia|..]].
    split; [|split; [|done]].
    + destruct Hp as [t ->]. rewrite insert_app_r_alt by lia. by apply prefix_app_r.
    + apply Forall_forall. intros kv Hkv. rewrite length_insert. by apply Hd.
  - assert (Hext : extend (length h) more (h ++ [[]]) = h ++ [more]).
    { unfold extend. rewrite deref_alloc_new, insert_app_r_alt by lia.
      by rewrite Nat.sub_diag. }
    rewrite Hext. by apply owns_dict_set_alloc.
Qed.

Lemma sort_models_owns h0 keys : forall d h,
  owns h0 h d -> (forall k, k ∈ keys -> k ∈ dict_keys d) ->
  exists d' h',
    sort_models keys d h = (Ok d', h')
    /\ owns h0 h' d'
    /\ view h' d' = foldl sort_step (view h d) keys
    /\ dict_keys d' = dict_keys d.
Proof.
  induction keys as [|k keys IH]; intros d h Ho Hkeys.
  - by exists d, h.
  - assert (Hk : k ∈ dict_keys d) by apply Hkeys, list_elem_of_here.
    cbn [sort_models foldl]. unfold dict_getitem.
    destruct (dict_get k d) as [r|] eqn:Hget; [|by apply dict_get_None in Hget].
    cbn [alloc].
    destruct (owns_dict_set_alloc h0 h d k (sorted_set (deref h r)) Ho) as [Ho' Hv'].
    destruct (IH (dict_set k (length h) d) (h ++ [sorted_set (deref h r)]) Ho')
      as (d' & h' & Hrun & Ho'' & Hv'' & Hks).
    { intros k' Hk'. rewrite dict_set_keys_present by done.
      by apply Hkeys, list_elem_of_further. }
    exists d', h'. split; [done|]. split; [done|]. split.
    + rewrite Hv'', Hv'. f_equal. unfold sort_step, view.
      by rewrite dict_get_fmap, Hget.
    + by rewrite Hks, dict_set_keys_present.
Qed.

Lemma dict_get_app {V} k (d e : list (list N * V)) :
  dict_get k (d ++ e) = match dict_get k d with Some v => Some v | None => dict_get k e end.
Proof.
  induction d as [|[k' v'] d IH]; simpl; [done|]. by destruct (decide (k = k')).
Qed.

Lemma dict_set_app_r {V} k (v : V) (d e : list (list N * V)) :
  dict_get k d = None -> dict_set k v (d ++ e) = d ++ dict_set k v e.
Proof.
  induction d as [|[k' v'] d IH]; simpl; [done|].
  destruct (decide (k = k')); [done|]. intros Hd. by rewrite IH.
Qed.

(** The loop that sorts goes through every entry once. *)
Lemma sort_step_all post : forall pre,
  NoDup (dict_keys (pre ++ post)) ->
  foldl sort_step (pre ++ post) (dict_keys post)
  = pre ++ (prod_map id sorted_set <$> post).
Proof.
  induction post as [|[k v] post IH]; intros pre Hnd; [done|].
  cbn [dict_keys fmap list_fmap foldl fst].
  assert (Hpre : dict_get k pre = None).
  { apply dict_get_None. unfold dict_keys in *. rewrite fmap_app in Hnd.
    apply NoDup_app in Hnd as (_ & Hdis & _). intros Hin.
    apply (Hdis k Hin). apply list_elem_of_here. }
  assert (Hstep : sort_step (pre ++ (k, v) :: post) k
                  = (pre ++ [(k, sorted_set v)]) ++ post).
  { unfold sort_step. rewrite dict_get_app, Hpre. simpl.
    rewrite decide_True by done. rewrite dict_set_app_r by done. simpl.
    rewrite decide_True by done. by rewrite <- (assoc_L (++)). }
  rewrite Hstep. change (list_fmap _ _ fst post) with (dict_keys post).
  rewrite IH.
  - by rewrite <- (assoc_L (++)).
  - unfold dict_keys in *. rewrite <- (assoc_L (++)). simpl.
    by rewrite !fmap_app in *.
Qed.

Lemma dict_getitem_view h d k :
  dict_getitem k (view h d)
  = match dict_getitem k d with Ok r => Ok (deref h r) | Raise e => Raise e end.
Proof. unfold dict_getitem, view. rewrite dict_get_fmap. by destruct (dict_get k d). Qed.

Lemma mapM_getitem_view h d ks :
  match mapM (fun k => v ← dict_getitem k d; Ok (k, v)) ks with
  | Ok refs =>
      mapM (fun k => v ← dict_getitem k (view h d); Ok (k, v)) ks = Ok (view h refs)
  | Raise e =>
      mapM (fun k => v ← dict_getitem k (view h d); Ok (k, v)) ks = Raise e
  end.
Proof.
  induction ks as [|k ks IH]; [done|].
  cbn [mapM]. rewrite dict_getitem_view.
  destruct (dict_getitem k d) as [r|e]; cbn [mbind result_bind]; [|done].
  destruct (mapM _ ks) as [refs|e]; rewrite IH; done.
Qed.

(** On objects [merged_providers] returns what it returns on values; every
    object there was before the call is as it was, and the lists of the
    result are objects made by the call. *)
Lemma merged_providers_obj_refines cfg h :
  Forall (fun kv => (kv.2 < length h)%nat) cfg ->
  exists refs h',
    merged_providers_obj cfg h = (Ok refs, h')
    /\ h `prefix_of` h'
    /\ Forall (fun kv => (length h <= kv.2 < length h')%nat) refs
    /\ merged_providers (view h cfg) = Ok (view h' refs).
Proof.
  intros Hcfg. unfold merged_providers_obj, merged_providers, copy_models. cbv zeta.
  assert (Ho0 : owns h h []).
  { split; [done|]. split; [apply Forall_nil_2|apply NoDup_nil_2]. }
  destruct (copy_models_owns h cfg [] h Hcfg Ho0) as [Ho1 Hv1].
  destruct (foldl copy_model ([], h) cfg) as [d1 h1]. cbn [fst snd] in Ho1, Hv1.
  change (view h []) with (@nil (list N * list (list N))) in Hv1.
  assert (Hnd1 : NoDup (dict_keys (view h1 d1))).
  { rewrite Hv1. by apply dict_update_NoDup, NoDup_nil. }
  rewrite <- Hv1.
  set (m1 := [py "gpt-4o"; py "gpt-4o-mini"; py "o3-mini"; py "gpt-4.1-mini"]).
  set (m2 := [py "claude-3.5-sonnet"; py "claude-3-opus"; py "claude-3-haiku"]).
  set (m3 := [py "gemini-1.5-pro"; py "gemini-1.5-flash"]).
  destruct (setdefault_extend_obj_owns h (py "OpenAI") m1 d1 h1 Ho1) as [Ho2 Hv2].
  destruct (setdefault_extend_obj (py "OpenAI") m1 (d1, h1)) as [d2 h2].
  cbn [fst snd] in Ho2, Hv2. rewrite <- Hv2.
  destruct (setdefault_extend_obj_owns h (py "Anthropic") m2 d2 h2 Ho2) as [Ho3 Hv3].
  destruct (setdefault_extend_obj (py "Anthropic") m2 (d2, h2)) as [d3 h3].
  cbn [fst snd] in Ho3, Hv3. rewrite <- Hv3.
  destruct (setdefault_extend_obj_owns h (py "Gemini") m3 d3 h3 Ho3) as [Ho4 Hv4].
  destruct (setdefault_extend_obj (py "Gemini") m3 (d3, h3)) as [d4 h4].
  cbn [fst snd] in Ho4, Hv4. rewrite <- Hv4.
  assert (Hnd4 : NoDup (dict_keys (view h4 d4))).
  { rewrite Hv4, Hv3, Hv2. by do 3 apply setdefault_extend_NoDup. }
  destruct (sort_models_owns h (dict_keys d4) d4 h4 Ho4) as (d5 & h5 & Hrun & Ho5 & Hv5 & Hk5);
    [done|].
  cbn [fst snd]. rewrite Hrun.
  assert (Hv5' : view h5 d5 = prod_map id sorted_set <$> view h4 d4).
  { rewrite Hv5. rewrite <- (dict_keys_fmap (deref h4) d4).
    change (prod_map id (deref h4) <$> d4) with (view h4 d4).
    by apply (sort_step_all (view h4 d4) []). }
  rewrite <- Hv5'. unfold view at 2. rewrite dict_keys_fmap.
  pose proof (mapM_getitem_view h5 d5 (sorted (dict_keys d5))) as Hview.
  destruct (mapM_getitem d5 (sorted (dict_keys d5))) as (refs & Hrefs & _ & Hin).
  { intros k. by rewrite elem_of_sorted. }
  rewrite Hrefs in Hview |- *.
  exists refs, h5. split; [done|]. destruct Ho5 as (Hp5 & Hd5 & _).
  split; [done|]. split; [|done].
  apply Forall_forall. intros [k r] Hkr. apply Hin, dict_get_Some_elem in Hkr.
  rewrite Forall_forall in Hd5. by apply Hd5 in Hkr.
Qed.

(** C8.  [merged_providers] has no error case: for every configured list
    it returns, and what it returns depends on the values of the
    configuration only.  The result is the merge: its provider names are
    the configured names and the three names of the function's own list,
    and the models of a provider are those of its last entry in the
    configuration together with the function's own models for it, nothing
    lost and nothing added.  The provider names of the result are sorted
    and distinct, the model lists are sorted and without duplicates each,
    so the catalogue is determined by the configuration.  It
    is pure: every object that was there before the call, the lists of the
    configuration among them, is as it was after the call, and the lists
    of the result are new objects.  And it is idempotent: merging the
    result once more gives the same catalogue. *)
Theorem merged_providers_sorted_idempotent
    (CONFIG_PROVIDERS : list (list N * nat)) (h : heap) :
  Forall (fun kv => (kv.2 < length h)%nat) CONFIG_PROVIDERS ->
  exists refs h' res,
    merged_providers_obj CONFIG_PROVIDERS h = (Ok refs, h')
    /\ res = view h' refs
    /\ merged_providers (view h CONFIG_PROVIDERS) = Ok res
    /\ (forall k, k ∈ res.*1 <->
          k ∈ CONFIG_PROVIDERS.*1 \/ k = py "OpenAI" \/ k = py "Anthropic"
          \/ k = py "Gemini")
    /\ (forall k ms, (k, ms) ∈ res ->
          forall m, m ∈ ms <->
            m ∈ default [] (dict_get k (reverse (view h CONFIG_PROVIDERS)))
            \/ m ∈ builtin_models k)
    /\ Sorted str_le res.*1 /\ NoDup res.*1
    /\ Forall (fun kv => Sorted str_le kv.2 /\ NoDup kv.2) res
    /\ h `prefix_of` h'
    /\ Forall (fun kv => (length h <= kv.2)%nat) refs
    /\ exists refs2 h'',
         merged_providers_obj refs h' = (Ok refs2, h'')
         /\ view h'' refs2 = res
         /\ h' `prefix_of` h''.
Proof.
  intros Hcfg.
  destruct (merged_providers_obj_refines CONFIG_PROVIDERS h Hcfg)
    as (refs & h' & Hrun & Hp & Hrefs & Hval).
  destruct (merged_providers_value_sorted (view h CONFIG_PROVIDERS))
    as (res & Hres & Hs & Hn & Hm & Hidem).
  rewrite Hval in Hres. injection Hres as <-.
  exists refs, h', (view h' refs). do 3 (split; [done|]).
  destruct (merged_providers_eq (view h CONFIG_PROVIDERS)) as (ks & _ & Hks & _ & Heq).
  rewrite Hval in Heq. injection Heq as Heq.
  split.
  { intros k.
    assert (Hfst : (view h' refs).*1 = sorted ks).
    { rewrite Heq, <- list_fmap_compose. apply list_fmap_id. }
    assert (Hcfg1 : dict_keys (view h CONFIG_PROVIDERS) = CONFIG_PROVIDERS.*1).
    { unfold dict_keys, view. rewrite <- list_fmap_compose.
      apply list_fmap_ext. by intros ? []. }
    rewrite Hfst, elem_of_sorted, Hks.
    by rewrite (dict_keys_update_nil (view h CONFIG_PROVIDERS) k), Hcfg1. }
  split.
  { intros k ms Hin m. rewrite Heq in Hin.
    apply list_elem_of_fmap in Hin as (k' & [= <- ->] & _).
    rewrite elem_of_sorted_set, elem_of_app, dict_get_update. simpl.
    by destruct (dict_get k (reverse (view h CONFIG_PROVIDERS))). }
  do 3 (split; [done|]). split; [done|]. split.
  { eapply Forall_impl; [exact Hrefs|]. intros kv Hkv. simpl in Hkv. lia. }
  destruct (merged_providers_obj_refines refs h') as (refs2 & h'' & Hrun2 & Hp2 & _ & Hval2).
  { eapply Forall_impl; [exact Hrefs|]. intros kv Hkv. simpl in Hkv. lia. }
  exists refs2, h''. split; [done|]. split; [|done].
  rewrite Hidem in Hval2. by injection Hval2 as <-.
Qed.

End catalogue_facts.

(** Two providers of the configuration share one list object. *)
Lemma merged_providers_sorted_idempotent_witness :
  exists refs h' res,
    merged_providers_obj [(py "OpenAI", 0%nat); (py "Mistral", 0%nat)]
      [[py "gpt-4o"; py "large"; py "gpt-4o"]] = (Ok refs, h')
    /\ res = view h' refs
    /\ merged_providers
         (view [[py "gpt-4o"; py "large"; py "gpt-4o"]]
               [(py "OpenAI", 0%nat); (py "Mistral", 0%nat)]) = Ok res
    /\ (forall k, k ∈ res.*1 <->
          k ∈ [py "OpenAI"; py "Mistral"] \/ k = py "OpenAI" \/ k = py "Anthropic"
          \/ k = py "Gemini")
    /\ (forall k ms, (k, ms) ∈ res ->
          forall m, m ∈ ms <->
            m ∈ default [] (dict_get k
                  [(py "Mistral", [py "gpt-4o"; py "large"; py "gpt-4o"]);
                   (py "OpenAI", [py "gpt-4o"; py "large"; py "gpt-4o"])])
            \/ m ∈ builtin_models k)
    /\ Sorted str_le res.*1 /\ NoDup res.*1
    /\ Forall (fun kv => Sorted str_le kv.2 /\ NoDup kv.2) res
    /\ [[py "gpt-4o"; py "large"; py "gpt-4o"]] `prefix_of` h'
    /\ Forall (fun kv => (1 <= kv.2)%nat) refs
    /\ exists refs2 h'',
         merged_providers_obj refs h' = (Ok refs2, h'')
         /\ view h'' refs2 = res
         /\ h' `prefix_of` h''.
Proof.
  apply (merged_providers_sorted_idempotent
           [(py "OpenAI", 0%nat); (py "Mistral", 0%nat)]
           [[py "gpt-4o"; py "large"; py "gpt-4o"]]).
  repeat constructor.
Defined.

(** The same call, evaluated: the shared list is copied for each provider
    and stays as it was. *)
Lemma merged_providers_obj_shared_list :
  exists refs h',
    merged_providers_obj [(py "OpenAI", 0%nat); (py "Mistral", 0%nat)]
      [[py "gpt-4o"; py "large"; py "gpt-4o"]] = (Ok refs, h')
    /\ deref h' 0 = [py "gpt-4o"; py "large"; py "gpt-4o"]
    /\ view h' refs = [
         (py "Anthropic", [py "claude-3-haiku"; py "claude-3-opus"; py "claude-3.5-sonnet"]);
         (py "Gemini", [py "gemini-1.5-flash"; py "gemini-1.5-pro"]);
         (py "Mistral", [py "gpt-4o"; py "large"]);
         (py "OpenAI", [py "gpt-4.1-mini"; py "gpt-4o"; py "gpt-4o-mini"; py "large";
                        py "o3-mini"])].
Proof. eexists _, _. split; [vm_compute; reflexivity|]. split; vm_compute; reflexivity. Qed.

(** ** UTF-8 *)

Lemma to_N_byte_of_N n : n < 256 -> Byte.to_N (byte_of_N n) = n.
Proof.
  intros Hn. unfold byte_of_N. destruct (Byte.of_N n) as [b|] eqn:Hb.
  - by apply Byte.to_of_N.
  - apply Byte.of_N_None_iff in Hb. lia.
Qed.

Lemma utf8_decode_cons b0 r0 :
  utf8_decode (b0 :: r0) =
      let n0 := Byte.to_N b0 in
      if n0 <? 0x80 then cons n0 <$> utf8_decode r0
      else if n0 <? 0xC0 then None
      else
        match r0 with
        | [] => None
        | b1 :: r1 =>
            let n1 := Byte.to_N b1 in
            if negb (is_cont n1) then None
            else if n0 <? 0xE0 then
              let c := (n0 - 0xC0) * 64 + (n1 - 0x80) in
              if c <? 0x80 then None else cons c <$> utf8_decode r1
            else
              match r1 with
              | [] => None
              | b2 :: r2 =>
                  let n2 := Byte.to_N b2 in
                  if negb (is_cont n2) then None
                  else if n0 <? 0xF0 then
                    let c := (n0 - 0xE0) * 4096 + (n1 - 0x80) * 64 + (n2 - 0x80) in
                    if (c <? 0x800) || is_surrogate c then None
                    else cons c <$> utf8_decode r2
                  else
                    match r2 with
                    | [] => None
                    | b3 :: r3 =>
                        let n3 := Byte.to_N b3 in
                        if negb (is_cont n3) then None
                        else if n0 <? 0xF8 then
                          let c := (n0 - 0xF0) * 262144 + (n1 - 0x80) * 4096
                                   + (n2 - 0x80) * 64 + (n3 - 0x80) in
                          if (c <? 0x10000) || (0x10FFFF <? c) then None
                          else cons c <$> utf8_decode r3
                        else None
                    end
              end
        end.
Proof. reflexivity. Qed.

(** Settles the comparisons of the goal by arithmetic. *)
Ltac compare_all :=
  repeat match goal with
  | |- context [?a <? ?b] => destruct (N.ltb_spec a b); try lia
  | |- context [?a <=? ?b] => destruct (N.leb_spec a b); try lia
  end.

(** The digits of a code point in base 64. *)
Lemma base64_digits c :
  exists q1 r1 q2 r2 q3 r3,
    c / 64 = q1 /\ c mod 64 = r1 /\ c / 4096 = q2 /\ (c / 64) mod 64 = r2
    /\ c / 262144 = q3 /\ (c / 4096) mod 64 = r3
    /\ c = 64 * q1 + r1 /\ q1 = 64 * q2 + r2 /\ q2 = 64 * q3 + r3
    /\ r1 < 64 /\ r2 < 64 /\ r3 < 64.
Proof.
  exists (c / 64), (c mod 64), (c / 64 / 64), ((c / 64) mod 64),
    (c / 64 / 64 / 64), ((c / 64 / 64) mod 64).
  change 4096 with (64 * 64). change 262144 with (64 * 64 * 64).
  rewrite <- !N.Div0.div_div.
  repeat split; try apply N.div_mod; try apply N.mod_lt; done.
Qed.

Lemma utf8_decode_encode_char c bs rest :
  utf8_encode_char c = Some bs ->
  utf8_decode (bs ++ rest) = cons c <$> utf8_decode rest.
Proof.
  unfold utf8_encode_char.
  destruct (base64_digits c)
    as (q1 & r1 & q2 & r2 & q3 & r3 & -> & -> & -> & -> & -> & ->
        & Hc & Hq1 & Hq2 & Hr1 & Hr2 & Hr3).
  destruct (N.ltb_spec c 0x80) as [H1|H1].
  { intros [= <-]. cbn [List.app]. rewrite utf8_decode_cons. cbv zeta.
    rewrite to_N_byte_of_N by lia. compare_all. done. }
  destruct (N.ltb_spec c 0x800) as [H2|H2].
  { intros [= <-]. cbn [List.app]. rewrite utf8_decode_cons. cbv zeta.
    rewrite !to_N_byte_of_N by lia. unfold is_cont.
    replace ((192 + q1 - 192) * 64 + (128 + r1 - 128)) with c by lia.
    compare_all. done. }
  destruct (N.ltb_spec c 0x10000) as [H3|H3].
  { destruct (is_surrogate c) eqn:Hs; [done|].
    intros [= <-]. cbn [List.app]. rewrite utf8_decode_cons. cbv zeta.
    rewrite !to_N_byte_of_N by lia. unfold is_cont.
    replace ((224 + q2 - 224) * 4096 + (128 + r2 - 128) * 64 + (128 + r1 - 128))
      with c by lia.
    rewrite Hs. compare_all. done. }
  destruct (N.leb_spec c 0x10FFFF) as [H4|H4]; [|done].
  intros [= <-]. cbn [List.app]. rewrite utf8_decode_cons. cbv zeta.
  rewrite !to_N_byte_of_N by lia. unfold is_cont.
  replace ((240 + q3 - 240) * 262144 + (128 + r3 - 128) * 4096
           + (128 + r2 - 128) * 64 + (128 + r1 - 128))
    with c by lia.
  compare_all. done.
Qed.

(** What [encode] accepts, [decode] gives back. *)
Lemma utf8_decode_encode s bs : utf8_encode s = Some bs -> utf8_decode bs = Some s.
Proof.
  revert bs. induction s as [|c s IH]; intros bs; simpl.
  - by intros [= <-].
  - destruct (utf8_encode_char c) as [b|] eqn:Hc; [|done].
    destruct (utf8_encode s) as [br|]; [|done].
    intros [= <-]. rewrite (utf8_decode_encode_char _ _ _ Hc).
    by rewrite (IH br).
Qed.

Lemma utf8_encode_char_scalar c : is_scalar c = true -> is_Some (utf8_encode_char c).
Proof.
  unfold is_scalar, utf8_encode_char. intros [Hc Hs%negb_true_iff]%andb_prop.
  rewrite Hs, Hc. repeat case_match; done.
Qed.

Lemma utf8_encode_scalar s :
  Forall (fun c => is_scalar c = true) s -> is_Some (utf8_encode s).
Proof.
  induction 1 as [|c s Hc _ [bs IH]]; simpl; [done|].
  destruct (utf8_encode_char_scalar c Hc) as [b ->]. by rewrite IH.
Qed.

Lemma utf8_encode_app s1 s2 :
  utf8_encode (s1 ++ s2) =
    b1 ← utf8_encode s1; b2 ← utf8_encode s2; Some (b1 ++ b2).
Proof.
  induction s1 as [|c s1 IH]; simpl.
  - by destruct (utf8_encode s2).
  - rewrite IH. destruct (utf8_encode_char c); [|done]. simpl.
    destruct (utf8_encode s1); [|done]. simpl.
    destruct (utf8_encode s2); [|done]. simpl. by rewrite (assoc_L (++)).
Qed.

(** ** Text files *)

Section text_file_facts.
Context `{Runtime}.

Lemma translate_out_app s1 s2 :
  translate_out (s1 ++ s2) = translate_out s1 ++ translate_out s2.
Proof.
  induction s1 as [|c s1 IH]; simpl; [done|].
  rewrite IH. by destruct ((c =? NEWLINE) && linesep_crlf).
Qed.

(** Text without carriage return comes back as it was written. *)
Lemma translate_in_out s : CR ∉ s -> translate_in (translate_out s) = s.
Proof.
  induction s as [|c s IH]; [done|].
  intros [Hc Hs]%not_elem_of_cons. cbn [translate_out].
  destruct (N.eqb_spec c NEWLINE) as [->|Hn]; simpl.
  - destruct linesep_crlf; simpl; by rewrite IH.
  - destruct (N.eqb_spec c CR); [done|]. by rewrite IH.
Qed.

(** When every write succeeds, the file holds the encoding of the text
    written. *)
Lemma write_chunks_ok content chunks content' :
  write_chunks content chunks = (content', None) ->
  exists b, utf8_encode (translate_out (concat chunks)) = Some b
            /\ content' = content ++ b.
Proof.
  revert content. induction chunks as [|c chunks IH]; intros content; simpl.
  - intros [= <-]. exists []. by rewrite app_nil_r.
  - destruct (utf8_encode (translate_out c)) as [bc|] eqn:Hc; [|done].
    intros (b & Hb & ->)%IH. exists (bc ++ b).
    rewrite translate_out_app, utf8_encode_app, Hc, Hb. simpl.
    by rewrite (assoc_L (++)).
Qed.

Lemma write_chunks_scalar content chunks :
  Forall (Forall (fun c => is_scalar c = true)) chunks ->
  exists content', write_chunks content chunks = (content', None).
Proof.
  intros Hall. revert content.
  induction Hall as [|c chunks Hc _ IH]; intros content; simpl; [by eexists|].
  assert (Hs : Forall (fun c => is_scalar c = true) (translate_out c)).
  { clear -Hc. induction Hc as [|x c Hx _ IH]; simpl; [done|].
    destruct ((x =? NEWLINE) && linesep_crlf); repeat constructor; done. }
  destruct (utf8_encode_scalar _ Hs) as [b ->]. apply IH.
Qed.

End text_file_facts.

(** ** JSON *)

Section json_facts.
Context `{Runtime}.

Lemma scanstring_escape_char c t :
  scanstring (escape_char c ++ t) = '(s, r) ← scanstring t; Ok (c :: s, r).
Proof.
  destruct (N.ltb_spec c 0x20) as [Hlow|Hhigh].
  - destruct c as [|p]; [reflexivity|].
    do 5 (try destruct p as [p|p|]); try reflexivity; lia.
  - unfold escape_char.
    destruct (N.eqb_spec c BACKSLASH) as [->|Hb]; [reflexivity|].
    destruct (N.eqb_spec c QUOTE) as [->|Hq]; [reflexivity|].
    repeat match goal with
    | |- context [c =? ?x] => destruct (N.eqb_spec c x) as [->|?]; [by vm_compute in Hhigh|]
    end.
    destruct (N.ltb_spec c 0x20); [lia|].
    cbn [List.app scanstring].
    destruct (N.eqb_spec c QUOTE); [done|].
    destruct (N.eqb_spec c BACKSLASH); [done|].
    destruct (N.ltb_spec c 0x20); [lia|done].
Qed.

Lemma scanstring_escaped s rest :
  scanstring (escaped s ++ QUOTE :: rest) = Ok (s, rest).
Proof.
  unfold escaped. induction s as [|c s IH]; [reflexivity|].
  change ((c :: s) ≫= escape_char) with (escape_char c ++ (s ≫= escape_char)).
  rewrite <- (assoc_L (++)), scanstring_escape_char, IH. done.
Qed.

Lemma scan_once_string depth v t :
  scan_once depth (QUOTE :: escaped v ++ QUOTE :: t) = Ok (PyStr v, t).
Proof.
  destruct depth; cbn [scan_once]; change (QUOTE =? QUOTE) with true; cbv iota;
    by rewrite scanstring_escaped.
Qed.

Lemma skip_ws_not_ws c s : is_ws c = false -> skip_ws (c :: s) = c :: s.
Proof. intros Hc. simpl. by rewrite Hc. Qed.

Lemma object_pairs_tail (scan : list N -> result (pyobj * list N))
    (m : list (list N * list N)) (fuel : nat)
    (acc : list (list N * pyobj)) (rest : list N) :
  (forall v t, scan (QUOTE :: escaped v ++ QUOTE :: t) = Ok (PyStr v, t)) ->
  m <> [] -> (length m <= fuel)%nat ->
  object_pairs scan fuel acc (pairs_tail m rest)
    = Ok (acc ++ (prod_map id PyStr <$> m), rest).
Proof.
  intros Hscan. revert fuel acc.
  induction m as [|[k v] m IH]; intros fuel acc Hm Hfuel; [done|].
  destruct fuel as [|fuel]; [simpl in Hfuel; lia|].
  cbn [object_pairs pairs_tail]. rewrite scanstring_escaped.
  cbn [mbind result_bind]. rewrite skip_ws_not_ws by done.
  change (COLON =? COLON) with true. cbv iota.
  change (skip_ws (SPACE :: ?t)) with (skip_ws t).
  rewrite skip_ws_not_ws by done. rewrite Hscan. cbn [mbind result_bind].
  destruct m as [|kv m].
  - change (skip_ws (NEWLINE :: ?t)) with (skip_ws t).
    rewrite skip_ws_not_ws by done.
    change (RBRACE =? RBRACE) with true. cbv iota. done.
  - rewrite skip_ws_not_ws by done.
    change (COMMA =? RBRACE) with false. change (COMMA =? COMMA) with true.
    cbv iota.
    change (skip_ws (NEWLINE :: SPACE :: SPACE :: ?t)) with (skip_ws t).
    rewrite skip_ws_not_ws by done.
    change (QUOTE =? QUOTE) with true. cbv iota.
    rewrite IH; [|done|simpl in *; lia].
    by rewrite <- (assoc_L (++)).
Qed.

Lemma pairs_tail_length m rest : (length m <= length (pairs_tail m rest))%nat.
Proof.
  induction m as [|[k v] m IH]; simpl; [lia|].
  rewrite length_app. simpl. rewrite length_app. simpl.
  destruct m; simpl in *; lia.
Qed.

(** Reading the text of a store of strings gives the store. *)
Lemma json_loads_dict_text (m : list (list N * list N)) :
  NoDup m.*1 -> (0 < recursion_limit)%nat ->
  json_loads (dict_text m) = Ok (PyDict (prod_map id PyStr <$> m)).
Proof.
  intros Hnd Hrec. unfold json_loads.
  destruct recursion_limit as [|depth]; [lia|].
  destruct m as [|kv m].
  - reflexivity.
  - cbn [dict_text]. change (LBRACE =? 0xFEFF) with false.
    rewrite skip_ws_not_ws by done.
    cbn [scan_once]. change (LBRACE =? QUOTE) with false.
    change (LBRACE =? LBRACE) with true. cbv iota.
    unfold JSONObject.
    change (skip_ws (NEWLINE :: SPACE :: SPACE :: ?t)) with (skip_ws t).
    rewrite skip_ws_not_ws by done.
    change (QUOTE =? RBRACE) with false. change (QUOTE =? QUOTE) with true.
    cbv iota.
    rewrite (object_pairs_tail (scan_once depth) (kv :: m));
      [|apply scan_once_string|done|apply pairs_tail_length].
    cbn [mbind result_bind List.app skip_ws].
    rewrite dict_update_nil_NoDup; [done|].
    unfold dict_keys. rewrite <- list_fmap_compose.
    erewrite list_fmap_ext; [exact Hnd|]. by intros i [k v].
Qed.

End json_facts.

Section dump_facts.
Context `{Runtime}.

Lemma concat_dict_items enc (first : bool) (m : list (list N * list N)) :
  (dict_items enc [COMMA; NEWLINE; SPACE; SPACE] first (prod_map id PyStr <$> m)).2 = None
  /\ concat (dict_items enc [COMMA; NEWLINE; SPACE; SPACE] first
               (prod_map id PyStr <$> m)).1
     = match m with
       | [] => []
       | (k, v) :: r =>
           (if first then [] else [COMMA; NEWLINE; SPACE; SPACE]) ++
           QUOTE :: escaped k ++ QUOTE :: COLON :: SPACE :: QUOTE :: escaped v ++ QUOTE ::
           concat (dict_items enc [COMMA; NEWLINE; SPACE; SPACE] false
                     (prod_map id PyStr <$> r)).1
       end.
Proof.
  revert first. induction m as [|[k v] m IH]; intros first; [done|].
  destruct (IH false) as [Hnone _].
  rewrite fmap_cons. cbn [prod_map fst snd id dict_items scalar_repr yield_scalar].
  unfold stream_app, yield. cbn [fst snd]. rewrite Hnone.
  split; [by destruct first|].
  destruct first; cbn [fst snd List.app concat];
    unfold encode_basestring, escaped;
    repeat (rewrite <- ?(assoc_L (++)); cbn [List.app]); done.
Qed.

Lemma concat_dict_items_tail enc (kv : list N * list N) (m : list (list N * list N))
    (rest : list N) :
  concat (dict_items enc [COMMA; NEWLINE; SPACE; SPACE] true
            (prod_map id PyStr <$> kv :: m)).1 ++ NEWLINE :: RBRACE :: rest
  = QUOTE :: pairs_tail (kv :: m) rest.
Proof.
  revert kv. induction m as [|kv' m IH]; intros [k v].
  - destruct (concat_dict_items enc true [(k, v)]) as [_ ->]. simpl.
    rewrite <- !(assoc_L (++)). simpl. rewrite <- !(assoc_L (++)). done.
  - destruct (concat_dict_items enc true ((k, v) :: kv' :: m)) as [_ ->].
    destruct (concat_dict_items enc false (kv' :: m)) as [_ ->].
    specialize (IH kv').
    destruct (concat_dict_items enc true (kv' :: m)) as [_ Htrue].
    rewrite Htrue in IH. destruct kv' as [k' v'].
    cbn [pairs_tail List.app]. rewrite <- !(assoc_L (++)). cbn [List.app].
    rewrite <- !(assoc_L (++)). cbn [List.app]. do 6 f_equal.
    cbn [List.app] in IH. injection IH as IH. rewrite <- IH.
    rewrite <- !(assoc_L (++)). done.
Qed.

(** What [json.dump] yields for a store of strings: no exception, and
    chunks that make up the text of the store. *)
Lemma iterencode_dict_text (m : list (list N * list N)) :
  (iterencode 0 (PyDict (prod_map id PyStr <$> m))).2 = None
  /\ concat (iterencode 0 (PyDict (prod_map id PyStr <$> m))).1 = dict_text m.
Proof.
  destruct m as [|kv m]; [done|].
  cbn [iterencode]. unfold iterencode_dict. rewrite fmap_cons.
  change (prod_map id PyStr kv :: (prod_map id PyStr <$> m))
    with (prod_map id PyStr <$> kv :: m).
  destruct (concat_dict_items (iterencode 1) true (kv :: m)) as [Hnone _].
  unfold stream_app, yield, newline_indent. cbn [fst snd replicate Nat.mul Nat.add].
  rewrite Hnone. cbn [fst snd]. split; [done|].
  rewrite !concat_app. cbn [concat List.app].
  rewrite (concat_dict_items_tail (iterencode 1) kv m []). done.
Qed.

End dump_facts.

(** ** Saving and loading the prompts *)


Lemma escape_char_facts c :
  no_cr (escape_char c) /\ (is_scalar c = true -> scalar_text (escape_char c)).
Proof.
  destruct (N.ltb_spec c 0x20) as [Hlow|Hhigh].
  - assert (Hc : c ∈ N.of_nat <$> seq 0 32).
    { apply list_elem_of_fmap. exists (N.to_nat c). split; [lia|].
      apply elem_of_seq. lia. }
    revert c Hc Hlow.
    apply (proj1 (Forall_forall (fun c => c < 0x20 ->
      no_cr (escape_char c) /\ (is_scalar c = true -> scalar_text (escape_char c))) _)).
    let l := eval vm_compute in (N.of_nat <$> seq 0 32) in
    change (N.of_nat <$> seq 0 32) with l.
    repeat (constructor;
      [intros _;
       match goal with
       | |- context [escape_char ?c] =>
           let l := eval vm_compute in (escape_char c) in
           change (escape_char c) with l
       end;
       split; [|intros _]; repeat (constructor; [done|]); constructor|]).
    constructor.
  - unfold escape_char.
    destruct (N.eqb_spec c BACKSLASH) as [->|Hb];
      [split; [|intros _]; by repeat constructor|].
    destruct (N.eqb_spec c QUOTE) as [->|Hq];
      [split; [|intros _]; by repeat constructor|].
    repeat match goal with
    | |- context [c =? ?x] => destruct (N.eqb_spec c x) as [->|?]; [by vm_compute in Hhigh|]
    end.
    destruct (N.ltb_spec c 0x20); [lia|].
    split; [|intros Hc]; repeat constructor; [|done].
    intros ->. by vm_compute in Hhigh.
Qed.

Lemma escaped_facts s :
  no_cr (escaped s) /\ (scalar_text s -> scalar_text (escaped s)).
Proof.
  unfold escaped, no_cr, scalar_text. induction s as [|c s [IH1 IH2]].
  - split; [|intros _]; constructor.
  - change ((c :: s) ≫= escape_char) with (escape_char c ++ (s ≫= escape_char)).
    destruct (escape_char_facts c) as [Hc1 Hc2]. split.
    + by apply Forall_app.
    + intros [Hc Hs]%Forall_cons. apply Forall_app. split; [by apply Hc2|by apply IH2].
Qed.

Lemma pairs_tail_no_cr m : no_cr (pairs_tail m []).
Proof.
  unfold no_cr. induction m as [|[k v] m IH]; [constructor|].
  cbn [pairs_tail]. apply Forall_app. split; [apply escaped_facts|].
  do 4 (constructor; [done|]). apply Forall_app. split; [apply escaped_facts|].
  constructor; [done|]. destruct m; by repeat (constructor; [done|]).
Qed.

Lemma dict_text_no_cr m : CR ∉ dict_text m.
Proof.
  intros Hin. assert (Hall : no_cr (dict_text m)).
  { destruct m as [|kv m]; [by repeat constructor|].
    cbn [dict_text]. do 5 (constructor; [done|]). apply pairs_tail_no_cr. }
  by apply (proj1 (Forall_forall _ _) Hall) in Hin.
Qed.

Section prompt_file_facts.
Context `{Runtime}.
Variable o : outside.

Lemma dict_items_scalar enc (first : bool) (m : list (list N * list N)) :
  Forall (fun kv => scalar_text kv.1 /\ scalar_text kv.2) m ->
  Forall scalar_text
    (dict_items enc [COMMA; NEWLINE; SPACE; SPACE] first (prod_map id PyStr <$> m)).1.
Proof.
  intros Hm. revert first. induction Hm as [|[k v] m [Hk Hv] _ IH]; intros first.
  - constructor.
  - destruct (concat_dict_items enc false m) as [Hnone _].
    rewrite fmap_cons. cbn [prod_map fst snd id dict_items scalar_repr yield_scalar].
    unfold stream_app, yield. cbn [fst snd]. rewrite Hnone.
    assert (Henc : forall s, scalar_text s -> scalar_text (encode_basestring s)).
    { intros s Hs. unfold encode_basestring. constructor; [done|].
      apply Forall_app. split; [by apply escaped_facts|by constructor]. }
    destruct first; cbn [fst snd List.app];
      repeat (constructor; [first [by apply Henc|by repeat constructor]|]);
      apply IH.
Qed.

(** The chunks [json.dump] writes for a store of well-formed text can all
    be encoded. *)
Lemma iterencode_scalar (m : list (list N * list N)) :
  Forall (fun kv => scalar_text kv.1 /\ scalar_text kv.2) m ->
  Forall scalar_text (iterencode 0 (PyDict (prod_map id PyStr <$> m))).1.
Proof.
  intros Hm. destruct m as [|kv m]; [by repeat constructor|].
  cbn [iterencode]. unfold iterencode_dict. rewrite fmap_cons.
  change (prod_map id PyStr kv :: (prod_map id PyStr <$> m))
    with (prod_map id PyStr <$> kv :: m).
  destruct (concat_dict_items (iterencode 1) true (kv :: m)) as [Hnone _].
  unfold stream_app, yield, newline_indent. cbn [fst snd replicate Nat.mul Nat.add].
  rewrite Hnone. cbn [fst snd List.app].
  do 2 (constructor; [by repeat constructor|]).
  apply Forall_app. split; [by apply dict_items_scalar|by repeat constructor].
Qed.

(** What a successful [save_prompts] leaves on disk. *)
Lemma save_prompts_ok (m : list (list N * list N)) (w : world) :
  (save_prompts o (prod_map id PyStr <$> m) w).1 = Ok tt ->
  open_fault o PROMPTS_FILE = None
  /\ exists b, utf8_encode (translate_out (dict_text m)) = Some b
       /\ (save_prompts o (prod_map id PyStr <$> m) w).2
          = with_fs (dict_set PROMPTS_FILE b (fs w)) w.
Proof.
  unfold save_prompts, write_text.
  destruct (iterencode_dict_text m) as [Hnone Htext].
  destruct (open_fault o PROMPTS_FILE); [done|].
  destruct (write_chunks [] _) as [content [err|]] eqn:Hw; [done|].
  rewrite Hnone. intros _. split; [done|].
  apply write_chunks_ok in Hw as (b & Hb & ->). rewrite Htext in Hb.
  by exists b.
Qed.

(** Reading back what [save_prompts] wrote. *)
Lemma read_saved_prompts (m : list (list N * list N)) (files : dict bytes) (b : bytes) :
  open_fault o PROMPTS_FILE = None ->
  utf8_encode (translate_out (dict_text m)) = Some b ->
  read_text o PROMPTS_FILE (dict_set PROMPTS_FILE b files) = Ok (dict_text m).
Proof.
  intros Hopen Hb. unfold read_text. rewrite Hopen, dict_get_set.
  rewrite decide_True by done. rewrite (utf8_decode_encode _ _ Hb).
  by rewrite translate_in_out by apply dict_text_no_cr.
Qed.

(** C5.  A store of prompts, its names distinct, that [save_prompts] has
    written without failure comes back from [load_prompts] entry by
    entry: each saved name with exactly the saved body, whatever the code
    points of either, and whatever [CONFIG_PROMPTS] holds.  And
    [save_prompts] does write it without failure when the file can be
    opened and the text is well-formed Unicode (no lone surrogate). *)
Theorem save_then_load_roundtrip (CONFIG_PROMPTS : pyobj)
    (m : list (list N * list N)) (w : world) :
  NoDup m.*1 -> (0 < recursion_limit)%nat ->
  (open_fault o PROMPTS_FILE = None ->
   Forall (fun kv => scalar_text kv.1 /\ scalar_text kv.2) m ->
   (save_prompts o (prod_map id PyStr <$> m) w).1 = Ok tt)
  /\ ((save_prompts o (prod_map id PyStr <$> m) w).1 = Ok tt ->
      forall k v, (k, v) ∈ m ->
        dict_get k (load_prompts o CONFIG_PROMPTS
                      (fs (save_prompts o (prod_map id PyStr <$> m) w).2))
          = Some (PyStr v)).
Proof.
  intros Hnd Hrec. split.
  - intros Hopen Hm. unfold save_prompts, write_text. rewrite Hopen.
    destruct (write_chunks_scalar [] _ (iterencode_scalar m Hm)) as [content ->].
    by destruct (iterencode_dict_text m) as [-> _].
  - intros (Hopen & b & Hb & ->)%save_prompts_ok k v Hin.
    cbn [fs with_fs]. unfold load_prompts.
    set (data := match CONFIG_PROMPTS with
                 | PyDict d => dict_update [] d
                 | _ => []
                 end).
    unfold dict_contains. rewrite dict_get_set, decide_True by done.
    rewrite (read_saved_prompts m (fs w) b Hopen Hb). cbn [mbind result_bind].
    rewrite (json_loads_dict_text m Hnd Hrec).
    assert (Hget : dict_get k (dict_update data (prod_map id PyStr <$> m))
                   = Some (PyStr v)).
    { rewrite dict_get_update.
      rewrite (dict_get_elem k (PyStr v)); [done| |].
      - unfold dict_keys. rewrite fmap_reverse, reverse_Permutation.
        rewrite <- list_fmap_compose.
        erewrite list_fmap_ext; [exact Hnd|]. by intros i [k' v'].
      - apply elem_of_reverse, list_elem_of_fmap. by exists (k, v). }
    destruct (dict_update data (prod_map id PyStr <$> m)); [done|exact Hget].
Qed.

End prompt_file_facts.

Lemma save_then_load_roundtrip_witness :
  dict_get (py "Défaut")
    (load_prompts Stub.outside_ok PROMPTS
       (fs (save_prompts Stub.outside_ok
              (prod_map id PyStr <$> [(py "Défaut", py "Tu es un expert… {text}")])
              Stub.fresh).2))
  = Some (PyStr (py "Tu es un expert… {text}")).
Proof.
  refine (proj2 (save_then_load_roundtrip Stub.outside_ok PROMPTS
                   [(py "Défaut", py "Tu es un expert… {text}")] Stub.fresh _ _)
            _ _ _ _).
  - apply NoDup_singleton.
  - vm_compute. lia.
  - vm_compute. reflexivity.
  - apply list_elem_of_here.
Defined.

Section load_facts.
Context `{Runtime}.
Variable o : outside.

Lemma dict_update_nil_r {V} (d : list (list N * V)) : dict_update d [] = d.
Proof. done. Qed.

(** C10.  [load_prompts] never returns an empty store.  When
    [CONFIG_PROMPTS] gives no entry (it is no dict, or an empty one) and
    [prompts.json] gives none either (it is absent, cannot be read or
    parsed, holds no object, or holds an empty one), the result is the
    built-in set of four prompts. *)
Theorem load_prompts_never_empty (CONFIG_PROMPTS : pyobj) (files : dict bytes) :
  load_prompts o CONFIG_PROMPTS files <> []
  /\ length fallback_prompts = 4%nat
  /\ ((forall d, CONFIG_PROMPTS = PyDict d -> d = []) ->
      (dict_contains PROMPTS_FILE files = false
       \/ (exists e, (t ← read_text o PROMPTS_FILE files; json_loads t) = Raise e)
       \/ (exists v, (t ← read_text o PROMPTS_FILE files; json_loads t) = Ok v
                     /\ forall d, v = PyDict d -> d = [])) ->
      load_prompts o CONFIG_PROMPTS files = fallback_prompts).
Proof.
  split; [|split; [done|]].
  - unfold load_prompts.
    match goal with |- match ?data with _ => _ end <> _ => by destruct data end.
  - intros Hconfig Hfile. unfold load_prompts.
    assert (Hdata : match CONFIG_PROMPTS with
                    | PyDict d => dict_update [] d
                    | _ => []
                    end = []).
    { destruct CONFIG_PROMPTS as [| | | | |l|d]; try done.
      by rewrite (Hconfig d eq_refl). }
    rewrite Hdata.
    destruct Hfile as [-> | [[e He] | (v & Hv & Hd)]]; [done| |].
    + rewrite He. by destruct (dict_contains PROMPTS_FILE files).
    + rewrite Hv. destruct (dict_contains PROMPTS_FILE files); [|done].
      destruct v as [| | | | |l|d]; try done. by rewrite (Hd d eq_refl).
Qed.

End load_facts.

Lemma load_prompts_never_empty_witness :
  load_prompts Stub.outside_ok PyNone [] = fallback_prompts.
Proof.
  apply (proj2 (proj2 (load_prompts_never_empty Stub.outside_ok PyNone []))).
  - intros d Hd. discriminate Hd.
  - left. reflexivity.
Defined.

(** With the prompts of [config.py] and no file, the store is these five
    prompts. *)
Lemma load_prompts_config :
  dict_keys (load_prompts Stub.outside_ok PROMPTS [])
  = [py "Default (Raisonnement Général)"; py "Pensée Critique (Conclusion/Idée)";
     py "Aptitude Numérique (Maths/Logique)"; py "Conditions Minimales";
     py "Capacité Rédactionnelle (Français)"].
Proof. vm_compute. reflexivity. Qed.

(** ** The store in memory and the store on disk *)

Section persist_facts.
Context `{Runtime}.
Variable o : outside.

Lemma store_of_dict_set k v m :
  store_of (dict_set k v m) = dict_set k (PyStr v) (store_of m).
Proof.
  unfold store_of. induction m as [|[k' v'] m IH]; simpl; [done|].
  destruct (decide (k = k')); simpl; [done|]. f_equal. exact IH.
Qed.

Lemma store_of_dict_del k m :
  store_of (dict_del k m) = dict_del k (store_of m).
Proof.
  unfold store_of. induction m as [|[k' v'] m IH]; simpl; [done|].
  destruct (decide (k = k')); simpl; [done|]. f_equal. exact IH.
Qed.

Lemma dict_del_keys {V} k (d : list (list N * V)) x :
  x ∈ dict_keys (dict_del k d) -> x ∈ dict_keys d.
Proof.
  unfold dict_keys. induction d as [|[k' v'] d IH]; simpl; [done|].
  destruct (decide (k = k')); simpl.
  - apply list_elem_of_further.
  - intros [->|Hx]%elem_of_cons; [apply list_elem_of_here|].
    apply list_elem_of_further. by apply IH.
Qed.

Lemma dict_del_NoDup {V} k (d : list (list N * V)) :
  NoDup (dict_keys d) -> NoDup (dict_keys (dict_del k d)).
Proof.
  unfold dict_keys. induction d as [|[k' v'] d IH]; simpl; [done|].
  intros [Hn Hd]%NoDup_cons. destruct (decide (k = k')); simpl; [done|].
  apply NoDup_cons. split; [|by apply IH].
  intros Hx. apply Hn. by apply (dict_del_keys k).
Qed.

Lemma store_of_keys m : dict_keys (store_of m) = m.*1.
Proof.
  unfold store_of, dict_keys. rewrite <- list_fmap_compose.
  apply list_fmap_ext. by intros _ [k v] _.
Qed.

(** After [save_prompts] has returned, the file reads back as the store
    that was written. *)
Lemma save_prompts_persisted (m : list (list N * list N)) (w : world) :
  NoDup m.*1 -> (0 < recursion_limit)%nat ->
  (save_prompts o (store_of m) w).1 = Ok tt ->
  app (save_prompts o (store_of m) w).2 = app w
  /\ (t ← read_text o PROMPTS_FILE (fs (save_prompts o (store_of m) w).2);
      json_loads t) = Ok (PyDict (store_of m)).
Proof.
  intros Hnd Hrec Hok.
  destruct (save_prompts_ok o m w Hok) as (Hopen & b & Hb & Hw).
  unfold store_of in *. rewrite Hw. split; [done|].
  cbn [fs with_fs].
  rewrite (read_saved_prompts o m _ b Hopen Hb). cbn [mbind result_bind].
  by apply json_loads_dict_text.
Qed.

(** X13.  Saving an edited prompt persists it: for a store of texts and a
    name that is not blank, when [_prompt_save] returns, [prompts.json]
    reads back as the store in memory. *)
Lemma prompt_save_persisted (m : list (list N * list N)) (w : world) :
  prompts (app w) = store_of m -> NoDup m.*1 -> (0 < recursion_limit)%nat ->
  truthy (strip (prompt_name_var (app w))) = true ->
  (_prompt_save o w).1 = Ok tt ->
  persisted o (_prompt_save o w).2.
Proof.
  intros Hm Hnd Hrec Hname. unfold persisted.
  remember (_prompt_save o w) as run eqn:Hrun.
  unfold _prompt_save in Hrun.
  unfold bind at 1 in Hrun. cbn [self] in Hrun. rewrite Hname in Hrun.
  cbn [negb] in Hrun.
  unfold bind at 1 in Hrun. cbn [modify] in Hrun.
  unfold bind at 1 in Hrun. cbn [self] in Hrun.
  set (name := strip (prompt_name_var (app w))) in *.
  set (text := strip (txt_prompt (app w) ++ [NEWLINE])) in *.
  set (w1 := with_app _ w) in *.
  assert (Hw1 : prompts (app w1) = store_of (dict_set name text m)).
  { subst w1. cbn. rewrite Hm. by rewrite store_of_dict_set. }
  rewrite Hw1 in Hrun.
  assert (Hnd1 : NoDup (dict_set name text m).*1) by by apply (dict_set_NoDup name text m).
  pose proof (save_prompts_persisted (dict_set name text m) w1 Hnd1 Hrec) as Hsave.
  unfold bind at 1 in Hrun.
  destruct (save_prompts o (store_of (dict_set name text m)) w1) as [[[]|e] w2];
    [|by subst run]. cbn [fst snd] in Hsave.
  destruct (Hsave eq_refl) as [Happ Hread]. clear Hsave.
  unfold bind at 1 in Hrun.
  destruct (refresh_prompt_menu_prompts name w2) as (Hr & Hp & Hf).
  destruct (_refresh_prompt_menu name w2) as [r w3]. cbn [fst snd] in Hr, Hp, Hf.
  subst r run. intros _.
  assert (Hend : forall w4 : world, prompts (app w4) = prompts (app w3) -> fs w4 = fs w3 ->
    (t ← read_text o PROMPTS_FILE (fs w4); json_loads t) = Ok (PyDict (prompts (app w4)))).
  { intros w4 -> ->. by rewrite Hf, Hread, Hp, Happ, Hw1. }
  apply Hend; reflexivity.
Qed.

(** X14.  Deleting a prompt persists the deletion: for a store of texts
    and a selected name that is in the store, when [_prompt_delete]
    returns, [prompts.json] reads back as the store in memory. *)
Lemma prompt_delete_persisted (m : list (list N * list N)) (w : world) :
  prompts (app w) = store_of m -> NoDup m.*1 -> (0 < recursion_limit)%nat ->
  dict_contains (prompt_key_var (app w)) (prompts (app w)) = true ->
  (_prompt_delete o w).1 = Ok tt ->
  persisted o (_prompt_delete o w).2.
Proof.
  intros Hm Hnd Hrec Hname. unfold persisted.
  remember (_prompt_delete o w) as run eqn:Hrun.
  unfold _prompt_delete in Hrun.
  unfold bind at 1 in Hrun. cbn [self] in Hrun. rewrite Hname in Hrun.
  unfold bind at 1 in Hrun. cbn [modify] in Hrun.
  unfold bind at 1 in Hrun. cbn [self] in Hrun.
  set (name := prompt_key_var (app w)) in *.
  set (w1 := with_app _ w) in *.
  assert (Hw1 : prompts (app w1) = store_of (dict_del name m)).
  { subst w1. cbn. rewrite Hm. by rewrite store_of_dict_del. }
  rewrite Hw1 in Hrun.
  assert (Hnd1 : NoDup (dict_del name m).*1) by by apply (dict_del_NoDup name m).
  pose proof (save_prompts_persisted (dict_del name m) w1 Hnd1 Hrec) as Hsave.
  unfold bind at 1 in Hrun.
  destruct (save_prompts o (store_of (dict_del name m)) w1) as [[[]|e] w2];
    [|by subst run]. cbn [fst snd] in Hsave.
  destruct (Hsave eq_refl) as [Happ Hread]. clear Hsave.
  set (new_key := hd [] _) in *.
  unfold bind at 1 in Hrun.
  destruct (refresh_prompt_menu_prompts new_key w2) as (Hr & Hp & Hf).
  destruct (_refresh_prompt_menu new_key w2) as [r w3]. cbn [fst snd] in Hr, Hp, Hf.
  subst r run. intros _.
  assert (Hend : forall w4 : world, prompts (app w4) = prompts (app w3) -> fs w4 = fs w3 ->
    (t ← read_text o PROMPTS_FILE (fs w4); json_loads t) = Ok (PyDict (prompts (app w4)))).
  { intros w4 -> ->. by rewrite Hf, Hread, Hp, Happ, Hw1. }
  destruct (truthy new_key); apply Hend; reflexivity.
Qed.

(** C6.  Creating a prompt is a mutation of the store that nothing
    persists.  From a world whose [prompts.json] reads back as the store in
    memory, [_prompt_new] returns with one more entry in memory and the
    file as it was: the file no longer reflects the store.  (The two other
    mutations do persist: [prompt_save_persisted],
    [prompt_delete_persisted].) *)
Theorem prompt_new_not_persisted (w : world) :
  persisted o w ->
  exists w', _prompt_new w = Some (Ok tt, w')
    /\ length (prompts (app w')) = S (length (prompts (app w)))
    /\ fs w' = fs w
    /\ ~ persisted o w'.
Proof.
  intros Hw.
  destruct (prompt_new_appends w) as (j & w' & _ & Hrun & _ & _ & Hp & Hfs).
  exists w'. split; [done|]. split; [|split; [done|]].
  - rewrite Hp, length_app. simpl. lia.
  - unfold persisted in *. rewrite Hfs, Hw. intros [= Heq].
    apply (f_equal length) in Heq. rewrite Hp, length_app in Heq. simpl in Heq. lia.
Qed.

End persist_facts.

Lemma prompt_new_not_persisted_witness :
  persisted Stub.outside_ok Stub.start
  /\ exists w', _prompt_new Stub.start = Some (Ok tt, w')
       /\ length (prompts (app w')) = S (length (prompts (app Stub.start)))
       /\ fs w' = fs Stub.start
       /\ ~ persisted Stub.outside_ok w'.
Proof.
  assert (Hstart : persisted Stub.outside_ok Stub.start) by (vm_compute; reflexivity).
  split; [exact Hstart|].
  exact (prompt_new_not_persisted Stub.outside_ok Stub.start Hstart).
Defined.

(** The same run, evaluated: the editor of the application shows the new
    entry, [load_prompts] on the file does not have it. *)
Lemma prompt_new_lost_on_restart :
  exists w', _prompt_new Stub.start = Some (Ok tt, w')
    /\ dict_keys (prompts (app w')) = [py "A"; py "New Prompt"]
    /\ dict_keys (load_prompts Stub.outside_ok PyNone (fs w')) = [py "A"].
Proof. eexists. split; [vm_compute; reflexivity|]. split; vm_compute; reflexivity. Qed.

(** The two other mutations on the same world: here the file follows. *)
Lemma prompt_save_persisted_start :
  persisted Stub.outside_ok (_prompt_save Stub.outside_ok Stub.start).2.
Proof.
  apply (prompt_save_persisted Stub.outside_ok [(py "A", py "Pick: {text}")]).
  - reflexivity.
  - apply NoDup_singleton.
  - vm_compute. lia.
  - reflexivity.
  - vm_compute. reflexivity.
Defined.

Lemma prompt_delete_persisted_start :
  persisted Stub.outside_ok (_prompt_delete Stub.outside_ok Stub.start).2
  /\ prompts (app (_prompt_delete Stub.outside_ok Stub.start).2) = [].
Proof.
  split; [|vm_compute; reflexivity].
  apply (prompt_delete_persisted Stub.outside_ok [(py "A", py "Pick: {text}")]).
  - reflexivity.
  - apply NoDup_singleton.
  - vm_compute. lia.
  - reflexivity.
  - vm_compute. reflexivity.
Defined.

(** ** More on the dispatch and the capture *)

Section dispatch_more.
Context `{Runtime}.
Variable o : outside.

(** X2.  Whatever the sinks do, and also when the disk log makes the
    dispatch raise, [_post_answer] has put the answer and its status on
    the UI queue first, and puts nothing else there. *)
Theorem post_answer_queues_answer (w : world) (ans ocr_text : str)
    (img_bytes : option bytes) :
  q_ui (app (_post_answer o ans ocr_text img_bytes w).2)
  = q_ui (app w) ++ [(py "ai_text", PText ans);
                     (py "status", PText (py "AI answer received."))].
Proof.
  set (q := q_ui (app w) ++ _).
  set (I := fun w' : world => q_ui (app w') = q).
  unfold _post_answer.
  unfold bind at 1, q_put at 1, modify at 1. cbv beta iota.
  unfold bind at 1, q_put at 1, modify at 1. cbv beta iota.
  match goal with
  | |- q_ui (app (?m ?w2).2) = _ =>
      cut (spec I any m);
      [intros Hs; apply (Hs w2); unfold I, q; simpl; by rewrite <- (assoc_L (++))|]
  end.
  unfold _append_log, _send_telegram_message, txt_log_insert.
  apply spec_self_bind; intros w1 HI1.
  spec_auto ltac:(by intros).
Qed.

(** X3.  [_capture_thread] never raises.  It puts on the UI queue either
    the preview, the OCR text and the status with the length of that text,
    in this order, or one error message and nothing else; and when one of
    the four fields of the region is no integer it grabs nothing. *)
Theorem capture_thread_outcome (w : world) :
  (_capture_thread o w).1 = Ok tt
  /\ ((exists png text,
         q_ui (app (_capture_thread o w).2)
         = q_ui (app w) ++
           [(py "preview", PBytes png); (py "ocr_text", PText text);
            (py "status",
             PText (py "Capture OK (" ++ str_of_nat (length text) ++ py " chars)"))])
      \/ (exists e,
            q_ui (app (_capture_thread o w).2)
            = q_ui (app w) ++ [(py "error", PText (py "OCR/Capture error: " ++ exn_msg e))]))
  /\ (is_ok (var_l (tk (app w))) && is_ok (var_t (tk (app w)))
      && is_ok (var_w (tk (app w))) && is_ok (var_h (tk (app w))) = false ->
      grabbed (_capture_thread o w).2 = grabbed w).
Proof.
  unfold _capture_thread, grab_image, ocr_image, try_except, bind, lift, self,
    modify, q_put. simpl.
  destruct (var_l (tk (app w))) as [l|e]; simpl;
    [|split; [done|]; split; [right; by exists e|done]].
  destruct (var_t (tk (app w))) as [t|e]; simpl;
    [|split; [done|]; split; [right; by exists e|done]].
  destruct (var_w (tk (app w))) as [wd|e]; simpl;
    [|split; [done|]; split; [right; by exists e|done]].
  destruct (var_h (tk (app w))) as [h|e]; simpl;
    [|split; [done|]; split; [right; by exists e|done]].
  destruct (sct_grab o _) as [shot|e]; simpl;
    [|split; [done|]; split; [right; by exists e|done]].
  destruct (Image_frombytes o _ _ _) as [img|e]; simpl;
    [|split; [done|]; split; [right; by exists e|done]].
  destruct (png_thumbnail o _ _) as [small|e]; simpl;
    [|split; [done|]; split; [right; by exists e|done]].
  destruct (image_to_string o _ _ _) as [text|e]; simpl;
    [|split; [done|]; split; [right; by exists e|done]].
  split; [done|]. split; [|done]. left. exists small, text.
  by rewrite <- !(assoc_L (++)).
Qed.

End dispatch_more.

(** ** The prompt that reaches the vendor, and the answer that comes back *)

Lemma lstrip_head s c : head (lstrip s) = Some c -> isspace c = false.
Proof.
  induction s as [|x s IH]; simpl; [done|].
  destruct (isspace x) eqn:Hx; [done|]. by intros [= <-].
Qed.

Lemma lstrip_snoc s c : isspace c = false -> lstrip (s ++ [c]) = lstrip s ++ [c].
Proof.
  intros Hc. induction s as [|x s IH]; simpl; [by rewrite Hc|].
  by destruct (isspace x).
Qed.

Lemma strip_stripped s : stripped (strip s).
Proof.
  unfold strip, rstrip. split.
  - destruct (lstrip s) as [|c r] eqn:Hl; [done|].
    assert (Hc : isspace c = false) by (apply (lstrip_head s); by rewrite Hl).
    rewrite reverse_cons, lstrip_snoc by done.
    rewrite reverse_app. simpl. by intros c' [= <-].
  - intros c. rewrite last_reverse. apply lstrip_head.
Qed.

Section prompt_facts.
Context `{Runtime}.

(** X4.  For a template made of plain text, the escapes [{{] and [}}] and
    fields [{text}], [complete] calls the vendor once, and the prompt of
    that call is the template with every [{text}] replaced by the text as
    it is (braces in the text are not read as fields) and every escape by
    its single brace. *)
Theorem complete_substitutes_text (v : sdks) (self : LLMClient)
    (text : str) (ps : list piece) (temperature : pyfloat) :
  Forall plain_piece ps ->
  exists r call,
    complete v self text (concat (piece_source <$> ps)) temperature = (r, [call])
    /\ call_prompt call = concat (piece_value text <$> ps).
Proof.
  intros Hps. unfold complete, format.
  rewrite (do_markup_pieces text ps _ Hps) by done.
  repeat case_bool_decide; eexists _, _; split; reflexivity.
Qed.

(** X5.  Whatever the vendor answers, an answer that [complete] returns
    has no white space at its beginning nor at its end. *)
Theorem complete_answer_stripped (v : sdks) (self : LLMClient)
    (text tpl : str) (temperature : pyfloat) (ans : str) :
  (complete v self text tpl temperature).1 = Ok ans -> stripped ans.
Proof.
  unfold complete. destruct (format tpl text) as [prompt|e]; [|done].
  repeat case_bool_decide; cbn [fst].
  - destruct (chat_completions_create v _ _ _) as [resp|e]; [|done].
    cbn [mbind result_bind]. destruct (choices resp) as [|c cs]; [done|].
    intros [= <-]. apply strip_stripped.
  - destruct (messages_create v _ _ _ _) as [msg|e]; [|done].
    cbn [mbind result_bind]. destruct (str_join _ _) as [joined|e]; [|done].
    cbn [mbind result_bind]. intros [= <-]. apply strip_stripped.
  - destruct (generate_content v _ _) as [resp|e]; [|done].
    cbn [mbind result_bind]. destruct (resp_text resp) as [t|e]; [|done].
    cbn [mbind result_bind]. intros [= <-]. apply strip_stripped.
Qed.

End prompt_facts.

(** ** What the catalogue and the store hold *)

Section catalogue_content.
Context `{Runtime}.

Lemma dict_get_reverse {V} (d : list (list N * V)) k :
  NoDup (dict_keys d) -> dict_get k (reverse d) = dict_get k d.
Proof.
  intros Hnd. destruct (dict_get k (reverse d)) as [v|] eqn:Hr.
  - apply dict_get_Some_elem in Hr. rewrite elem_of_reverse in Hr.
    symmetry. by apply dict_get_elem.
  - symmetry. apply dict_get_None. apply dict_get_None in Hr.
    intros Hk. apply Hr. by apply dict_keys_reverse.
Qed.

(** X7.  The catalogue loses nothing and invents nothing.  Its providers
    are the configured ones and the three of the function's own list.  The
    models of a provider are those of its last entry in the configuration
    together with the function's own models for it. *)
Theorem merged_providers_content (CONFIG_PROVIDERS : list (list N * list (list N))) :
  exists res,
    merged_providers CONFIG_PROVIDERS = Ok res
    /\ (forall k, k ∈ res.*1 <->
          k ∈ CONFIG_PROVIDERS.*1 \/ k = py "OpenAI" \/ k = py "Anthropic"
          \/ k = py "Gemini")
    /\ (forall k ms, (k, ms) ∈ res ->
          forall m, m ∈ ms <->
            m ∈ default [] (dict_get k (reverse CONFIG_PROVIDERS))
            \/ m ∈ builtin_models k).
Proof.
  destruct (merged_providers_eq CONFIG_PROVIDERS) as (ks & Hnd & Hks & _ & ->).
  eexists. split; [done|]. split.
  - intros k.
    match goal with
    | |- k ∈ ?l.*1 <-> _ =>
        assert (Hfst : l.*1 = sorted ks)
          by (rewrite <- list_fmap_compose; apply list_fmap_id)
    end.
    rewrite Hfst, elem_of_sorted, Hks.
    by rewrite (dict_keys_update_nil CONFIG_PROVIDERS k).
  - intros k ms Hin m. apply list_elem_of_fmap in Hin as (k' & [= <- ->] & _).
    rewrite elem_of_sorted_set, elem_of_app, dict_get_update. simpl.
    by destruct (dict_get k (reverse CONFIG_PROVIDERS)).
Qed.

End catalogue_content.

Section store_facts.
Context `{Runtime}.
Variable o : outside.

Lemma load_prompts_data (cfg extra : list (list N * pyobj)) (files : dict bytes) :
  dict_contains PROMPTS_FILE files = true ->
  (t ← read_text o PROMPTS_FILE files; json_loads t) = Ok (PyDict extra) ->
  load_prompts o (PyDict cfg) files
  = match dict_update (dict_update [] cfg) extra with
    | [] => fallback_prompts
    | d => d
    end.
Proof.
  intros Hf Hx. unfold load_prompts. rewrite Hf, Hx.
  by destruct (dict_update (dict_update [] cfg) extra).
Qed.

(** X8.  When [prompts.json] holds an object, [load_prompts] gives, for
    every name, the body of the file if the file has the name, else the
    body of [CONFIG_PROMPTS]: the file wins. *)
Theorem load_prompts_file_wins (cfg extra : list (list N * pyobj))
    (files : dict bytes) (k : list N) :
  NoDup (dict_keys cfg) -> NoDup (dict_keys extra) ->
  dict_contains PROMPTS_FILE files = true ->
  (t ← read_text o PROMPTS_FILE files; json_loads t) = Ok (PyDict extra) ->
  cfg <> [] \/ extra <> [] ->
  dict_get k (load_prompts o (PyDict cfg) files)
  = match dict_get k extra with
    | Some v => Some v
    | None => dict_get k cfg
    end.
Proof.
  intros Hc He Hf Hx Hne. rewrite (load_prompts_data cfg extra files Hf Hx).
  assert (Hget : dict_get k (dict_update (dict_update [] cfg) extra)
                 = match dict_get k extra with
                   | Some v => Some v
                   | None => dict_get k cfg
                   end).
  { rewrite !dict_get_update, !dict_get_reverse by done. simpl.
    by destruct (dict_get k extra), (dict_get k cfg). }
  destruct (dict_update (dict_update [] cfg) extra) as [|kv d] eqn:Hd; [|done].
  simpl in Hget. rewrite <- Hget.
  destruct Hne as [Hne|Hne].
  - destruct cfg as [|[k1 v1] cfg]; [done|].
    assert (Hk1 : dict_get k1 (dict_update (dict_update [] ((k1, v1) :: cfg)) extra) <> None).
    { rewrite !dict_get_update, !dict_get_reverse by done. simpl.
      rewrite decide_True by done. by destruct (dict_get k1 extra). }
    by rewrite Hd in Hk1.
  - destruct extra as [|[k1 v1] extra]; [done|].
    assert (Hk1 : dict_get k1 (dict_update (dict_update [] cfg) ((k1, v1) :: extra)) <> None).
    { rewrite dict_get_update, dict_get_reverse by done. simpl.
      by rewrite decide_True by done. }
    by rewrite Hd in Hk1.
Qed.

Lemma load_prompts_config_keys (cfg : list (list N * pyobj)) (files : dict bytes) k :
  k ∈ dict_keys cfg -> k ∈ dict_keys (load_prompts o (PyDict cfg) files).
Proof.
  intros Hk. unfold load_prompts.
  assert (Hup : forall e, dict_get k (dict_update (dict_update [] cfg) e) <> None).
  { intros e. rewrite dict_get_update.
    destruct (dict_get k (reverse e)); [done|].
    intros Hnone%dict_get_None. apply Hnone. by apply dict_keys_update_nil. }
  assert (Hdata : forall data : list (list N * pyobj),
            dict_get k data <> None ->
            k ∈ dict_keys match data with [] => fallback_prompts | _ :: _ => data end).
  { intros data Hd. destruct data; [done|]. apply dict_contains_true.
    unfold dict_contains. by destruct (dict_get k _). }
  apply Hdata.
  destruct (dict_contains PROMPTS_FILE files); [|apply (Hup [])].
  destruct (_ ≫= _) as [[| | | | |l|extra]|e]; try apply (Hup []). apply Hup.
Qed.

Lemma dict_del_absent {V} k (d : list (list N * V)) :
  NoDup (dict_keys d) -> k ∉ dict_keys (dict_del k d).
Proof.
  unfold dict_keys. induction d as [|[k' v'] d IH]; simpl; [by intros _ ?%elem_of_nil|].
  intros [Hn Hd]%NoDup_cons. destruct (decide (k = k')) as [->|Hne]; [done|].
  simpl. apply not_elem_of_cons. split; [done|]. by apply IH.
Qed.

(** X9.  Deleting a prompt that [config.py] defines does not last: when
    [_prompt_delete] is over the name is gone from the store in memory,
    and [load_prompts] on the files it leaves has the name again. *)
Theorem deleted_config_prompt_returns (cfg : list (list N * pyobj)) (w : world) :
  NoDup (dict_keys (prompts (app w))) ->
  prompt_key_var (app w) ∈ dict_keys (prompts (app w)) ->
  prompt_key_var (app w) ∈ dict_keys cfg ->
  (prompt_key_var (app w) ∉ dict_keys (prompts (app (_prompt_delete o w).2)))
  /\ prompt_key_var (app w)
       ∈ dict_keys (load_prompts o (PyDict cfg) (fs (_prompt_delete o w).2)).
Proof.
  intros Hnd Hin Hcfg. split; [|by apply load_prompts_config_keys].
  set (name := prompt_key_var (app w)) in *.
  remember (_prompt_delete o w) as run eqn:Hrun.
  unfold _prompt_delete in Hrun.
  unfold bind at 1 in Hrun. cbn [self] in Hrun. fold name in Hrun.
  apply dict_contains_true in Hin as Hc. rewrite Hc in Hrun.
  unfold bind at 1 in Hrun. cbn [modify] in Hrun.
  unfold bind at 1 in Hrun. cbn [self] in Hrun.
  set (w1 := with_app _ w) in *.
  assert (Hw1 : name ∉ dict_keys (prompts (app w1))).
  { subst w1. cbn. by apply dict_del_absent. }
  unfold bind at 1 in Hrun.
  assert (Hsave : prompts (app (save_prompts o (prompts (app w1)) w1).2)
                  = prompts (app w1)).
  { unfold save_prompts, write_text. destruct (open_fault o PROMPTS_FILE); [done|].
    destruct (write_chunks _ _) as [c [e|]]; [done|].
    by destruct (iterencode _ _).2. }
  destruct (save_prompts o (prompts (app w1)) w1) as [[[]|e] w2];
    cbn [snd] in Hsave; [|subst run; cbn [snd]; by rewrite Hsave].
  set (new_key := hd [] _) in *.
  unfold bind at 1 in Hrun.
  destruct (refresh_prompt_menu_prompts new_key w2) as (Hr & Hp & _).
  destruct (_refresh_prompt_menu new_key w2) as [r w3]. cbn [fst snd] in Hr, Hp.
  subst r run. destruct (truthy new_key); cbn; by rewrite Hp, Hsave.
Qed.

End store_facts.

(** ** The editor of the prompts *)

Section editor_facts.
Context `{Runtime}.
Variable o : outside.

(** The menu after [_refresh_prompt_menu(select)], for a name that is in
    the store. *)
Lemma refresh_prompt_menu_selects (select : str) (w : world) :
  truthy select = true -> select ∈ dict_keys (prompts (app w)) ->
  _refresh_prompt_menu select w
  = (Ok tt, with_app (with_prompt_key_var select)
              (with_app (with_cmb_prompt (dict_keys (prompts (app w)))) w)).
Proof.
  intros Ht Hin. unfold _refresh_prompt_menu, bind, self, modify. simpl.
  destruct (dict_keys (prompts (app w))) as [|k ks] eqn:Hks; [by apply elem_of_nil in Hin|].
  rewrite Ht. by rewrite bool_decide_eq_true_2.
Qed.

Lemma save_prompts_frame (d : dict pyobj) (w : world) :
  app (save_prompts o d w).2 = app w
  /\ forall path, path <> PROMPTS_FILE ->
       dict_get path (fs (save_prompts o d w).2) = dict_get path (fs w).
Proof.
  unfold save_prompts, write_text. destruct (open_fault o PROMPTS_FILE); [done|].
  assert (Hset : forall c path, path <> PROMPTS_FILE ->
            dict_get path (dict_set PROMPTS_FILE c (fs w)) = dict_get path (fs w)).
  { intros c path Hp. by rewrite dict_get_set, decide_False. }
  destruct (write_chunks _ _) as [c [e|]]; [by split; [|apply Hset]|].
  destruct (iterencode _ _).2; by split; [|apply Hset].
Qed.

(** X10.  [_prompt_save] with a name that is blank writes nothing and only
    says so.  With any other name it puts the text of the editor, stripped,
    under that name, stripped; every other entry of the store stays, the
    one that was selected too (saving under a new name does not rename);
    no file but [prompts.json] is touched; and when it returns the saved
    name is the selected one. *)
Theorem prompt_save_upserts (w : world) :
  let name := strip (prompt_name_var (app w)) in
  (truthy name = false ->
   _prompt_save o w
   = (Ok tt, with_app (with_status_var (py "Prompt name is empty.")) w))
  /\ (truthy name = true ->
      dict_get name (prompts (app (_prompt_save o w).2))
      = Some (PyStr (strip (txt_prompt (app w) ++ [NEWLINE])))
      /\ (forall k, k <> name ->
            dict_get k (prompts (app (_prompt_save o w).2))
            = dict_get k (prompts (app w)))
      /\ (forall path, path <> PROMPTS_FILE ->
            dict_get path (fs (_prompt_save o w).2) = dict_get path (fs w))
      /\ ((_prompt_save o w).1 = Ok tt ->
          prompt_key_var (app (_prompt_save o w).2) = name)).
Proof.
  intros name. split.
  - intros Hname. unfold _prompt_save, bind, self. simpl. fold name. by rewrite Hname.
  - intros Hname.
    remember (_prompt_save o w) as run eqn:Hrun.
    unfold _prompt_save in Hrun.
    unfold bind at 1 in Hrun. cbn [self] in Hrun. fold name in Hrun.
    rewrite Hname in Hrun. cbn [negb] in Hrun.
    unfold bind at 1 in Hrun. cbn [modify] in Hrun.
    unfold bind at 1 in Hrun. cbn [self] in Hrun.
    set (text := strip (txt_prompt (app w) ++ [NEWLINE])) in *.
    set (w1 := with_app _ w) in *.
    assert (Hp1 : prompts (app w1) = dict_set name (PyStr text) (prompts (app w))) by done.
    assert (Hf1 : fs w1 = fs w) by done.
    destruct (save_prompts_frame (prompts (app w1)) w1) as [Happ Hfs].
    unfold bind at 1 in Hrun.
    destruct (save_prompts o (prompts (app w1)) w1) as [[[]|e] w2]; cbn [snd] in Happ, Hfs.
    + unfold bind at 1 in Hrun.
      rewrite refresh_prompt_menu_selects in Hrun; [|done|].
      2:{ rewrite Happ, Hp1. apply dict_contains_true. unfold dict_contains.
          by rewrite dict_get_set, decide_True. }
      subst run. cbn. rewrite Happ, Hp1.
      split; [by rewrite dict_get_set, decide_True|].
      split; [intros k Hk; by rewrite dict_get_set, decide_False|].
      split; [|done]. intros path Hpath. rewrite <- Hf1. by apply Hfs.
    + subst run. cbn [fst snd]. rewrite Happ, Hp1.
      split; [by rewrite dict_get_set, decide_True|].
      split; [intros k Hk; by rewrite dict_get_set, decide_False|].
      split; [|done]. intros path Hpath. rewrite <- Hf1. by apply Hfs.
Qed.

Lemma dict_get_del {V} k k' (d : list (list N * V)) :
  k' <> k -> dict_get k' (dict_del k d) = dict_get k' d.
Proof.
  intros Hne. induction d as [|[k1 v1] d IH]; simpl; [done|].
  destruct (decide (k = k1)) as [->|]; simpl.
  - by rewrite decide_False.
  - by rewrite IH.
Qed.

Lemma filter_ne_absent (k : list N) (l : list (list N)) :
  k ∉ l -> filter (fun k' => k' <> k) l = l.
Proof.
  induction l as [|x l IH]; [done|].
  intros [Hx Hl]%not_elem_of_cons.
  rewrite filter_cons_True by done. by rewrite IH.
Qed.

Lemma dict_keys_del {V} k (d : list (list N * V)) :
  NoDup (dict_keys d) ->
  dict_keys (dict_del k d) = filter (fun k' => k' <> k) (dict_keys d).
Proof.
  unfold dict_keys. induction d as [|[k1 v1] d IH]; simpl; [done|].
  intros [Hn Hd]%NoDup_cons. destruct (decide (k = k1)) as [->|Hne]; simpl.
  - rewrite filter_cons_False by (intros Hx; by apply Hx).
    by rewrite filter_ne_absent.
  - rewrite filter_cons_True by done. f_equal. by apply IH.
Qed.

(** X11.  [_prompt_delete] on a name that is not in the store does
    nothing at all.  On a name of the store it removes this entry and no
    other: the other names keep their order and their bodies; no file but
    [prompts.json] is touched; and when it returns, the selected prompt is
    the first one that is left, shown in the editor, or the empty name
    when none is left. *)
Theorem prompt_delete_removes (w : world) :
  let name := prompt_key_var (app w) in
  (name ∉ dict_keys (prompts (app w)) -> _prompt_delete o w = (Ok tt, w))
  /\ (name ∈ dict_keys (prompts (app w)) ->
      NoDup (dict_keys (prompts (app w))) ->
      dict_keys (prompts (app (_prompt_delete o w).2))
      = filter (fun k => k <> name) (dict_keys (prompts (app w)))
      /\ (forall k, k <> name ->
            dict_get k (prompts (app (_prompt_delete o w).2))
            = dict_get k (prompts (app w)))
      /\ (forall path, path <> PROMPTS_FILE ->
            dict_get path (fs (_prompt_delete o w).2) = dict_get path (fs w))
      /\ ((_prompt_delete o w).1 = Ok tt ->
          match filter (fun k => k <> name) (dict_keys (prompts (app w))) with
          | [] => prompt_key_var (app (_prompt_delete o w).2) = []
          | k :: _ =>
              prompt_key_var (app (_prompt_delete o w).2) = k
              /\ (truthy k = true ->
                  prompt_name_var (app (_prompt_delete o w).2) = k
                  /\ txt_prompt (app (_prompt_delete o w).2)
                     = editor_text (default (PyStr [])
                                      (dict_get k (prompts (app w)))))
          end)).
Proof.
  intros name. split.
  - intros Hn. unfold _prompt_delete, bind, self. simpl. fold name.
    apply dict_contains_false in Hn. by rewrite Hn.
  - intros Hin Hnd.
    remember (_prompt_delete o w) as run eqn:Hrun.
    unfold _prompt_delete in Hrun.
    unfold bind at 1 in Hrun. cbn [self] in Hrun. fold name in Hrun.
    apply dict_contains_true in Hin as Hc. rewrite Hc in Hrun.
    unfold bind at 1 in Hrun. cbn [modify] in Hrun.
    unfold bind at 1 in Hrun. cbn [self] in Hrun.
    set (w1 := with_app _ w) in *.
    assert (Hp1 : prompts (app w1) = dict_del name (prompts (app w))) by done.
    assert (Hf1 : fs w1 = fs w) by done.
    assert (Hk1 : prompt_key_var (app w1) = name) by done.
    destruct (save_prompts_frame (prompts (app w1)) w1) as [Happ Hfs].
    unfold bind at 1 in Hrun.
    assert (Hkeys : dict_keys (dict_del name (prompts (app w)))
                    = filter (fun k => k <> name) (dict_keys (prompts (app w))))
      by by apply dict_keys_del.
    destruct (save_prompts o (prompts (app w1)) w1) as [[[]|e] w2]; cbn [snd] in Happ, Hfs.
    2:{ subst run. cbn [fst snd]. rewrite Happ, Hp1. split; [done|].
        split; [intros k Hk; by apply dict_get_del|].
        split; [|done]. intros path Hpath. rewrite <- Hf1. by apply Hfs. }
    rewrite Hp1 in Hrun.
    set (new_key := hd [] (dict_keys (dict_del name (prompts (app w))))) in *.
    unfold bind at 1 in Hrun.
    destruct (refresh_prompt_menu_prompts new_key w2) as (Hr & Hp & Hf).
    assert (Hsel : prompt_key_var (app (_refresh_prompt_menu new_key w2).2) = new_key).
    { unfold _refresh_prompt_menu, bind, self, modify. simpl.
      rewrite Happ, Hp1, Hk1. fold new_key.
      pose proof (dict_del_absent name (prompts (app w)) Hnd) as Habs.
      destruct (dict_keys (dict_del name (prompts (app w)))) as [|k ks] eqn:Hks.
      - subst new_key. simpl.
        destruct (bool_decide (name ∈ [[]])) eqn:Hb; simpl; [|done].
        apply bool_decide_eq_true_1, list_elem_of_singleton in Hb.
        by rewrite Happ, Hk1.
      - subst new_key. simpl.
        destruct (truthy k) eqn:Ht; simpl.
        + by rewrite bool_decide_eq_true_2 by apply list_elem_of_here.
        + by rewrite bool_decide_eq_false_2 by done. }
    destruct (_refresh_prompt_menu new_key w2) as [r w3]. cbn [fst snd] in Hr, Hp, Hf, Hsel.
    subst r.
    assert (Hrun' : prompts (app run.2) = dict_del name (prompts (app w))
                    /\ fs run.2 = fs w2
                    /\ prompt_key_var (app run.2) = new_key
                    /\ (truthy new_key = true ->
                        prompt_name_var (app run.2) = new_key
                        /\ txt_prompt (app run.2)
                           = editor_text (default (PyStr [])
                               (dict_get new_key (dict_del name (prompts (app w))))))).
    { subst run. destruct (truthy new_key); cbn; rewrite ?Hp, ?Happ, ?Hsel; by rewrite ?Hp1. }
    clear Hrun. destruct Hrun' as (Hq & Hg & Hs & Hed). rewrite Hq, Hg.
    split; [done|]. split; [intros k Hk; by apply dict_get_del|].
    split; [intros path Hpath; rewrite <- Hf1; by apply Hfs|].
    intros _. rewrite <- Hkeys.
    pose proof (dict_del_absent name (prompts (app w)) Hnd) as Habs.
    subst new_key.
    destruct (dict_keys (dict_del name (prompts (app w)))) as [|k ks]; [done|].
    simpl in *. split; [done|]. intros Ht. destruct (Hed Ht) as [Hn He].
    split; [done|]. rewrite He, dict_get_del; [done|].
    intros ->. apply Habs, list_elem_of_here.
Qed.

Lemma prompt_candidate_truthy j : truthy (prompt_candidate j) = true.
Proof. by destruct j as [|[|j]]. Qed.

(** X12.  [_prompt_new] selects what it creates: when it is over, the new
    name is the selected prompt and the name shown, the editor holds the
    placeholder body, and the menu lists the names of the store. *)
Theorem prompt_new_selects (w : world) :
  exists (j : nat) (w' : world),
    _prompt_new w = Some (Ok tt, w')
    /\ prompt_key_var (app w') = prompt_candidate j
    /\ prompt_name_var (app w') = prompt_candidate j
    /\ dict_get (prompt_candidate j) (prompts (app w')) = Some new_prompt_body
    /\ txt_prompt (app w') = py "Write your prompt here‚Ä¶"
    /\ cmb_prompt (app w') = dict_keys (prompts (app w')).
Proof.
  destruct (new_prompt_name_spec (prompts (app w)) (length (prompts (app w))) 1)
    as (j & Hj & Hname & Hfree & Hmin); [lia| |].
  { destruct (prompt_candidate_free (prompts (app w))) as (j & Hj & Hfree).
    exists j. split; [lia|done]. }
  change (prompt_candidate 1) with (py "New Prompt") in Hname.
  exists j. unfold _prompt_new. rewrite Hname. cbn [mbind option_bind].
  set (name := prompt_candidate j).
  unfold bind at 1. cbn [modify].
  set (w1 := with_app _ w).
  assert (Hin : name ∈ dict_keys (prompts (app w1))).
  { apply dict_contains_true. unfold dict_contains. subst w1. cbn.
    by rewrite dict_get_set, decide_True. }
  unfold bind at 1.
  rewrite refresh_prompt_menu_selects; [|apply prompt_candidate_truthy|done].
  unfold _load_prompt_to_editor, bind, self, modify.
  eexists. split; [reflexivity|]. cbn.
  rewrite dict_get_set, decide_True by done. done.
Qed.

End editor_facts.

(** ** The log files *)

Lemma dict_set_set {V} k (v1 v2 : V) (d : list (list N * V)) :
  dict_set k v2 (dict_set k v1 d) = dict_set k v2 d.
Proof.
  induction d as [|[k' v'] d IH]; simpl.
  - by rewrite decide_True.
  - destruct (decide (k = k')) as [->|Hne]; simpl.
    + by rewrite decide_True.
    + rewrite decide_False by done. by rewrite IH.
Qed.

Section log_facts.
Context `{Runtime}.
Variable o : outside.

(** The path and the lines of the log file for an answer. *)
Lemma append_log_ok (w : world) (answer ocr_text : str) :
  (_append_log o answer ocr_text w).1 = Ok tt ->
  let p := path_join o (log_dir (tk (app w)))
             (py "result_" ++ strftime_now o ++ py ".txt") in
  let lines :=
    [ py "=== " ++ str_now o ++ py " | " ++ provider_var (tk (app w)) ++ py " | "
        ++ model_var (tk (app w)) ++ py " | " ++ prompt_key_var (app w)
        ++ py " ===" ++ [NEWLINE];
      py "--- OCR ---" ++ [NEWLINE];
      ocr_text ++ [NEWLINE];
      py "--- ANSWER ---" ++ [NEWLINE];
      answer ++ [NEWLINE] ] in
  open_fault o p = None
  /\ exists b, utf8_encode (translate_out (concat lines)) = Some b
     /\ (_append_log o answer ocr_text w).2
        = with_app (fun a => with_txt_log
                      ((py "Log written: " ++ p ++ [NEWLINE]) :: txt_log a) a)
            (with_fs (dict_set p b (fs w)) w).
Proof.
  unfold _append_log, bind, self, fault, write_text, txt_log_insert, modify, ret, raise.
  cbn [fst snd].
  destruct (makedirs_fault o _); [done|].
  destruct (open_fault o _); [done|].
  destruct (write_chunks [] _) as [content [e|]] eqn:Hw; [done|].
  cbn [fst snd]. intros _. split; [done|].
  apply write_chunks_ok in Hw as (b & Hb & ->). by exists b.
Qed.

(** X15.  The name of a log file is the clock read to the second: a
    second answer logged within the same second replaces the first.  After
    both calls the disk is as if the first had never been made, while the
    log box reports two files written. *)
Theorem append_log_same_second (w : world) (a1 t1 a2 t2 : str) :
  (_append_log o a1 t1 w).1 = Ok tt ->
  (_append_log o a2 t2 (_append_log o a1 t1 w).2).1 = Ok tt ->
  let p := path_join o (log_dir (tk (app w)))
             (py "result_" ++ strftime_now o ++ py ".txt") in
  fs (_append_log o a2 t2 (_append_log o a1 t1 w).2).2
  = fs (_append_log o a2 t2 w).2
  /\ txt_log (app (_append_log o a2 t2 (_append_log o a1 t1 w).2).2)
     = (py "Log written: " ++ p ++ [NEWLINE])
       :: (py "Log written: " ++ p ++ [NEWLINE]) :: txt_log (app w).
Proof.
  intros H1 H2 p.
  destruct (append_log_ok w a1 t1 H1) as (Hopen & b1 & Hb1 & Hw1).
  rewrite Hw1 in H2 |- *. clear Hw1.
  destruct (append_log_ok _ a2 t2 H2) as (_ & b2 & Hb2 & Hw2).
  assert (H2' : (_append_log o a2 t2 w).1 = Ok tt).
  { revert H2.
    unfold _append_log, bind, self, fault, write_text, txt_log_insert, modify, ret, raise.
    cbn [fst snd app tk with_app with_fs with_txt_log prompt_key_var fs txt_log].
    destruct (makedirs_fault o _); [done|].
    destruct (open_fault o _); [done|].
    match goal with
    | |- context [write_chunks [] ?c] => by destruct (write_chunks [] c) as [content [e|]]
    end. }
  destruct (append_log_ok w a2 t2 H2') as (_ & b2' & Hb2' & Hw2').
  rewrite Hw2, Hw2'.
  cbn [app tk with_app with_fs with_txt_log prompt_key_var fs txt_log] in Hb2 |- *.
  rewrite Hb2' in Hb2. injection Hb2 as <-.
  split; [|done]. apply dict_set_set.
Qed.

(** X16.  A log file that [_append_log] has written reads back, as UTF-8
    text, as the header, the OCR text and the answer under their titles,
    each as it was given, when none of them holds a carriage return. *)
Theorem append_log_reads_back (w : world) (answer ocr_text : str) :
  (_append_log o answer ocr_text w).1 = Ok tt ->
  let p := path_join o (log_dir (tk (app w)))
             (py "result_" ++ strftime_now o ++ py ".txt") in
  let header :=
    py "=== " ++ str_now o ++ py " | " ++ provider_var (tk (app w)) ++ py " | "
      ++ model_var (tk (app w)) ++ py " | " ++ prompt_key_var (app w) ++ py " ===" in
  CR ∉ header -> CR ∉ ocr_text -> CR ∉ answer ->
  read_text o p (fs (_append_log o answer ocr_text w).2)
  = Ok (header ++ [NEWLINE] ++ py "--- OCR ---" ++ [NEWLINE] ++ ocr_text ++ [NEWLINE]
        ++ py "--- ANSWER ---" ++ [NEWLINE] ++ answer ++ [NEWLINE]).
Proof.
  intros Hok p header Hh Ho Ha.
  destruct (append_log_ok w answer ocr_text Hok) as (Hopen & b & Hb & ->).
  fold p in Hopen. unfold read_text. rewrite Hopen. cbn [fs with_app with_fs].
  rewrite dict_get_set, decide_True by done.
  rewrite (utf8_decode_encode _ _ Hb). rewrite translate_in_out.
  - f_equal. cbn [concat]. subst header. rewrite <- !(assoc_L (++)).
    by rewrite app_nil_r.
  - cbn [concat]. subst header. rewrite !not_elem_of_app in *.
    assert (Hnl : CR ∉ [NEWLINE]).
    { intros Hin%list_elem_of_singleton. discriminate Hin. }
    assert (H1 : CR ∉ py "--- OCR ---").
    { vm_compute. intros Hin. repeat (apply elem_of_cons in Hin as [Hin|Hin]; [done|]).
      by apply elem_of_nil in Hin. }
    assert (H3 : CR ∉ py "--- ANSWER ---").
    { vm_compute. intros Hin. repeat (apply elem_of_cons in Hin as [Hin|Hin]; [done|]).
      by apply elem_of_nil in Hin. }
    destruct Hh as (? & ? & ? & ? & ? & ? & ? & ? & ?).
    repeat split; first [done|apply not_elem_of_nil].
Qed.

End log_facts.

(** ** The overlay *)

Section overlay_facts.
Context `{Runtime}.

Lemma overlay_events_destroyed es s :
  destroyed s = true -> overlay_events es s = (s, []).
Proof.
  intros Hd. induction es as [|e es IH]; [done|].
  cbn [overlay_events]. unfold overlay_event. rewrite Hd. by rewrite IH.
Qed.

Lemma overlay_motions (x y : Z) (p1 : Z * Z) (ms : list (Z * Z)) : forall s c,
  destroyed s = false -> start s = Some p1 -> cur s = Some c ->
  destroyed (overlay_events ((uncurry Motion <$> ms) ++ [ButtonRelease x y]) s).1 = true
  /\ (overlay_events ((uncurry Motion <$> ms) ++ [ButtonRelease x y]) s).2
     = option_list (_on_release (Some p1) (Some (default c (last ms)))).
Proof.
  induction ms as [|[mx my] ms IH]; intros s c Hd Hs Hc.
  - cbn. unfold overlay_event. rewrite Hd, Hs, Hc. cbn. by rewrite app_nil_r.
  - rewrite fmap_cons. cbn [List.app overlay_events uncurry].
    assert (Hstep : overlay_event (Motion mx my) s = (_on_motion mx my s, None))
      by (unfold overlay_event; by rewrite Hd).
    rewrite Hstep.
    destruct (IH (_on_motion mx my s) (mx, my)) as [IH1 IH2]; [done..|].
    destruct (overlay_events _ (_on_motion mx my s)) as [s2 zs].
    cbn [fst snd] in *. split; [done|]. rewrite IH2. cbn [option_list List.app].
    rewrite last_cons. by destruct (last ms).
Qed.

(** X17.  A drag on the overlay: a press, any motions, a release.  The
    overlay is destroyed; [on_done] gets the box between the point of the
    press and the point of the last motion (of the press, without motion;
    the point of the release is not read), whatever the direction of the
    drag, when this box is at least 10 wide and 10 high, and nothing
    otherwise; the two points are corners of the box. *)
Theorem overlay_drag (x1 y1 x y : Z) (ms : list (Z * Z)) :
  let p2 := default (x1, y1) (last ms) in
  let run := overlay_events
               (ButtonPress x1 y1 :: (uncurry Motion <$> ms) ++ [ButtonRelease x y])
               RegionOverlay_init in
  destroyed run.1 = true
  /\ run.2 = (if (10 <=? Z.abs (p2.1 - x1))%Z && (10 <=? Z.abs (p2.2 - y1))%Z
              then [ {| left := Z.min x1 p2.1; top := Z.min y1 p2.2;
                        width := Z.abs (p2.1 - x1); height := Z.abs (p2.2 - y1) |} ]
              else [])
  /\ _on_release (Some (x1, y1)) (Some p2) = _on_release (Some p2) (Some (x1, y1))
  /\ (forall z, z ∈ run.2 ->
        (left z = x1 \/ left z + width z = x1)%Z
        /\ (left z = p2.1 \/ left z + width z = p2.1)%Z
        /\ (top z = y1 \/ top z + height z = y1)%Z
        /\ (top z = p2.2 \/ top z + height z = p2.2)%Z).
Proof.
  intros p2 run.
  assert (Hrun : destroyed run.1 = true
                 /\ run.2 = option_list (_on_release (Some (x1, y1)) (Some p2))).
  { subst run. cbn [overlay_events].
    change (overlay_event (ButtonPress x1 y1) RegionOverlay_init)
      with (_on_press x1 y1 RegionOverlay_init, @None zone).
    destruct (overlay_motions x y (x1, y1) ms (_on_press x1 y1 RegionOverlay_init) (x1, y1))
      as [H1 H2]; [done..|].
    destruct (overlay_events _ (_on_press x1 y1 RegionOverlay_init)) as [s2 zs].
    cbn [fst snd] in *. split; [done|]. by rewrite H2. }
  destruct Hrun as [Hd Hz]. split; [done|]. rewrite Hz. clear Hz Hd run.
  destruct p2 as [x2 y2]. cbn [fst snd _on_release].
  split; [by destruct (_ && _)|]. split.
  - rewrite (Z.min_comm x2 x1), (Z.min_comm y2 y1).
    replace (Z.abs (x1 - x2)) with (Z.abs (x2 - x1)) by lia.
    by replace (Z.abs (y1 - y2)) with (Z.abs (y2 - y1)) by lia.
  - intros z. destruct (_ && _); cbn [option_list]; [|by intros ?%elem_of_nil].
    intros ->%list_elem_of_singleton. cbn [left top width height]. lia.
Qed.

(** X18.  Whatever the events, an overlay gives at most one region to
    [on_done]; a region it gives is at least 10 wide and 10 high; and once
    destroyed it gives none. *)
Theorem overlay_at_most_one (es : list event) (s : RegionOverlay) :
  (length (overlay_events es s).2 <= 1)%nat
  /\ (forall z, z ∈ (overlay_events es s).2 -> (10 <= width z)%Z /\ (10 <= height z)%Z)
  /\ (destroyed s = true -> (overlay_events es s).2 = []).
Proof.
  split; [|split].
  - revert s. induction es as [|e es IH]; intros s; [simpl; lia|].
    cbn [overlay_events]. unfold overlay_event.
    destruct (destroyed s) eqn:Hd.
    + pose proof (IH s). by destruct (overlay_events es s).
    + destruct e as [x y|x y|x y|].
      * pose proof (IH (_on_press x y s)). by destruct (overlay_events es _).
      * pose proof (IH (_on_motion x y s)). by destruct (overlay_events es _).
      * rewrite overlay_events_destroyed by done. rewrite app_nil_r.
        destruct (_on_release _ _); simpl; lia.
      * rewrite overlay_events_destroyed by done. simpl. lia.
  - revert s. induction es as [|e es IH]; intros s z; [by intros ?%elem_of_nil|].
    cbn [overlay_events]. unfold overlay_event.
    destruct (destroyed s) eqn:Hd.
    + pose proof (IH s z). by destruct (overlay_events es s).
    + destruct e as [x y|x y|x y|].
      * pose proof (IH (_on_press x y s) z). by destruct (overlay_events es _).
      * pose proof (IH (_on_motion x y s) z). by destruct (overlay_events es _).
      * rewrite overlay_events_destroyed by done. rewrite app_nil_r.
        destruct (_on_release _ _) as [z'|] eqn:Hz; simpl; [|by intros ?%elem_of_nil].
        intros ->%list_elem_of_singleton. revert Hz. unfold _on_release.
        destruct (start s) as [[a b]|]; [|done]. destruct (cur s) as [[c d]|]; [|done].
        destruct (_ && _) eqn:Hb; [|done]. intros [= <-]. simpl.
        apply andb_prop in Hb as [H1 H2]. lia.
      * rewrite overlay_events_destroyed by done. by intros ?%elem_of_nil.
  - intros Hd. by rewrite overlay_events_destroyed.
Qed.

Lemma overlay_events_regions (es : list event) : forall s z,
  z ∈ (overlay_events es s).2 -> exists a b, _on_release a b = Some z.
Proof.
  induction es as [|e es IH]; intros s z; [by intros ?%elem_of_nil|].
  cbn [overlay_events]. unfold overlay_event.
  destruct (destroyed s) eqn:Hd.
  - pose proof (IH s z). by destruct (overlay_events es s).
  - destruct e as [x y|x y|x y|].
    + pose proof (IH (_on_press x y s) z). by destruct (overlay_events es _).
    + pose proof (IH (_on_motion x y s) z). by destruct (overlay_events es _).
    + rewrite overlay_events_destroyed by done. rewrite app_nil_r.
      destruct (_on_release _ _) as [z'|] eqn:Hz; simpl; [|by intros ?%elem_of_nil].
      intros ->%list_elem_of_singleton. by eexists _, _.
    + rewrite overlay_events_destroyed by done. by intros ?%elem_of_nil.
Qed.

Variable o : outside.

(** X19.  A region that the overlay gives to [on_done] is the region that
    is captured: after [done] has set the four fields, the capture thread
    asks the screen for exactly this region, which is at least 10 by 10,
    keeps it as the capture zone, and does not raise. *)
Theorem drawn_region_is_captured (es : list event) (s : RegionOverlay)
    (z : zone) (auto_capture : bool) (w : world) :
  z ∈ (overlay_events es s).2 ->
  let w1 := (region_done auto_capture (left z) (top z) (width z) (height z) w).2 in
  (region_done auto_capture (left z) (top z) (width z) (height z) w).1 = Ok tt
  /\ (_capture_thread o w1).1 = Ok tt
  /\ grabbed (_capture_thread o w1).2 = grabbed w ++ [z]
  /\ capture_zone (app (_capture_thread o w1).2) = z
  /\ (10 <= width z)%Z /\ (10 <= height z)%Z.
Proof.
  intros Hz w1.
  assert (Hw1 : var_l (tk (app w1)) = Ok (left z) /\ var_t (tk (app w1)) = Ok (top z)
                /\ var_w (tk (app w1)) = Ok (width z) /\ var_h (tk (app w1)) = Ok (height z)
                /\ grabbed w1 = grabbed w).
  { subst w1. unfold region_done, bind, modify, status_var_set. cbn [fst snd].
    by destruct auto_capture. }
  destruct Hw1 as (Hl & Ht & Hw & Hh & Hg).
  split; [unfold region_done, bind, modify, status_var_set; by destruct auto_capture|].
  destruct (overlay_events_regions es s z Hz) as (a & b & Hab).
  destruct (on_release_minimum a b z Hab) as [Hmw Hmh].
  clearbody w1.
  unfold _capture_thread, grab_image, ocr_image, try_except, bind, lift, self,
    modify, q_put. simpl. rewrite Hl, Ht, Hw, Hh, Hg. simpl.
  assert (Hzz : {| left := left z; top := top z; width := width z; height := height z |} = z)
    by by destruct z.
  rewrite Hzz.
  destruct (sct_grab o z) as [shot|e]; simpl; [|done].
  destruct (Image_frombytes o _ _ _) as [img|e]; simpl; [|done].
  destruct (png_thumbnail o _ _) as [small|e]; simpl; [|done].
  by destruct (image_to_string o _ _ _) as [text|e].
Qed.

End overlay_facts.

(** ** The client and the test call *)

Section client_facts.
Context `{Runtime}.

Lemma key_map_get (prov a b c : list N) :
  dict_get prov (dict_update [] [(py "OpenAI", a); (py "Anthropic", b); (py "Gemini", c)])
  = if decide (prov = py "OpenAI") then Some a
    else if decide (prov = py "Anthropic") then Some b
    else if decide (prov = py "Gemini") then Some c
    else None.
Proof. reflexivity. Qed.

Lemma build_llm_returns (v : sdks) (k : widgets) (w : world) :
  exists r w', _build_llm v k w = (Ok r, w').
Proof.
  unfold _build_llm, bind, self, try_except, lift, q_put, modify, ret. cbn [fst snd].
  destruct (negb _); [by eexists _, _|].
  destruct (LLMClient_init v _ _ _); by eexists _, _.
Qed.

(** X20.  [_build_llm] never raises.  A client it returns is for the
    selected provider and model, one of the three providers, whose SDK is
    there, with the key of this provider, stripped and not empty; and then
    nothing was put on the queue.  When it returns no client it has put
    one message on the queue; for a provider that is none of the three
    this message is the one of a missing key. *)
Theorem build_llm_outcome (v : sdks) (k : widgets) (w : world) :
  let prov := provider_var (tk (app w)) in
  (exists r, (_build_llm v k w).1 = Ok r)
  /\ (forall c, (_build_llm v k w).1 = Ok (Some c) ->
        (_build_llm v k w).2 = w
        /\ provider c = prov /\ model c = model_var (tk (app w))
        /\ truthy (api_key c) = true
        /\ (prov = py "OpenAI" /\ api_key c = strip (key_openai k)
              /\ OpenAI_present v = true
            \/ prov = py "Anthropic" /\ api_key c = strip (key_anthropic k)
              /\ anthropic_present v = true
            \/ prov = py "Gemini" /\ api_key c = strip (key_gemini k)
              /\ genai_present v = true))
  /\ ((_build_llm v k w).1 = Ok None ->
      (exists kind msg,
         (_build_llm v k w).2
         = with_app (fun a => with_q_ui (q_ui a ++ [(kind, PText msg)]) a) w)
      /\ (prov <> py "OpenAI" -> prov <> py "Anthropic" -> prov <> py "Gemini" ->
          (_build_llm v k w).2
          = with_app (fun a => with_q_ui
              (q_ui a ++ [(py "status",
                           PText (py "Missing API key for " ++ prov ++ py "."))]) a) w)).
Proof.
  intros prov. split; [|split].
  - destruct (build_llm_returns v k w) as (r & w' & ->). by exists r.
  - intros c. unfold _build_llm, bind, self, try_except, lift, q_put, modify, ret.
    cbn [fst snd]. fold prov. rewrite key_map_get.
    destruct (truthy (default [] _)) eqn:Hkey; cbn [negb fst snd]; [|done].
    unfold LLMClient_init.
    destruct (decide (prov = py "OpenAI")) as [Ho|Ho].
    { rewrite bool_decide_eq_true_2 by done. cbn [default] in Hkey.
      destruct (OpenAI_present v); cbn [negb fst snd]; [|done].
      destruct (OpenAI_fault v _); cbn [fst snd]; [done|].
      intros [= <-]. cbn. split_and!; try done. by left. }
    rewrite (bool_decide_eq_false_2 (prov = py "OpenAI")) by done.
    destruct (decide (prov = py "Anthropic")) as [Ha|Ha].
    { rewrite bool_decide_eq_true_2 by done. cbn [default] in Hkey.
      destruct (anthropic_present v); cbn [negb fst snd]; [|done].
      destruct (Anthropic_fault v _); cbn [fst snd]; [done|].
      intros [= <-]. cbn. split_and!; try done. right. by left. }
    rewrite (bool_decide_eq_false_2 (prov = py "Anthropic")) by done.
    destruct (decide (prov = py "Gemini")) as [Hg|Hg].
    { rewrite bool_decide_eq_true_2 by done. cbn [default] in Hkey.
      destruct (genai_present v); cbn [negb fst snd]; [|done].
      destruct (GenerativeModel_fault v _ _); cbn [fst snd]; [done|].
      intros [= <-]. cbn. split_and!; try done. right. by right. }
    done.
  - unfold _build_llm, bind, self, try_except, lift, q_put, modify, ret.
    cbn [fst snd]. fold prov. rewrite key_map_get.
    destruct (truthy (default [] _)) eqn:Hkey; cbn [negb fst snd].
    + destruct (LLMClient_init v _ _ _) as [c|e] eqn:Hinit; cbn [fst snd]; [done|].
      intros _. split; [by eexists _, _|]. intros Ho Ha Hg. exfalso.
      rewrite !decide_False in Hkey by done. done.
    + intros _. split; [by eexists _, _|done].
Qed.

Variable o : outside.
Variable hst : host.

(** X21.  The thread of [_test_ai_call] never raises, whatever the client,
    the vendor and the sinks do.  And when no client could be built, it
    calls no vendor, sends nothing, writes no file and leaves the
    clipboard. *)
Theorem test_ai_call_never_raises (v : sdks) (k : widgets) (w : world) :
  (_test_ai_call_run o hst v k w).1.1 = Ok tt
  /\ ((_build_llm v k w).1 = Ok None ->
      (_test_ai_call_run o hst v k w).2 = []
      /\ sent (_test_ai_call_run o hst v k w).1.2 = sent w
      /\ fs (_test_ai_call_run o hst v k w).1.2 = fs w
      /\ clipboard (_test_ai_call_run o hst v k w).1.2 = clipboard w).
Proof.
  unfold _test_ai_call_run.
  destruct (build_llm_returns v k w) as (r & w1 & Hb).
  assert (Hw1 : sent w1 = sent w /\ fs w1 = fs w /\ clipboard w1 = clipboard w).
  { revert Hb. unfold _build_llm, bind, self, try_except, lift, q_put, modify, ret.
    cbn [fst snd]. destruct (negb _); [by intros [= <- <-]|].
    destruct (LLMClient_init v _ _ _); by intros [= <- <-]. }
  rewrite Hb. cbn [fst snd]. destruct r as [llm|]; [|done].
  split; [|done].
  destruct (ask o hst v llm _ _) as [[[[]|e] w3] calls]; done.
Qed.

(** The dispatch when the directory of the logs cannot be made. *)
Lemma post_answer_disk_failure (w : world) (ans ocr_text : list N)
    (img_bytes : option (list Byte.byte)) (e : exn) :
  do_auto_save (tk (app w)) = true ->
  makedirs_fault o (log_dir (tk (app w))) = Some e ->
  exists w', _post_answer o ans ocr_text img_bytes w = (Raise e, w')
    /\ sent w' = sent w /\ fs w' = fs w
    /\ q_ui (app w') = q_ui (app w) ++ [(py "ai_text", PText ans);
                                        (py "status", PText (py "AI answer received."))].
Proof.
  intros Hsave Hdir.
  unfold _post_answer, _append_log, _send_telegram_message, write_text, post,
    q_put, txt_log_insert, fault, try_except, bind, ret, raise, modify, self,
    lift; simpl. rewrite Hsave.
  destruct (do_copy_clipboard (tk (app w))); simpl;
    [destruct (clipboard_clear_fault o); simpl;
       [|destruct (clipboard_append_fault o); simpl]|];
    rewrite Hdir; simpl; eexists; (split; [reflexivity|]); simpl;
    by rewrite <- (assoc_L (++)).
Qed.

(** X22.  A failure of the disk log during the test call does not get
    lost: with a client, a prompt that is a text and an answer of the
    vendor, when the directory of the logs cannot be made the thread ends
    with the queue holding, after what it held, the status of the call, the
    answer, its status, and the error of the disk as an AI error; and
    nothing was sent to the web. *)
Theorem test_ai_call_reports_disk_failure (v : sdks) (k : widgets) (w : world)
    (llm : LLMClient) (prompt ans : list N) (calls : list vendor_call) (e : exn) :
  let t := strip (txt_ocr k) in
  let txt := if truthy t then t else py "A = 2, B = 3. Sum? A)3 B)4 C)5" in
  _build_llm v k w = (Ok (Some llm), w) ->
  dict_get (prompt_key_var (app w)) (prompts (app w)) = Some (PyStr prompt) ->
  complete v llm txt prompt (temperature_var (tk (app w))) = (Ok ans, calls) ->
  do_auto_save (tk (app w)) = true ->
  makedirs_fault o (log_dir (tk (app w))) = Some e ->
  (_test_ai_call_run o hst v k w).1.1 = Ok tt
  /\ (_test_ai_call_run o hst v k w).2 = calls
  /\ sent (_test_ai_call_run o hst v k w).1.2 = sent w
  /\ q_ui (app (_test_ai_call_run o hst v k w).1.2)
     = q_ui (app w) ++
       [(py "status", PText (py "Calling AI‚Ä¶"));
        (py "ai_text", PText ans);
        (py "status", PText (py "AI answer received."));
        (py "error", PText (py "AI error: " ++ str_of_exn hst e))].
Proof.
  intros t txt Hb Hp Hc Hsave Hdir.
  unfold _test_ai_call_run. cbv zeta. fold t. fold txt. rewrite Hb. cbv iota beta.
  set (w2 := (q_put (py "status") (PText (py "Calling AI‚Ä¶")) w).2).
  unfold ask.
  change (prompt_key_var (app w2)) with (prompt_key_var (app w)).
  change (prompts (app w2)) with (prompts (app w)).
  change (tk (app w2)) with (tk (app w)).
  rewrite Hp. cbn [default from_option]. unfold id. cbv iota. rewrite Hc.
  destruct (post_answer_disk_failure w2 ans txt None e Hsave Hdir)
    as (w3 & -> & Hsent & _ & Hq).
  cbn [fst snd]. split; [done|]. split; [done|]. split; [done|].
  unfold q_put, modify. cbn. rewrite Hq. subst w2. cbn.
  by rewrite <- !(assoc_L (++)).
Qed.

End client_facts.

(** ** The queue of the UI *)

Section queue_facts.
Context `{Runtime}.
Variable hst : host.

Lemma last_payload_cons kinds kind p q :
  last_payload kinds ((kind, p) :: q)
  = match last_payload kinds q with
    | Some y => Some y
    | None => if decide (kind ∈ kinds) then Some p else None
    end.
Proof.
  unfold last_payload. destruct (decide (kind ∈ kinds)) as [Hin|Hn].
  - rewrite filter_cons_True by done. rewrite last_cons.
    by destruct (last (filter _ q)).
  - rewrite filter_cons_False by done. by destruct (last (filter _ q)).
Qed.

Lemma drain_no_preview (q : list (list N * payload)) : forall k a,
  Forall (fun it => it.1 <> py "preview") q ->
  drain hst q k a
  = (Ok tt,
     ({| key_openai := key_openai k; key_anthropic := key_anthropic k;
         key_gemini := key_gemini k; providers := providers k;
         cmb_model := cmb_model k;
         txt_ocr := from_option box_text (txt_ocr k) (last_payload [py "ocr_text"] q);
         txt_ai := from_option box_text (txt_ai k) (last_payload [py "ai_text"] q);
         preview := preview k |},
      with_q_ui []
        (with_status_var
           (from_option (str_of_payload hst) (status_var a)
              (last_payload [py "status"; py "error"] q)) a))).
Proof.
  assert (Hne : forall (x y : list N) (l : list (list N)),
            x <> y -> x ∉ l -> x ∉ y :: l).
  { intros x y l Hxy Hl. by apply not_elem_of_cons. }
  induction q as [|[kind p] q IH]; intros k a Hq.
  - by destruct k, a.
  - apply Forall_cons in Hq as [Hkind Hq]. simpl in Hkind.
    cbn [drain]. rewrite !last_payload_cons.
    rewrite bool_decide_eq_false_2 by done.
    destruct (decide (kind = py "ocr_text")) as [->|H1].
    { rewrite bool_decide_eq_true_2 by done. rewrite IH by done.
      rewrite decide_True by apply list_elem_of_here.
      rewrite !decide_False
        by (repeat (apply Hne; [by vm_compute|]); apply not_elem_of_nil).
      by destruct (last_payload [py "ocr_text"] q), (last_payload [py "ai_text"] q),
        (last_payload [py "status"; py "error"] q). }
    rewrite (bool_decide_eq_false_2 (kind = py "ocr_text")) by done.
    rewrite (decide_False (P := kind ∈ [py "ocr_text"]))
      by by intros ->%list_elem_of_singleton.
    destruct (decide (kind = py "ai_text")) as [->|H2].
    { rewrite bool_decide_eq_true_2 by done. rewrite IH by done.
      rewrite decide_True by apply list_elem_of_here.
      rewrite !decide_False
        by (repeat (apply Hne; [by vm_compute|]); apply not_elem_of_nil).
      by destruct (last_payload [py "ocr_text"] q), (last_payload [py "ai_text"] q),
        (last_payload [py "status"; py "error"] q). }
    rewrite (bool_decide_eq_false_2 (kind = py "ai_text")) by done.
    rewrite (decide_False (P := kind ∈ [py "ai_text"]))
      by by intros ->%list_elem_of_singleton.
    destruct (decide (kind = py "status")) as [->|H3].
    { rewrite bool_decide_eq_true_2 by done. rewrite IH by done.
      rewrite decide_True by apply list_elem_of_here.
      by destruct (last_payload [py "ocr_text"] q), (last_payload [py "ai_text"] q),
        (last_payload [py "status"; py "error"] q). }
    rewrite (bool_decide_eq_false_2 (kind = py "status")) by done.
    destruct (decide (kind = py "error")) as [->|H4].
    { rewrite bool_decide_eq_true_2 by done. rewrite IH by done.
      rewrite decide_True by (apply list_elem_of_further, list_elem_of_here).
      by destruct (last_payload [py "ocr_text"] q), (last_payload [py "ai_text"] q),
        (last_payload [py "status"; py "error"] q). }
    rewrite (bool_decide_eq_false_2 (kind = py "error")) by done.
    rewrite IH by done.
    rewrite decide_False
      by (repeat (apply Hne; [done|]); apply not_elem_of_nil).
    by destruct (last_payload [py "ocr_text"] q), (last_payload [py "ai_text"] q),
      (last_payload [py "status"; py "error"] q).
Qed.

(** X23.  On a queue without preview, [_drain_ui_queue] does not raise
    and empties the queue; afterwards the status is the payload of the last
    status or error message, the box of the OCR text that of the last OCR
    text, the box of the answer that of the last answer, each as it was
    when there was no such message; items of any other kind are dropped. *)
Theorem drain_ui_queue_last_wins (k : widgets) (w : world) :
  Forall (fun it => it.1 <> py "preview") (q_ui (app w)) ->
  let r := _drain_ui_queue hst k w in
  r.1 = Ok tt
  /\ q_ui (app r.2.2) = []
  /\ status_var (app r.2.2)
     = from_option (str_of_payload hst) (status_var (app w))
         (last_payload [py "status"; py "error"] (q_ui (app w)))
  /\ txt_ocr r.2.1
     = from_option box_text (txt_ocr k) (last_payload [py "ocr_text"] (q_ui (app w)))
  /\ txt_ai r.2.1
     = from_option box_text (txt_ai k) (last_payload [py "ai_text"] (q_ui (app w)))
  /\ preview r.2.1 = preview k
  /\ prompts (app r.2.2) = prompts (app w) /\ fs r.2.2 = fs w.
Proof.
  intros Hq r. subst r. unfold _drain_ui_queue.
  by rewrite (drain_no_preview _ k (app w) Hq).
Qed.

End queue_facts.

Section capture_queue_facts.
Context `{Runtime}.
Variable o : outside.
Variable hst : host.

(** The queue after a capture that went through. *)
Lemma capture_thread_success (w : world) (l t wd h : Z) (shot : ScreenShot)
    (img : Image) (png : list Byte.byte) (text : list N) :
  var_l (tk (app w)) = Ok l -> var_t (tk (app w)) = Ok t ->
  var_w (tk (app w)) = Ok wd -> var_h (tk (app w)) = Ok h ->
  sct_grab o {| left := l; top := t; width := wd; height := h |} = Ok shot ->
  Image_frombytes o (py "RGB") (shot_size shot) (shot_rgb shot) = Ok img ->
  png_thumbnail o img (960, 540)%Z = Ok png ->
  image_to_string o img (var_lang (tk (app w)))
    (py "--oem " ++ var_oem (tk (app w)) ++ py " --psm " ++ var_psm (tk (app w)))
    = Ok text ->
  q_ui (app (_capture_thread o w).2)
  = q_ui (app w) ++
    [(py "preview", PBytes png); (py "ocr_text", PText text);
     (py "status",
      PText (py "Capture OK (" ++ str_of_nat (length text) ++ py " chars)"))]
  /\ status_var (app (_capture_thread o w).2) = status_var (app w).
Proof.
  intros Hl Ht Hw Hh Hg Hi Hp Ho. simpl in Hi, Ho.
  unfold _capture_thread, grab_image, ocr_image, try_except, bind, lift, self,
    modify, q_put. simpl. rewrite Hl, Ht, Hw, Hh. simpl. rewrite Hg. simpl.
  rewrite Hi. simpl. rewrite Hp. simpl. rewrite Ho. simpl.
  by rewrite <- !(assoc_L (++)).
Qed.

(** X24.  From the capture to the screen: when the capture goes through
    and the preview can be shown, one run of [_drain_ui_queue] after
    [_capture_thread] leaves the text that the OCR read in the box of the
    OCR text, its length in the status, the preview on screen and the queue
    empty. *)
Theorem capture_then_drain_shows_text (k : widgets) (w : world) (l t wd h : Z)
    (shot : ScreenShot) (img im2 : Image) (png : list Byte.byte) (text : list N) :
  q_ui (app w) = [] ->
  var_l (tk (app w)) = Ok l -> var_t (tk (app w)) = Ok t ->
  var_w (tk (app w)) = Ok wd -> var_h (tk (app w)) = Ok h ->
  sct_grab o {| left := l; top := t; width := wd; height := h |} = Ok shot ->
  Image_frombytes o (py "RGB") (shot_size shot) (shot_rgb shot) = Ok img ->
  png_thumbnail o img (960, 540)%Z = Ok png ->
  image_to_string o img (var_lang (tk (app w)))
    (py "--oem " ++ var_oem (tk (app w)) ++ py " --psm " ++ var_psm (tk (app w)))
    = Ok text ->
  Image_open hst png = Ok im2 -> show_fault hst im2 = None ->
  let r := _drain_ui_queue hst k (_capture_thread o w).2 in
  r.1 = Ok tt
  /\ txt_ocr r.2.1 = text
  /\ status_var (app r.2.2)
     = py "Capture OK (" ++ str_of_nat (length text) ++ py " chars)"
  /\ preview r.2.1 = Some im2
  /\ q_ui (app r.2.2) = [].
Proof.
  intros Hq Hl Ht Hw Hh Hg Hi Hp Ho Hopen Hshow r. subst r.
  destruct (capture_thread_success w l t wd h shot img png text) as [Hqueue _];
    [done..|].
  unfold _drain_ui_queue. rewrite Hqueue, Hq. cbn [List.app drain].
  rewrite bool_decide_eq_true_2 by done. rewrite Hopen, Hshow.
  rewrite (bool_decide_eq_false_2 (py "ocr_text" = py "preview")) by by vm_compute.
  rewrite bool_decide_eq_true_2 by done.
  rewrite (bool_decide_eq_false_2 (py "status" = py "preview")) by by vm_compute.
  rewrite (bool_decide_eq_false_2 (py "status" = py "ocr_text")) by by vm_compute.
  rewrite (bool_decide_eq_false_2 (py "status" = py "ai_text")) by by vm_compute.
  rewrite bool_decide_eq_true_2 by done. done.
Qed.

(** X25.  A preview that cannot be opened stops everything behind it:
    after a capture that went through, when [Image.open] raises on the
    preview, [_drain_ui_queue] raises with it before it asks to be called
    again; the OCR text and the status of this capture stay in the queue,
    and neither the box of the OCR text nor the status has changed. *)
Theorem bad_preview_stops_drain (k : widgets) (w : world) (l t wd h : Z)
    (shot : ScreenShot) (img : Image) (png : list Byte.byte) (text : list N)
    (e : exn) :
  q_ui (app w) = [] ->
  var_l (tk (app w)) = Ok l -> var_t (tk (app w)) = Ok t ->
  var_w (tk (app w)) = Ok wd -> var_h (tk (app w)) = Ok h ->
  sct_grab o {| left := l; top := t; width := wd; height := h |} = Ok shot ->
  Image_frombytes o (py "RGB") (shot_size shot) (shot_rgb shot) = Ok img ->
  png_thumbnail o img (960, 540)%Z = Ok png ->
  image_to_string o img (var_lang (tk (app w)))
    (py "--oem " ++ var_oem (tk (app w)) ++ py " --psm " ++ var_psm (tk (app w)))
    = Ok text ->
  Image_open hst png = Raise e ->
  let r := _drain_ui_queue hst k (_capture_thread o w).2 in
  r.1 = Raise e
  /\ r.2.1 = k
  /\ status_var (app r.2.2) = status_var (app w)
  /\ q_ui (app r.2.2)
     = [(py "ocr_text", PText text);
        (py "status",
         PText (py "Capture OK (" ++ str_of_nat (length text) ++ py " chars)"))].
Proof.
  intros Hq Hl Ht Hw Hh Hg Hi Hp Ho Hopen r. subst r.
  destruct (capture_thread_success w l t wd h shot img png text) as [Hqueue Hst];
    [done..|].
  unfold _drain_ui_queue. rewrite Hqueue, Hq. cbn [List.app drain].
  rewrite bool_decide_eq_true_2 by done. rewrite Hopen. by cbn.
Qed.

End capture_queue_facts.

(** ** The tests of the web sinks *)

Section sink_test_facts.
Context `{Runtime}.
Variable o : outside.

(** An address of the bot is prepared, whatever the token. *)
Lemma telegram_address (token : list N) :
  refusal o (py "https://api.telegram.org/bot" ++ token ++ py "/sendMessage") = None.
Proof. reflexivity. Qed.

(** X26.  [_test_discord] never raises.  The address is the webhook,
    stripped.  When [requests] refuses the address, as it does for an
    address that names neither [http://] nor [https://], the empty one
    among them, nothing is sent and the status reports the refusal.
    Otherwise exactly one request is sent, and the status says
    [Discord OK.] when, and only when, the web answered with a status
    below 300. *)
Theorem test_discord_outcome (w : world) :
  let u := strip (var_webhook (tk (app w))) in
  let req := {| url := u;
                body := FormData
                  [(py "content", py "Test from OCR QCM ‚Äì CTk Neon ‚úÖ")] [];
                timeout := 10 |} in
  let after := (_test_discord o w).2 in
  (_test_discord o w).1 = Ok tt
  /\ (forall e, refusal o u = Some e ->
        sent after = sent w
        /\ status_var (app after) = py "Discord failed: " ++ exn_msg e)
  /\ (address_of u = Refused ->
        sent after = sent w
        /\ status_var (app after) = py "Discord failed: " ++ exn_msg (url_refusal o u))
  /\ (refusal o u = None ->
        sent after = sent w ++ [req]
        /\ (status_var (app after) = py "Discord OK."
            <-> exists resp, requests_post o req = Ok resp
                             /\ (status_code resp < 300)%Z)).
Proof.
  intros u req after. subst after.
  assert (Hrefused : forall e, refusal o u = Some e ->
            (_test_discord o w).1 = Ok tt
            /\ sent (_test_discord o w).2 = sent w
            /\ status_var (app (_test_discord o w).2)
               = py "Discord failed: " ++ exn_msg e).
  { intros e He.
    unfold _test_discord, try_except, bind, self, post, raise, ret, status_var_set,
      modify. cbn [fst snd url]. fold u. by rewrite He. }
  destruct (refusal o u) as [e|] eqn:Hu.
  - destruct (Hrefused e eq_refl) as (H1 & H2 & H3).
    split; [done|]. split; [by intros ? [= <-]|]. split; [|done].
    intros Ha. unfold refusal in Hu. rewrite Ha in Hu. by injection Hu as <-.
  - assert (Hno : address_of u <> Refused).
    { intros Ha. unfold refusal in Hu. by rewrite Ha in Hu. }
    unfold _test_discord, try_except, bind, self, post, raise, ret, status_var_set,
      modify. cbn [fst snd url]. fold u. rewrite Hu. fold req.
    destruct (requests_post o req) as [resp|e]; cbn [fst snd].
    + destruct (Z.leb_spec 300 (status_code resp)); cbn [fst snd].
      * split; [done|]. split; [done|]. split; [done|]. intros _. split; [done|]. split.
        -- intros Hs. by vm_compute in Hs.
        -- intros (resp' & [= <-] & Hlt). lia.
      * split; [done|]. split; [done|]. split; [done|]. intros _. split; [done|].
        split; [|done]. intros _. by exists resp.
    + split; [done|]. split; [done|]. split; [done|]. intros _. split; [done|]. split.
      * intros Hs. by vm_compute in Hs.
      * by intros (resp' & ? & _).
Qed.

(** X27.  [_test_telegram] never raises.  With a blank token or a blank
    chat id it sends nothing and the status names the missing credentials.
    Otherwise it sends exactly one request, and the status says
    [Telegram OK.] when, and only when, the web answered with a status
    below 300. *)
Theorem test_telegram_outcome (w : world) :
  let token := strip (telegram_token (tk (app w))) in
  let chat := strip (telegram_chat (tk (app w))) in
  let req := {| url := py "https://api.telegram.org/bot" ++ token ++ py "/sendMessage";
                body := JsonBody (PyDict [
                  (py "chat_id", PyStr chat);
                  (py "text", PyStr (py "Test from OCR QCM ‚Äì CTk Neon ‚úÖ"));
                  (py "parse_mode", PyStr (py "Markdown"))]);
                timeout := 10 |} in
  (_test_telegram o w).1 = Ok tt
  /\ (truthy token = false \/ truthy chat = false ->
      sent (_test_telegram o w).2 = sent w
      /\ status_var (app (_test_telegram o w).2)
         = py "Telegram failed: Please set bot token and chat id.")
  /\ (truthy token = true -> truthy chat = true ->
      sent (_test_telegram o w).2 = sent w ++ [req]
      /\ (status_var (app (_test_telegram o w).2) = py "Telegram OK."
          <-> exists resp, requests_post o req = Ok resp /\ (status_code resp < 300)%Z)).
Proof.
  intros token chat req.
  unfold _test_telegram, _send_telegram_message, try_except, bind, self, post,
    raise, ret, status_var_set, modify.
  cbn [fst snd url]. fold token. fold chat.
  destruct (truthy token) eqn:Ht; cbn [negb orb fst snd];
    [destruct (truthy chat) eqn:Hc; cbn [negb orb fst snd]|].
  - rewrite telegram_address. fold req. split; [|split; [by intros [|]|intros _ _]].
    + destruct (requests_post o req) as [resp|e]; cbn [fst snd]; [|done].
      by destruct (300 <=? status_code resp)%Z.
    + destruct (requests_post o req) as [resp|e]; cbn [fst snd].
      * destruct (Z.leb_spec 300 (status_code resp)); cbn [fst snd].
        -- split; [done|]. split.
           ++ intros Hs. by vm_compute in Hs.
           ++ intros (resp' & [= <-] & Hlt). lia.
        -- split; [done|]. split; [|done]. intros _. by exists resp.
      * split; [done|]. split.
        -- intros Hs. by vm_compute in Hs.
        -- by intros (resp' & ? & _).
  - split; [done|]. split; [done|]. by intros _ ?.
  - split; [done|]. split; [done|]. by intros ? _.
Qed.

End sink_test_facts.

(** Addresses, as [requests] takes them. *)
Lemma address_of_examples :
  address_of [] = Refused
  /\ address_of (py "discord.com/api/webhooks/1") = Refused
  /\ address_of (py "ftp://example.org/x") = Refused
  /\ address_of (py "https://discord.com/api/webhooks/1") = Prepared
  /\ address_of (py " HTTP://Example.org") = Prepared
  /\ address_of (py "https://") = Undecided
  /\ address_of (py "http://localhost:8080/hook") = Undecided.
Proof. repeat split; vm_compute; reflexivity. Qed.

(** ** The first selection and the menu of the models *)

Section selection_facts.
Context `{Runtime}.

Lemma refresh_models_lookup (prov model : list N) (menu models : list (list N))
    (ps : list (list N * list (list N))) :
  NoDup ps.*1 -> (prov, models) ∈ ps ->
  refresh_models prov model menu ps
  = if bool_decide (model ∈ models) then (Ok tt, (models, model))
    else match models with
         | m :: _ => (Ok tt, (models, m))
         | [] => (Raise (Exn IndexError (py "list index out of range")),
                  (models, model))
         end.
Proof.
  induction ps as [|[p ms] ps IH]; [by intros _ ?%elem_of_nil|].
  rewrite fmap_cons. intros [Hn Hnd]%NoDup_cons [Hhd|Htl]%elem_of_cons.
  - injection Hhd as <- <-. cbn [refresh_models].
    by rewrite bool_decide_eq_true_2.
  - cbn [refresh_models]. rewrite bool_decide_eq_false_2; [by apply IH|].
    intros ->. apply Hn. apply list_elem_of_fmap. by exists (prov, models).
Qed.

Lemma refresh_models_absent (prov model : list N) (menu : list (list N))
    (ps : list (list N * list (list N))) :
  prov ∉ ps.*1 -> refresh_models prov model menu ps = (Ok tt, (menu, model)).
Proof.
  induction ps as [|[p ms] ps IH]; [done|].
  rewrite fmap_cons. intros [Hne Hn]%not_elem_of_cons. cbn [refresh_models].
  rewrite bool_decide_eq_false_2 by done. by apply IH.
Qed.

Lemma builtin_models_nonempty k :
  k = py "OpenAI" \/ k = py "Anthropic" \/ k = py "Gemini" ->
  exists m, m ∈ builtin_models k.
Proof.
  intros [-> | [-> | ->]]; eexists; apply list_elem_of_here.
Qed.

(** X28.  The menu of the models on the catalogue of [merged_providers].
    For one of the three providers of the function's own list,
    [_refresh_models_for_provider] does not raise, the menu becomes the list
    of this provider in the catalogue, and the selected model is one of the
    menu afterwards: the one that was selected when the menu has it, the
    first of the menu otherwise.  For a provider that the catalogue does
    not have, nothing changes.  For a provider of the catalogue without
    any model, it raises an [IndexError]. *)
Theorem refresh_models_on_catalogue (cfg res : list (list N * list (list N)))
    (k : widgets) (w : world) :
  merged_providers cfg = Ok res -> providers k = res ->
  let prov := provider_var (tk (app w)) in
  let r := _refresh_models_for_provider k w in
  (prov = py "OpenAI" \/ prov = py "Anthropic" \/ prov = py "Gemini" ->
   r.1 = Ok tt
   /\ (prov, cmb_model r.2.1) ∈ res
   /\ model_var (tk (app r.2.2)) ∈ cmb_model r.2.1
   /\ (model_var (tk (app w)) ∈ cmb_model r.2.1 ->
       model_var (tk (app r.2.2)) = model_var (tk (app w)))
   /\ (model_var (tk (app w)) ∉ cmb_model r.2.1 ->
       head (cmb_model r.2.1) = Some (model_var (tk (app r.2.2)))))
  /\ (prov ∉ res.*1 ->
      r.1 = Ok tt /\ cmb_model r.2.1 = cmb_model k
      /\ model_var (tk (app r.2.2)) = model_var (tk (app w)))
  /\ ((prov, []) ∈ res ->
      r.1 = Raise (Exn IndexError (py "list index out of range"))).
Proof.
  intros Hres Hk prov r.
  destruct (merged_providers_value_sorted cfg) as (res' & Hres' & _ & Hnd & _).
  rewrite Hres in Hres'. injection Hres' as <-.
  subst r. unfold _refresh_models_for_provider. rewrite Hk. fold prov.
  split; [|split].
  - intros Hprov.
    destruct (merged_providers_eq cfg) as (ks & _ & Hks & _ & Heq).
    rewrite Hres in Heq. injection Heq as ->.
    set (F := fun k0 => (k0, sorted_set
              (default [] (dict_get k0 (dict_update [] cfg)) ++ builtin_models k0))) in *.
    assert (Hin : F prov ∈ F <$> sorted ks).
    { apply list_elem_of_fmap. exists prov. split; [done|].
      apply elem_of_sorted, Hks. by right. }
    rewrite (refresh_models_lookup prov _ _ (F prov).2 _ Hnd Hin).
    destruct (builtin_models_nonempty prov Hprov) as [m Hm].
    assert (Hm' : m ∈ (F prov).2).
    { apply elem_of_sorted_set, elem_of_app. by right. }
    case_bool_decide as Hmodel; cbn [fst snd].
    + split; [done|]. split; [done|]. split; [done|]. split; [done|].
      by intros Hn.
    + destruct (F prov).2 as [|m0 ms] eqn:Hms; [by apply elem_of_nil in Hm'|].
      cbn [fst snd]. split; [done|]. split; [by rewrite <- Hms|].
      split; [apply list_elem_of_here|]. split; [done|]. by intros _.
  - intros Hn. by rewrite refresh_models_absent.
  - intros Hin. rewrite (refresh_models_lookup prov _ _ [] _ Hnd Hin).
    rewrite bool_decide_eq_false_2; [done|]. by intros ?%elem_of_nil.
Qed.

Variable o : outside.

Lemma load_prompts_nonempty (CONFIG_PROMPTS : pyobj) (files : dict bytes) :
  load_prompts o CONFIG_PROMPTS files <> [].
Proof.
  unfold load_prompts.
  match goal with |- match ?data with _ => _ end <> _ => by destruct data end.
Qed.

(** X29.  What [__init__] selects first exists.  The first provider is in
    the catalogue of [merged_providers], whatever [PROVIDER] is; and
    choosing the first prompt does not raise and gives a name of the store
    of [load_prompts], whatever [PROMPT], [CONFIG_PROMPTS] and the files
    are. *)
Theorem init_selection (cfg res : list (list N * list (list N)))
    (CONFIG_PROMPTS : pyobj) (files : dict bytes) (PROVIDER PROMPT : list N) :
  merged_providers cfg = Ok res ->
  default_provider PROVIDER res ∈ res.*1
  /\ exists name,
       default_prompt PROMPT (load_prompts o CONFIG_PROMPTS files) = Ok name
       /\ name ∈ dict_keys (load_prompts o CONFIG_PROMPTS files).
Proof.
  intros Hres. split.
  - unfold default_provider.
    destruct (dict_contains PROVIDER (dict_update [] res)) eqn:Hc.
    + apply dict_contains_true in Hc.
      exact (proj1 (dict_keys_update_nil res PROVIDER) Hc).
    + destruct (merged_providers_eq cfg) as (ks & _ & Hks & _ & Heq).
      rewrite Hres in Heq. injection Heq as ->.
      rewrite <- list_fmap_compose.
      apply list_elem_of_fmap. exists (py "OpenAI"). split; [done|].
      apply elem_of_sorted, Hks. right. by left.
  - unfold default_prompt.
    destruct (dict_contains PROMPT _) eqn:Hc.
    + exists PROMPT. split; [done|]. by apply dict_contains_true.
    + pose proof (load_prompts_nonempty CONFIG_PROMPTS files) as Hne.
      destruct (load_prompts o CONFIG_PROMPTS files) as [|[k0 v0] d]; [done|].
      exists k0. split; [done|]. apply list_elem_of_here.
Qed.

End selection_facts.

(** ** The statements above on concrete runs *)

#[local] Existing Instance Stub.runtime.

Lemma post_answer_without_disk_never_raises_witness :
  (_post_answer Stub.outside_web_fails (py "B") (py "Q?") None Bench.no_disk).1 = Ok tt.
Proof.
  apply (post_answer_without_disk_never_raises Stub.outside_web_fails Bench.no_disk).
  reflexivity.
Defined.

Lemma complete_empty_answer_witness :
  (complete Stub.no_choice Bench.anthropic_client (py "2+2?") (py "Q: {text}")
     (py "0.0")).1 = Ok [].
Proof.
  refine (proj1 (proj2 (complete_empty_answer Stub.no_choice Bench.anthropic_client
                          (py "2+2?") (py "Q: {text}") (py "Q: 2+2?") (py "0.0") _))
            _ _ _ _).
  - reflexivity.
  - reflexivity.
  - reflexivity.
  - by left.
Defined.

Lemma capture_thread_outcome_witness :
  grabbed (_capture_thread Stub.outside_ok Bench.bad_width).2 = grabbed Bench.bad_width.
Proof.
  apply (proj2 (proj2 (capture_thread_outcome Stub.outside_ok Bench.bad_width))).
  reflexivity.
Defined.

Lemma complete_substitutes_text_witness :
  exists r call,
    complete Stub.vendors Stub.openai_client (py "{a} or {b}?")
      (concat (piece_source <$>
         [Lit 0x51; Lit 0x3A; Lit 0x20; TextField; Lit 0x20; EscOpen; Lit 0x41;
          EscClose]))
      (py "0.0") = (r, [call])
    /\ call_prompt call = py "Q: {a} or {b}? {A}".
Proof.
  apply (complete_substitutes_text Stub.vendors Stub.openai_client (py "{a} or {b}?")
           [Lit 0x51; Lit 0x3A; Lit 0x20; TextField; Lit 0x20; EscOpen; Lit 0x41;
            EscClose] (py "0.0")).
  repeat constructor.
Defined.

Lemma complete_answer_stripped_witness : stripped (py "B) 4").
Proof.
  apply (complete_answer_stripped Bench.padded_vendors Stub.openai_client
           (py "2+2?") (py "Q: {text}") (py "0.0") (py "B) 4")).
  vm_compute. reflexivity.
Defined.

Lemma load_prompts_file_wins_witness :
  dict_get (py "A")
    (load_prompts Stub.outside_ok
       (PyDict [(py "A", PyStr (py "old")); (py "B", PyStr (py "b"))])
       (fs Stub.start))
  = Some (PyStr (py "Pick: {text}")).
Proof.
  apply (load_prompts_file_wins Stub.outside_ok
           [(py "A", PyStr (py "old")); (py "B", PyStr (py "b"))]
           [(py "A", PyStr (py "Pick: {text}"))] (fs Stub.start) (py "A")).
  - apply NoDup_cons. split; [|apply NoDup_singleton].
    intros Hin%list_elem_of_singleton. by vm_compute in Hin.
  - apply NoDup_singleton.
  - vm_compute. reflexivity.
  - vm_compute. reflexivity.
  - by left.
Defined.

Lemma deleted_config_prompt_returns_witness :
  (py "A" ∉ dict_keys (prompts (app (_prompt_delete Stub.outside_ok Stub.start).2)))
  /\ py "A" ∈ dict_keys (load_prompts Stub.outside_ok
                           (PyDict [(py "A", PyStr (py "Pick: {text}"))])
                           (fs (_prompt_delete Stub.outside_ok Stub.start).2)).
Proof.
  apply (deleted_config_prompt_returns Stub.outside_ok
           [(py "A", PyStr (py "Pick: {text}"))] Stub.start).
  - apply NoDup_singleton.
  - apply list_elem_of_here.
  - apply list_elem_of_here.
Defined.

Lemma prompt_save_upserts_witness :
  dict_get (py "A") (prompts (app (_prompt_save Stub.outside_ok Stub.start).2))
  = Some (PyStr (py "Pick: {text}"))
  /\ (forall k, k <> py "A" ->
        dict_get k (prompts (app (_prompt_save Stub.outside_ok Stub.start).2))
        = dict_get k (prompts (app Stub.start)))
  /\ (forall path, path <> PROMPTS_FILE ->
        dict_get path (fs (_prompt_save Stub.outside_ok Stub.start).2)
        = dict_get path (fs Stub.start))
  /\ ((_prompt_save Stub.outside_ok Stub.start).1 = Ok tt ->
      prompt_key_var (app (_prompt_save Stub.outside_ok Stub.start).2) = py "A").
Proof.
  apply (proj2 (prompt_save_upserts Stub.outside_ok Stub.start)). reflexivity.
Defined.

Lemma prompt_delete_removes_witness :
  dict_keys (prompts (app (_prompt_delete Stub.outside_ok Stub.start).2)) = []
  /\ prompt_key_var (app (_prompt_delete Stub.outside_ok Stub.start).2) = [].
Proof.
  destruct (proj2 (prompt_delete_removes Stub.outside_ok Stub.start))
    as (Hkeys & _ & _ & Hsel).
  - apply list_elem_of_here.
  - apply NoDup_singleton.
  - split; [exact Hkeys|]. apply Hsel. vm_compute. reflexivity.
Defined.

Lemma append_log_same_second_witness :
  fs (_append_log Stub.outside_ok (py "C") (py "Q2")
        (_append_log Stub.outside_ok (py "B") (py "Q1") Stub.start).2).2
  = fs (_append_log Stub.outside_ok (py "C") (py "Q2") Stub.start).2
  /\ txt_log (app (_append_log Stub.outside_ok (py "C") (py "Q2")
                     (_append_log Stub.outside_ok (py "B") (py "Q1") Stub.start).2).2)
     = [py "Log written: logs/result_20240102_030405.txt" ++ [NEWLINE];
        py "Log written: logs/result_20240102_030405.txt" ++ [NEWLINE]].
Proof.
  apply (append_log_same_second Stub.outside_ok Stub.start (py "B") (py "Q1")
           (py "C") (py "Q2")); vm_compute; reflexivity.
Defined.

Lemma append_log_reads_back_witness :
  read_text Stub.outside_ok (py "logs/result_20240102_030405.txt")
    (fs (_append_log Stub.outside_ok (py "B) 4") (py "2+2 ? é") Stub.start).2)
  = Ok (py "=== 2024-01-02 03:04:05.000006 | OpenAI | gpt-4o-mini | A ===" ++ [NEWLINE]
        ++ py "--- OCR ---" ++ [NEWLINE] ++ py "2+2 ? é" ++ [NEWLINE]
        ++ py "--- ANSWER ---" ++ [NEWLINE] ++ py "B) 4" ++ [NEWLINE]).
Proof.
  apply (append_log_reads_back Stub.outside_ok Stub.start (py "B) 4") (py "2+2 ? é")).
  - vm_compute. reflexivity.
  - vm_compute. intros Hin. repeat (apply elem_of_cons in Hin as [Hin|Hin]; [done|]).
    by apply elem_of_nil in Hin.
  - vm_compute. intros Hin. repeat (apply elem_of_cons in Hin as [Hin|Hin]; [done|]).
    by apply elem_of_nil in Hin.
  - vm_compute. intros Hin. repeat (apply elem_of_cons in Hin as [Hin|Hin]; [done|]).
    by apply elem_of_nil in Hin.
Defined.

Lemma overlay_drag_witness :
  (overlay_events
     [ButtonPress 100 100; Motion 70 130; Motion 40 160; ButtonRelease 0 0]
     RegionOverlay_init).2
  = [ {| left := 40; top := 100; width := 60; height := 60 |} ].
Proof.
  exact (proj1 (proj2 (overlay_drag 100 100 0 0 [(70, 130); (40, 160)]%Z))).
Defined.

Lemma overlay_at_most_one_witness :
  (overlay_events [ButtonPress 0 0; Motion 50 50; ButtonRelease 50 50]
     (_cancel RegionOverlay_init)).2 = [].
Proof.
  apply (proj2 (proj2 (overlay_at_most_one
                         [ButtonPress 0 0; Motion 50 50; ButtonRelease 50 50]
                         (_cancel RegionOverlay_init)))).
  reflexivity.
Defined.

Lemma drawn_region_is_captured_witness :
  let z := {| left := 40; top := 100; width := 60; height := 60 |} in
  let w1 := (region_done true 40 100 60 60 Stub.start).2 in
  (region_done true 40 100 60 60 Stub.start).1 = Ok tt
  /\ (_capture_thread Stub.outside_grab_fails w1).1 = Ok tt
  /\ grabbed (_capture_thread Stub.outside_grab_fails w1).2 = grabbed Stub.start ++ [z]
  /\ capture_zone (app (_capture_thread Stub.outside_grab_fails w1).2) = z
  /\ (10 <= width z)%Z /\ (10 <= height z)%Z.
Proof.
  apply (drawn_region_is_captured Stub.outside_grab_fails
           [ButtonPress 100 100; Motion 70 130; Motion 40 160; ButtonRelease 0 0]
           RegionOverlay_init
           {| left := 40; top := 100; width := 60; height := 60 |} true Stub.start).
  apply list_elem_of_here.
Defined.

Lemma build_llm_outcome_witness :
  (_build_llm Stub.vendors Bench.desk Stub.start).2 = Stub.start
  /\ provider Stub.openai_client = py "OpenAI"
  /\ model Stub.openai_client = py "gpt-4o-mini"
  /\ truthy (api_key Stub.openai_client) = true
  /\ (py "OpenAI" = py "OpenAI" /\ api_key Stub.openai_client = strip (py " sk-test ")
        /\ OpenAI_present Stub.vendors = true
      \/ py "OpenAI" = py "Anthropic" /\ api_key Stub.openai_client = strip []
        /\ anthropic_present Stub.vendors = true
      \/ py "OpenAI" = py "Gemini" /\ api_key Stub.openai_client = strip (py "   ")
        /\ genai_present Stub.vendors = true).
Proof.
  apply (proj1 (proj2 (build_llm_outcome Stub.vendors Bench.desk Stub.start))
           Stub.openai_client).
  reflexivity.
Defined.

Lemma test_ai_call_never_raises_witness :
  (_test_ai_call_run Stub.outside_ok Bench.host_ok Stub.vendors Bench.desk_no_key
     Stub.start).2 = []
  /\ sent (_test_ai_call_run Stub.outside_ok Bench.host_ok Stub.vendors
             Bench.desk_no_key Stub.start).1.2 = sent Stub.start
  /\ fs (_test_ai_call_run Stub.outside_ok Bench.host_ok Stub.vendors
           Bench.desk_no_key Stub.start).1.2 = fs Stub.start
  /\ clipboard (_test_ai_call_run Stub.outside_ok Bench.host_ok Stub.vendors
                  Bench.desk_no_key Stub.start).1.2 = clipboard Stub.start.
Proof.
  apply (proj2 (test_ai_call_never_raises Stub.outside_ok Bench.host_ok Stub.vendors
                  Bench.desk_no_key Stub.start)).
  reflexivity.
Defined.

Lemma test_ai_call_reports_disk_failure_witness :
  (_test_ai_call_run Stub.outside_disk_fails Bench.host_ok Stub.vendors Bench.desk
     Stub.start).1.1 = Ok tt
  /\ (_test_ai_call_run Stub.outside_disk_fails Bench.host_ok Stub.vendors Bench.desk
        Stub.start).2
     = [CallOpenAI (H:=Stub.runtime) (py "gpt-4o-mini") (py "Pick: 2+2? A)3 B)4")
          (py "0.0")]
  /\ sent (_test_ai_call_run Stub.outside_disk_fails Bench.host_ok Stub.vendors
             Bench.desk Stub.start).1.2 = sent Stub.start
  /\ q_ui (app (_test_ai_call_run Stub.outside_disk_fails Bench.host_ok Stub.vendors
                  Bench.desk Stub.start).1.2)
     = q_ui (app Stub.start) ++
       [(py "status", PText (py "Calling AI‚Ä¶"));
        (py "ai_text", PText (py "B"));
        (py "status", PText (py "AI answer received."));
        (py "error", PText (py "AI error: " ++ py "Permission denied: 'logs'"))].
Proof.
  apply (test_ai_call_reports_disk_failure Stub.outside_disk_fails Bench.host_ok
           Stub.vendors Bench.desk Stub.start Stub.openai_client
           (py "Pick: {text}") (py "B")
           [CallOpenAI (H:=Stub.runtime) (py "gpt-4o-mini") (py "Pick: 2+2? A)3 B)4")
              (py "0.0")]
           (Exn OSError (py "Permission denied: 'logs'")));
    reflexivity.
Defined.

Lemma drain_ui_queue_last_wins_witness :
  let r := _drain_ui_queue Bench.host_ok Bench.desk Bench.queued in
  r.1 = Ok tt
  /\ q_ui (app r.2.2) = []
  /\ status_var (app r.2.2) = py "AI error: timeout"
  /\ txt_ocr r.2.1 = py "2+2?"
  /\ txt_ai r.2.1 = []
  /\ preview r.2.1 = None
  /\ prompts (app r.2.2) = prompts (app Bench.queued) /\ fs r.2.2 = fs Bench.queued.
Proof.
  apply (drain_ui_queue_last_wins Bench.host_ok Bench.desk Bench.queued).
  repeat constructor; by vm_compute.
Defined.

Lemma capture_then_drain_shows_text_witness :
  let r := _drain_ui_queue Bench.host_ok Bench.desk
             (_capture_thread Stub.outside_ok Stub.start).2 in
  r.1 = Ok tt
  /\ txt_ocr r.2.1 = py "Sum of 2+2? A) 3 B) 4"
  /\ status_var (app r.2.2) = py "Capture OK (21 chars)"
  /\ preview r.2.1
     = Some {| im_mode := py "RGB"; im_size := (12, 10)%Z; im_data := Stub.png |}
  /\ q_ui (app r.2.2) = [].
Proof.
  apply (capture_then_drain_shows_text Stub.outside_ok Bench.host_ok Bench.desk
           Stub.start 40 40 12 10
           (Stub.shot {| left := 40; top := 40; width := 12; height := 10 |})
           {| im_mode := py "RGB"; im_size := (12, 10)%Z;
              im_data := replicate 360 Byte.x00 |}
           {| im_mode := py "RGB"; im_size := (12, 10)%Z; im_data := Stub.png |}
           Stub.png (py "Sum of 2+2? A) 3 B) 4")); reflexivity.
Defined.

Lemma bad_preview_stops_drain_witness :
  let r := _drain_ui_queue Bench.host_blind Bench.desk
             (_capture_thread Stub.outside_ok Stub.start).2 in
  r.1 = Raise (Exn OSError (py "cannot identify image file"))
  /\ r.2.1 = Bench.desk
  /\ status_var (app r.2.2) = status_var (app Stub.start)
  /\ q_ui (app r.2.2)
     = [(py "ocr_text", PText (py "Sum of 2+2? A) 3 B) 4"));
        (py "status", PText (py "Capture OK (21 chars)"))].
Proof.
  apply (bad_preview_stops_drain Stub.outside_ok Bench.host_blind Bench.desk
           Stub.start 40 40 12 10
           (Stub.shot {| left := 40; top := 40; width := 12; height := 10 |})
           {| im_mode := py "RGB"; im_size := (12, 10)%Z;
              im_data := replicate 360 Byte.x00 |}
           Stub.png (py "Sum of 2+2? A) 3 B) 4")
           (Exn OSError (py "cannot identify image file"))); reflexivity.
Defined.

Lemma test_discord_outcome_witness :
  (sent (_test_discord Stub.outside_ok Stub.start).2
   = sent Stub.start
     ++ [{| url := py "https://discord.example/api/webhooks/1";
            body := FormData
              [(py "content", py "Test from OCR QCM ‚Äì CTk Neon ‚úÖ")] [];
            timeout := 10 |}]
   /\ status_var (app (_test_discord Stub.outside_ok Stub.start).2) = py "Discord OK.")
  /\ (sent (_test_discord Stub.outside_ok Bench.blank_webhook).2
      = sent Bench.blank_webhook
      /\ status_var (app (_test_discord Stub.outside_ok Bench.blank_webhook).2)
         = py "Discord failed: Invalid URL '': No scheme supplied. Perhaps you meant https://?").
Proof.
  split.
  - destruct (proj2 (proj2 (proj2 (test_discord_outcome Stub.outside_ok Stub.start)))
                eq_refl) as [Hsent Hok].
    split; [exact Hsent|]. apply Hok. eexists. split; reflexivity.
  - exact (proj1 (proj2 (proj2 (test_discord_outcome Stub.outside_ok
                                  Bench.blank_webhook))) eq_refl).
Defined.

Lemma test_telegram_outcome_witness :
  sent (_test_telegram Stub.outside_ok Stub.start).2 = sent Stub.start
  /\ status_var (app (_test_telegram Stub.outside_ok Stub.start).2)
     = py "Telegram failed: Please set bot token and chat id.".
Proof.
  apply (proj1 (proj2 (test_telegram_outcome Stub.outside_ok Stub.start))).
  left. reflexivity.
Defined.

Lemma test_telegram_reports_refusal :
  sent (_test_telegram Stub.outside_web_fails Bench.with_token).2
  = sent Bench.with_token ++
    [{| url := py "https://api.telegram.org/bot123:abc/sendMessage";
        body := JsonBody (PyDict [
          (py "chat_id", PyStr (py "42"));
          (py "text", PyStr (py "Test from OCR QCM ‚Äì CTk Neon ‚úÖ"));
          (py "parse_mode", PyStr (py "Markdown"))]);
        timeout := 10 |}]
  /\ status_var (app (_test_telegram Stub.outside_web_fails Bench.with_token).2)
     = py "Telegram failed: Telegram HTTP 429: slow down".
Proof. vm_compute. done. Qed.

Lemma refresh_models_on_catalogue_witness :
  let r := _refresh_models_for_provider Bench.desk Stub.start in
  r.1 = Ok tt
  /\ (py "OpenAI", cmb_model r.2.1) ∈ Bench.catalogue
  /\ model_var (tk (app r.2.2)) ∈ cmb_model r.2.1
  /\ (model_var (tk (app Stub.start)) ∈ cmb_model r.2.1 ->
      model_var (tk (app r.2.2)) = model_var (tk (app Stub.start)))
  /\ (model_var (tk (app Stub.start)) ∉ cmb_model r.2.1 ->
      head (cmb_model r.2.1) = Some (model_var (tk (app r.2.2)))).
Proof.
  apply (proj1 (refresh_models_on_catalogue PROVIDERS Bench.catalogue Bench.desk
                  Stub.start ltac:(vm_compute; reflexivity) eq_refl)).
  by left.
Defined.

Lemma init_selection_witness :
  default_provider (py "Mistral") Bench.catalogue ∈ Bench.catalogue.*1
  /\ exists name,
       default_prompt (py "Default (Raisonnement Général)")
         (load_prompts Stub.outside_ok PyNone []) = Ok name
       /\ name ∈ dict_keys (load_prompts Stub.outside_ok PyNone []).
Proof.
  apply (init_selection Stub.outside_ok PROVIDERS Bench.catalogue PyNone []
           (py "Mistral") (py "Default (Raisonnement Général)")).
  vm_compute. reflexivity.
Defined.
